(** * x402 oracle: payment-proof verification and the paying client

    A shallow embedding of
      - [src/lib/verify-payment.ts]  ([verifyPayment], [findUSDCTransfer],
        the module-level [usedSignatures] set),
      - [src/app/api/reputation/route.ts]  (the module configuration,
        [createPaymentRequiredResponse], the [GET] and [POST] handlers,
        [generateReputationData]),
      - [src/lib/AgentWallet.ts]  ([pay], [sendUSDCPayment],
        [parsePaymentRequirements], [parseResponse], [getBalance]),
      - [src/app/page.tsx]  ([handleCheck] of the landing page's demo),
      - [src/scripts/test-job.ts]  ([loadEnv]),
    followed by the properties established about them.

    Conventions of the embedding.
      - A JavaScript [number] is an IEEE-754 binary64 value, embedded as
        [spec_float] with the operations of [SpecFloat] at precision 53 and
        maximal exponent 1024.  Unix times in seconds ([blockTime], the
        floored clock) are integers far below 2^53, where binary64
        arithmetic is exact; they are embedded as [Z].
      - A [bigint] is a [Z].  The RPC node renders token amounts as decimal
        strings; the embedding keeps the parsed value.
      - A [Set<string>] is the list of its elements in insertion order.
      - Promises are run to completion: an [async] function becomes a
        function from the state before to the result and the state after.
      - Console logging is not part of the state; the string conversions
        that a log makes of values read from a response are embedded,
        since they can throw.
      - An object literal indexed by a string that comes from outside is
        looked up as JavaScript does, own properties first and then the
        members inherited from [Object.prototype]. *)

From Stdlib Require Import ZArith List String Ascii Bool Lia.
From Stdlib Require Import SpecFloat.
From Stdlib Require Import Permutation.
Import ListNotations.

Local Open Scope string_scope.
Local Open Scope list_scope.
Local Open Scope Z_scope.

(* ================================================================== *)
(** ** JavaScript values used by the sources *)
(* ================================================================== *)

Module JS.

Definition number : Type := spec_float.

Definition prec : Z := 53.
Definition emax : Z := 1024.

(** [Number(z)] for a bigint [z], and the value of an integer literal:
    the nearest binary64, ties to even. *)
Definition Number (z : Z) : number := binary_normalize prec emax z 0 false.

Definition mul (x y : number) : number := SFmul prec emax x y.
Definition sub (x y : number) : number := SFsub prec emax x y.
Definition div (x y : number) : number := SFdiv prec emax x y.
Definition Math_abs (x : number) : number := SFabs x.

(** [x > y] and [x < y]; both are false when an operand is NaN. *)
Definition gt (x y : number) : bool := SFltb y x.
Definition lt (x y : number) : bool := SFltb x y.
Definition le (x y : number) : bool := SFleb x y.

Definition isNaN (x : number) : bool :=
  match x with S754_nan => true | _ => false end.

Definition isFinite (x : number) : bool :=
  match x with S754_zero _ | S754_finite _ _ _ => true | _ => false end.

(** [Math.round(x)] as an integer: floor (x + 1/2), computed exactly.
    [None] stands for NaN and the infinities, which [BigInt] refuses. *)
Definition Math_round (x : number) : option Z :=
  match x with
  | S754_zero _ => Some 0
  | S754_finite s m e =>
      let n := if s then Z.neg m else Z.pos m in
      match e with
      | Z0 => Some n
      | Zpos _ => Some (n * 2 ^ e)
      | Zneg _ => Some ((2 * n + 2 ^ (- e)) / 2 ^ (- e + 1))
      end
  | _ => None
  end.

(** The literal [0.05]: the binary64 value 0x1.999999999999ap-5. *)
Definition lit_0_05 : number := S754_finite false 7205759403792794 (-57).

(** *** [Set<string>], in insertion order *)

Definition StringSet : Type := list string.

Definition has (u : StringSet) (s : string) : bool :=
  existsb (String.eqb s) u.

Definition add (u : StringSet) (s : string) : StringSet :=
  if has u s then u else u ++ [s].

Definition delete (u : StringSet) (s : string) : StringSet :=
  filter (fun x => negb (String.eqb x s)) u.

Definition size (u : StringSet) : Z := Z.of_nat (List.length u).

(** [Array.from(u).slice(0, n)] *)
Definition slice0 (u : StringSet) (n : Z) : list string := firstn (Z.to_nat n) u.

End JS.

Import JS.

(* ================================================================== *)
(** ** src/lib/verify-payment.ts *)
(* ================================================================== *)

(** One entry of [meta.preTokenBalances] / [meta.postTokenBalances].
    [amount] is [uiTokenAmount.amount]; [owner] is optional in the RPC
    type. *)
Record TokenBalance : Type := mkTokenBalance
  { accountIndex : Z;
    mint : string;
    owner : option string;
    amount : Z }.

(** An entry of [tx.transaction.message.instructions]: either without a
    [parsed] key, or parsed with [program], [parsed.type], [parsed.info.mint]
    and [parsed.info.destination].  A parsed instruction carries its
    [parsed.info] object, as the RPC node renders every instruction of the
    token program; the two fields of it that the code reads may be
    missing. *)
Inductive Instruction : Type :=
| PartiallyDecoded
| Parsed (program : string) (ptype : string)
         (info_mint : option string) (info_destination : option string).

(** [meta.err]: a string or an object (kept as its JSON rendering). *)
Inductive TransactionError : Type :=
| ErrString (s : string)
| ErrObject (json : string).

Definition truthyErr (e : TransactionError) : bool :=
  match e with
  | ErrString s => negb (String.eqb s "")
  | ErrObject _ => true
  end.

Record Meta : Type := mkMeta
  { err : option TransactionError;
    preTokenBalances : option (list TokenBalance);
    postTokenBalances : option (list TokenBalance) }.

Record ParsedTransactionWithMeta : Type := mkTx
  { blockTime : option Z;
    slot : Z;
    meta : option Meta;
    instructions : list Instruction }.

(** What [catch (error)] receives: an [Error] with its message, or
    any other thrown value.  A message is a text, or the one template
    with interpolated numbers that the sources build themselves
    ([sendUSDCPayment], line 263). *)
Inductive Message : Type :=
| Text (s : string)
| InsufficientBalance (have need : number).
  (* `Insufficient USDC balance. Have: ${have}, Need: ${need}` *)

Inductive Thrown : Type :=
| ThrownError (message : Message)
| ThrownOther.

(** [error instanceof Error ? error.message : 'Unknown error'] *)
Definition messageOf (t : Thrown) : Message :=
  match t with
  | ThrownError m => m
  | ThrownOther => Text "Unknown error"
  end.

(** The error strings of [PaymentVerification.error], one constructor per
    message template, carrying the values the template interpolates. *)
Inductive VerifyError : Type :=
| ReplayDetected                       (* 'Transaction signature already used (replay attack prevented)' *)
| UnknownNetwork (network : string)    (* `Unknown network: ${network}` *)
| TransactionNotFound                  (* 'Transaction not found' *)
| TransactionFailed (e : TransactionError)  (* `Transaction failed: ${JSON.stringify(tx.meta.err)}` *)
| TransactionTooOld (age : Z)          (* `Transaction too old (${age}s > 300s max)` *)
| TransactionFromFuture                (* 'Transaction timestamp is in the future' *)
| TransferNotFound (receiver : string) (* `No USDC transfer to ${expectedReceiver} found in transaction` *)
| NoValidTransfer                      (* 'No valid USDC transfer found' *)
| AmountMismatch (expected got : number) (* `Amount mismatch: expected ${expectedAmount} USDC, got ${amount / 1_000_000} USDC` *)
| VerificationFailed (message : Message). (* `Verification failed: ${message}` *)

Module TransferSearchResult.
Record t : Type := mk
  { found : bool;
    error : option VerifyError;
    sender : option string;
    receiver : option string;
    amount : option number }.
End TransferSearchResult.

Module PaymentVerification.
Record t : Type := mk
  { valid : bool;
    error : option VerifyError;
    sender : option string;
    receiver : option string;
    amount : option number;
    timestamp : option Z;
    slot : option Z }.
End PaymentVerification.

(** The own properties of the object literal [USDC_MINTS] (lines 25-28;
    AgentWallet.ts holds the same literal at lines 34-37). *)
Definition USDC_MINTS (network : string) : option string :=
  if String.eqb network "devnet"
  then Some "4zMMC9srt5Ri5X14GAgXhaHii3GnPAEERYPJgZJDncDU"
  else if String.eqb network "mainnet-beta"
  then Some "EPjFWdd5AufqSSqeM2qN1xzybapC8G4wEGGkZwyTDt1v"
  else None.

(** The names of the properties that every object literal inherits from
    [Object.prototype]. *)
Definition Object_prototype : list string :=
  ["constructor"; "hasOwnProperty"; "isPrototypeOf"; "propertyIsEnumerable";
   "toLocaleString"; "toString"; "valueOf"; "__proto__";
   "__defineGetter__"; "__defineSetter__"; "__lookupGetter__";
   "__lookupSetter__"].

(** What indexing the literal gives when it is not [undefined]: one of its
    own strings, or an inherited member (a function; for [__proto__] the
    prototype object).  An inherited member is truthy and is strictly
    equal to no string. *)
Inductive Member : Type :=
| OwnString (s : string)
| InheritedMember.

Coercion OwnString : string >-> Member.

(** [USDC_MINTS[network]] (line 65): the lookup goes through the
    prototype chain.  [None] is [undefined]. *)
Definition USDC_MINTS_at (network : string) : option Member :=
  match USDC_MINTS network with
  | Some m => Some (OwnString m)
  | None =>
      if existsb (String.eqb network) Object_prototype
      then Some InheritedMember
      else None
  end.

(** [a === m] for a string [a]. *)
Definition strictEq (a : string) (m : Member) : bool :=
  match m with
  | OwnString s => String.eqb a s
  | InheritedMember => false
  end.

(** [a === m] for an optional string [a]. *)
Definition opt_strictEq (a : option string) (m : Member) : bool :=
  match a with Some x => strictEq x m | None => false end.

Definition MAX_TX_AGE_SECONDS : Z := 300.

(** [a === b] for an optional string against a string. *)
Definition opt_eqb (a : option string) (b : string) : bool :=
  match a with Some x => String.eqb x b | None => false end.

(** [balances.find(p => p.accountIndex === i)] *)
Definition findByIndex (balances : list TokenBalance) (i : Z) : option TokenBalance :=
  find (fun p => accountIndex p =? i) balances.

(** [meta?.preTokenBalances || []] and its post counterpart. *)
Definition preBalancesOf (tx : ParsedTransactionWithMeta) : list TokenBalance :=
  match meta tx with
  | Some m => match preTokenBalances m with Some l => l | None => [] end
  | None => []
  end.

Definition postBalancesOf (tx : ParsedTransactionWithMeta) : list TokenBalance :=
  match meta tx with
  | Some m => match postTokenBalances m with Some l => l | None => [] end
  | None => []
  end.

Section FindUSDCTransfer.

Variable usdcMint : Member.
Variable expectedReceiver : string.
Variable preBalances postBalances : list TokenBalance.

(** Lines 224-240: the sender loop inside the instruction pass. *)
Fixpoint senderLoopIx (delta : Z) (rest : list TokenBalance) : option string :=
  match rest with
  | [] => None
  | preB :: rest' =>
      if strictEq (mint preB) usdcMint && negb (opt_eqb (owner preB) expectedReceiver)
      then
        let postB := findByIndex postBalances (accountIndex preB) in
        let senderPre := amount preB in
        let senderPost := match postB with Some b => amount b | None => 0 end in
        if senderPre - senderPost =? delta
        then owner preB
        else senderLoopIx delta rest'
      else senderLoopIx delta rest'
  end.

(** Lines 209-250: the loop over [postBalances] inside the instruction
    pass.  [Some r] is a [return r]; [None] is the loop running out. *)
Fixpoint postLoopIx (rest : list TokenBalance) : option TransferSearchResult.t :=
  match rest with
  | [] => None
  | post :: rest' =>
      if strictEq (mint post) usdcMint && opt_eqb (owner post) expectedReceiver
      then
        let pre := findByIndex preBalances (accountIndex post) in
        let preAmount := match pre with Some p => amount p | None => 0 end in
        let postAmount := amount post in
        let delta := postAmount - preAmount in
        if 0 <? delta
        then Some (TransferSearchResult.mk true None
                     (senderLoopIx delta preBalances)
                     (Some expectedReceiver)
                     (Some (Number delta)))
        else postLoopIx rest'
      else postLoopIx rest'
  end.

(** Lines 184-253: the loop over the instructions. *)
Fixpoint instructionLoop (ixs : list Instruction) : option TransferSearchResult.t :=
  match ixs with
  | [] => None
  | PartiallyDecoded :: rest => instructionLoop rest
  | Parsed program ptype info_mint info_destination :: rest =>
      if String.eqb program "spl-token"
      then
        if String.eqb ptype "transfer" || String.eqb ptype "transferChecked"
        then
          if String.eqb ptype "transferChecked" && negb (opt_strictEq info_mint usdcMint)
          then instructionLoop rest
          else
            match postLoopIx postBalances with
            | Some r => Some r
            | None => instructionLoop rest
            end
        else instructionLoop rest
      else instructionLoop rest
  end.

(** Lines 271-287: the sender loop of the fallback. *)
Fixpoint senderLoop (delta : Z) (rest : list TokenBalance) : option string :=
  match rest with
  | [] => None
  | preB :: rest' =>
      if strictEq (mint preB) usdcMint && negb (opt_eqb (owner preB) expectedReceiver)
      then
        let postB := findByIndex postBalances (accountIndex preB) in
        let senderPre := amount preB in
        let senderPost := match postB with Some b => amount b | None => 0 end in
        if senderPre - senderPost =? delta
        then owner preB
        else senderLoop delta rest'
      else senderLoop delta rest'
  end.

(** Lines 259-297: the fallback loop over [postBalances]. *)
Fixpoint postLoop (rest : list TokenBalance) : option TransferSearchResult.t :=
  match rest with
  | [] => None
  | post :: rest' =>
      if strictEq (mint post) usdcMint && opt_eqb (owner post) expectedReceiver
      then
        let pre := findByIndex preBalances (accountIndex post) in
        let preAmount := match pre with Some p => amount p | None => 0 end in
        let postAmount := amount post in
        let delta := postAmount - preAmount in
        if 0 <? delta
        then Some (TransferSearchResult.mk true None
                     (senderLoop delta preBalances)
                     (Some expectedReceiver)
                     (Some (Number delta)))
        else postLoop rest'
      else postLoop rest'
  end.

Definition notFound : TransferSearchResult.t :=
  TransferSearchResult.mk false (Some (TransferNotFound expectedReceiver)) None None None.

End FindUSDCTransfer.

(** Lines 255-302 on their own: the balance-delta scan. *)
Definition balanceDeltaScan (tx : ParsedTransactionWithMeta)
  (usdcMint : Member) (expectedReceiver : string) : TransferSearchResult.t :=
  let preBalances := preBalancesOf tx in
  let postBalances := postBalancesOf tx in
  match postLoop usdcMint expectedReceiver preBalances postBalances postBalances with
  | Some r => r
  | None => notFound expectedReceiver
  end.

Definition findUSDCTransfer (tx : ParsedTransactionWithMeta)
  (usdcMint : Member) (expectedReceiver : string) : TransferSearchResult.t :=
  match instructionLoop usdcMint expectedReceiver
          (preBalancesOf tx) (postBalancesOf tx) (instructions tx) with
  | Some r => r
  | None => balanceDeltaScan tx usdcMint expectedReceiver
  end.

(** *** The ledger query and the process state *)


(** Outcome of [connection.getParsedTransaction(signature, ...)]. *)
Inductive RpcOutcome : Type :=
| RpcThrows (t : Thrown)
| RpcNull
| RpcTx (tx : ParsedTransactionWithMeta).

(** What a call reads from outside the process: the ledger behind the RPC
    endpoint and the clock [Date.now()] in milliseconds. *)
Record Env : Type := mkEnv
  { getParsedTransaction : string -> RpcOutcome;
    Date_now : Z }.

(** The module-level [usedSignatures], and the ledger queries issued so
    far (the signatures passed to [getParsedTransaction], oldest first). *)
Record World : Type := mkWorld
  { usedSignatures : StringSet;
    rpcCalls : list string }.

Definition failure (e : VerifyError) : PaymentVerification.t :=
  PaymentVerification.mk false (Some e) None None None None None.

(** [tx.meta?.err] when it is truthy. *)
Definition metaErr (tx : ParsedTransactionWithMeta) : option TransactionError :=
  match meta tx with
  | Some m =>
      match err m with
      | Some e => if truthyErr e then Some e else None
      | None => None
      end
  | None => None
  end.

(** [transferResult.amount!] inside arithmetic: [undefined] becomes NaN. *)
Definition amountOf (r : TransferSearchResult.t) : number :=
  match TransferSearchResult.amount r with Some a => a | None => S754_nan end.

(** Lines 141-148: insert, then drop the 5000 oldest entries once the set
    holds more than 10000. *)
Definition commitSignature (used : StringSet) (signature : string) : StringSet :=
  let used1 := add used signature in
  if 10000 <? size used1
  then
    let entries := used1 in
    fold_left delete (slice0 entries 5000) used1
  else used1.

(** Lines 95-117: the age check.  [Some r] is a [return r]; [None] lets
    the call go on.  [if (txTimestamp)] is false for [null], for
    [undefined] and for [0]. *)
Definition checkAge (env : Env) (txTimestamp : option Z)
  : option PaymentVerification.t :=
  match txTimestamp with
  | Some t =>
      if t =? 0 then None
      else
        let now := Date_now env / 1000 in
        let age := now - t in
        if age >? MAX_TX_AGE_SECONDS
        then Some (PaymentVerification.mk false
                     (Some (TransactionTooOld age))
                     None None None (Some t) None)
        else if age <? -60
        then Some (PaymentVerification.mk false
                     (Some TransactionFromFuture)
                     None None None (Some t) None)
        else None
  | None => None
  end.

(** Lines 119-157: transfer extraction, amount check and commit, in the
    state [w1] reached after the ledger query. *)
Definition checkTransfer (tx : ParsedTransactionWithMeta) (usdcMint : Member)
  (signature : string) (expectedAmount : number) (expectedReceiver : string)
  (w1 : World) : PaymentVerification.t * World :=
  let txTimestamp := blockTime tx in
  let transferResult := findUSDCTransfer tx usdcMint expectedReceiver in
  if negb (TransferSearchResult.found transferResult)
  then
    (failure (match TransferSearchResult.error transferResult with
              | Some e => e
              | None => NoValidTransfer
              end), w1)
  else
    let expectedAmountRaw := mul expectedAmount (Number 1000000) in
    let tolerance := Number 1000 in
    if gt (Math_abs (sub (amountOf transferResult) expectedAmountRaw)) tolerance
    then
      (PaymentVerification.mk false
         (Some (AmountMismatch expectedAmount
                  (div (amountOf transferResult) (Number 1000000))))
         None None
         (Some (div (amountOf transferResult) (Number 1000000)))
         None None, w1)
    else
      (PaymentVerification.mk true None
         (TransferSearchResult.sender transferResult)
         (TransferSearchResult.receiver transferResult)
         (Some (div (amountOf transferResult) (Number 1000000)))
         txTimestamp
         (Some (slot tx)),
       mkWorld (commitSignature (usedSignatures w1) signature) (rpcCalls w1)).

(** Lines 46-164.  The [catch] at line 158 receives what the ledger query
    throws; nothing after the query throws in this embedding. *)
Definition verifyPayment (env : Env) (signature : string)
  (expectedAmount : number) (expectedReceiver : string) (network : string)
  (w : World) : PaymentVerification.t * World :=
  if has (usedSignatures w) signature
  then (failure ReplayDetected, w)
  else
    match USDC_MINTS_at network with
    | None => (failure (UnknownNetwork network), w)
    | Some usdcMint =>
        let w1 := mkWorld (usedSignatures w) (rpcCalls w ++ [signature]) in
        match getParsedTransaction env signature with
        | RpcThrows t => (failure (VerificationFailed (messageOf t)), w1)
        | RpcNull => (failure TransactionNotFound, w1)
        | RpcTx tx =>
            match metaErr tx with
            | Some e => (failure (TransactionFailed e), w1)
            | None =>
                match checkAge env (blockTime tx) with
                | Some r => (r, w1)
                | None =>
                    checkTransfer tx usdcMint signature
                      expectedAmount expectedReceiver w1
                end
            end
        end
    end.

Definition clearUsedSignatures (w : World) : World :=
  mkWorld [] (rpcCalls w).

Definition isSignatureUsed (signature : string) (w : World) : bool :=
  has (usedSignatures w) signature.

(* ================================================================== *)
(** ** src/app/api/reputation/route.ts *)
(* ================================================================== *)

(** The process configuration read at module load. *)
Record Config : Type := mkConfig
  { RECEIVER_WALLET : string;
    NETWORK : string }.

Definition PRICE_USDC : number := lit_0_05.

(** White space as [\s] and [trim] see it, among the code units a header
    value can hold (0-255). *)
Definition isSpace (c : ascii) : bool :=
  let n := nat_of_ascii c in
  (Nat.eqb n 9 || Nat.eqb n 10 || Nat.eqb n 11 || Nat.eqb n 12
   || Nat.eqb n 13 || Nat.eqb n 32 || Nat.eqb n 160)%bool.

Fixpoint trimStart (s : string) : string :=
  match s with
  | String c r => if isSpace c then trimStart r else s
  | EmptyString => EmptyString
  end.

Fixpoint trimEnd (s : string) : string :=
  match s with
  | String c r =>
      let r' := trimEnd r in
      if isSpace c && String.eqb r' "" then "" else String c r'
  | EmptyString => EmptyString
  end.

Definition trim (s : string) : string := trimEnd (trimStart s).

(** ASCII lower-casing, for the [i] flag. *)
Definition toLower (c : ascii) : ascii :=
  let n := nat_of_ascii c in
  if (Nat.leb 65 n && Nat.leb n 90)%bool then ascii_of_nat (n + 32) else c.

Fixpoint lowerPrefix (p s : string) : option string :=
  match p, s with
  | EmptyString, _ => Some s
  | String a p', String b s' =>
      if Ascii.eqb a (toLower b) then lowerPrefix p' s' else None
  | String _ _, EmptyString => None
  end.

(** [s.replace(/^bearer\s+/i, '')] *)
Definition stripBearer (s : string) : string :=
  match lowerPrefix "bearer" s with
  | Some (String c r) => if isSpace c then trimStart r else s
  | _ => s
  end.

(** The answers of the two handlers, one constructor per body.
    [NoWallet400] is the 400 of [GET] (lines 234-239, 'No wallet address
    provided and could not determine payer wallet') and
    [NoWalletProvided400] the 400 of [POST] (lines 324-329, 'No wallet
    address provided'). *)
Inductive Response : Type :=
| PaymentRequired402
| InvalidAuthorization400
| VerificationFailed402 (details : option VerifyError)
| NoWallet400
| Reputation200 (queryWallet : string) (verification : PaymentVerification.t)
                (signature : string)
| NoWalletProvided400.

Definition status (r : Response) : Z :=
  match r with
  | PaymentRequired402 => 402
  | InvalidAuthorization400 => 400
  | VerificationFailed402 _ => 402
  | NoWallet400 => 400
  | Reputation200 _ _ _ => 200
  | NoWalletProvided400 => 400
  end.

Definition truthyString (s : option string) : bool :=
  match s with Some x => negb (String.eqb x "") | None => false end.

(** [GET]: [authHeader] is [request.headers.get('authorization')],
    [walletParam] is [searchParams.get('wallet')]. *)
Definition GET (cfg : Config) (env : Env)
  (authHeader : option string) (walletParam : option string)
  (w : World) : Response * World :=
  match authHeader with
  | None => (PaymentRequired402, w)
  | Some h =>
      if String.eqb h "" then (PaymentRequired402, w)
      else
        let signature := trim (stripBearer h) in
        if String.eqb signature "" || (Z.of_nat (String.length signature) <? 80)
        then (InvalidAuthorization400, w)
        else
          let '(verification, w') :=
            verifyPayment env signature PRICE_USDC
              (RECEIVER_WALLET cfg) (NETWORK cfg) w in
          if negb (PaymentVerification.valid verification)
          then (VerificationFailed402 (PaymentVerification.error verification), w')
          else
            let queryWallet :=
              if truthyString walletParam then walletParam
              else PaymentVerification.sender verification in
            match queryWallet with
            | Some q =>
                if String.eqb q "" then (NoWallet400, w')
                else (Reputation200 q verification signature, w')
            | None => (NoWallet400, w')
            end
  end.

(* ================================================================== *)
(** ** src/lib/AgentWallet.ts *)
(* ================================================================== *)

(** A value produced by [response.json()]. *)
#[local] Unset Elimination Schemes.
Inductive jsval : Type :=
| JUndefined
| JNull
| JBool (b : bool)
| JNum (x : number)
| JStr (s : string)
| JArr (items : list jsval)
| JObj (fields : list (string * jsval)).
#[local] Set Elimination Schemes.

Definition truthy (v : jsval) : bool :=
  match v with
  | JUndefined | JNull => false
  | JBool b => b
  | JNum x => match x with S754_zero _ | S754_nan => false | _ => true end
  | JStr s => negb (String.eqb s "")
  | JArr _ | JObj _ => true
  end.

Fixpoint lookup (k : string) (fields : list (string * jsval)) : jsval :=
  match fields with
  | [] => JUndefined
  | (k', v) :: rest => if String.eqb k k' then v else lookup k rest
  end.

(** [v.k], for a [v] that is neither [null] nor [undefined] and a [k]
    among the descriptor's field names. *)
Definition get (v : jsval) (k : string) : jsval :=
  match v with
  | JObj fields => lookup k fields
  | _ => JUndefined
  end.

(** [a || b] *)
Definition orElse (a b : jsval) : jsval := if truthy a then a else b.

(** [s.replace('$', '')]: the first dollar sign is removed. *)
Fixpoint removeDollar (s : string) : string :=
  match s with
  | EmptyString => EmptyString
  | String c r => if Ascii.eqb c "$"%char then r else String c (removeDollar r)
  end.

Fixpoint isPrefix (p s : string) : bool :=
  match p, s with
  | EmptyString, _ => true
  | String a p', String b s' => Ascii.eqb a b && isPrefix p' s'
  | String _ _, EmptyString => false
  end.

(** [s.includes(p)] *)
Fixpoint includes (s p : string) : bool :=
  isPrefix p s ||
  match s with
  | EmptyString => false
  | String _ r => includes r p
  end.

(** An object with string values as the list of its own enumerable
    properties, in the order of their creation. *)
Definition Headers : Type := list (string * string).

(** [h[k] = v]: an existing key keeps its place. *)
Fixpoint setKey {V : Type} (k : string) (v : V) (h : list (string * V))
  : list (string * V) :=
  match h with
  | [] => [(k, v)]
  | (k', v') :: rest =>
      if String.eqb k k' then (k, v) :: rest else (k', v') :: setKey k v rest
  end.

(** [{ ...base, ...extra }]: the own enumerable properties of [extra] are
    copied over those of [base]; keys are compared as they are, letter
    case included. *)
Definition spread {V : Type} (base extra : list (string * V))
  : list (string * V) :=
  fold_left (fun acc kv => setKey (fst kv) (snd kv) acc) extra base.

(** [RequestInit].  [headers] is [options.headers] as the object spread
    of lines 152-155 and 201-205 sees it, the list of its own enumerable
    properties: the entries of a plain object; for an array of pairs its
    indices, each holding its pair; nothing for [undefined] and for a
    [Headers] instance, which keeps its entries in internal slots.
    Everything else of the options is kept opaque in [rest]. *)
Record RequestInit : Type := mkInit
  { headers : list (string * jsval);
    rest : string }.

Record Request : Type := mkRequest
  { url : string;
    init : RequestInit }.

(** A [Response]: its status, its content type, and what [json()] and
    [text()] resolve to. *)
Record HttpResponse : Type := mkHttp
  { http_status : Z;
    content_type : option string;
    json : Thrown + jsval;
    text : Thrown + string }.

(** [response.ok] *)
Definition ok (r : HttpResponse) : bool :=
  (200 <=? http_status r) && (http_status r <=? 299).

Inductive Body : Type :=
| BodyJson (v : jsval)
| BodyText (s : string).

Inductive PayError : Type :=
| ExceedsMaximum (amount maxAmount : number) (* `Payment amount $${amount} exceeds maximum $${maxAmount}` *)
| Http (status : Z)                          (* `HTTP ${status}` *)
| Caught (m : Message).                      (* the message of the caught error *)

Module PaymentResponse.
Record t : Type := mk
  { success : bool;
    data : option Body;
    error : option PayError;
    txSignature : option string;
    status : Z }.
End PaymentResponse.

Record PaymentRequirements : Type := mkRequirements
  { req_receiver : jsval;
    req_amount : number;
    req_token : jsval;
    req_network : jsval }.

(** The transfer handed to [createTransferInstruction]. *)
Record Transfer : Type := mkTransfer
  { source : string;
    destination : string;
    authority : string;
    amountRaw : Z }.

(** What a [pay] call does to the outside, in order. *)
Inductive Event : Type :=
| EvFetch (r : Request)
| EvResponse (status : Z)
| EvGetAccount (tokenAccount : string)
| EvCreateTransferInstruction (t : Transfer)
| EvSendAndConfirmTransaction (t : Transfer).

(** Computations that may throw and that append to the trace. *)
Definition M (A : Type) : Type := list Event -> (A + Thrown) * list Event.

Definition ret {A} (a : A) : M A := fun tr => (inl a, tr).
Definition throw {A} (t : Thrown) : M A := fun tr => (inr t, tr).
Definition emit (e : Event) : M unit := fun tr => (inl tt, tr ++ [e]).
Definition lift {A} (r : Thrown + A) : M A :=
  fun tr => match r with inl t => (inr t, tr) | inr a => (inl a, tr) end.
Definition bind {A B} (m : M A) (k : A -> M B) : M B :=
  fun tr =>
    match m tr with
    | (inl a, tr') => k a tr'
    | (inr t, tr') => (inr t, tr')
    end.

Notation "x <- m ;; k" := (bind m (fun x => k))
  (at level 61, m at next level, right associativity).
Notation "m ;;; k" := (bind m (fun _ => k))
  (at level 61, right associativity).

(** Whether the string conversion of a template literal, [`${v}`],
    succeeds for a value read from JSON.  It throws a [TypeError] for an
    object with a property [toString] of its own (no value read from JSON
    is callable, and [Object.prototype.valueOf] returns the object
    itself), and for an array one of whose elements cannot be converted
    ([Array.prototype.join]). *)
Fixpoint convertible (v : jsval) : bool :=
  match v with
  | JObj fields =>
      negb (existsb (fun kv => String.eqb (fst kv) "toString") fields)
  | JArr items => forallb convertible items
  | _ => true
  end.

Section AgentWallet.

(** Built-ins of the host: [parseFloat], and [v.toString()] for a [v] that
    is neither [null] nor [undefined] (it throws when [v] carries a
    [toString] of its own that is not callable). *)
Variable parseFloat : string -> number.
Variable toString : jsval -> Thrown + string.

(** The network and the chain libraries, as [pay] uses them.
    [createTransferInstruction] encodes the amount in 64 bits and throws
    when it does not fit. *)
Record Net : Type := mkNet
  { fetch : Request -> Thrown + HttpResponse;
    PublicKey_new : jsval -> Thrown + string;
    getAssociatedTokenAddress : string -> string -> Thrown + string;
    getAccount : string -> Thrown + Z;
    sendAndConfirmTransaction : Transfer -> Thrown + string;
    createTransferInstruction : Transfer -> Thrown + unit }.

(** The instance: the key pair's public key, the configured network and
    the [debug] flag.  The network is declared as ['devnet' |
    'mainnet-beta'] (line 79) and set by the constructor only; the
    lookups of lines 243 and 330 are embedded on the own properties of
    [USDC_MINTS]. *)
Record Wallet : Type := mkWallet
  { publicKey : string;
    network : string;
    debug : bool }.

Variable net : Net.
Variable this : Wallet.

(** [v?.toString().replace('$', '')] *)
Definition amountText (v : jsval) : M (option string) :=
  match v with
  | JUndefined | JNull => ret None
  | _ => s <- lift (toString v) ;; ret (Some (removeDollar s))
  end.

(** Lines 293-311. *)
Definition parsePaymentRequirements (response : jsval) : M PaymentRequirements :=
  match response with
  | JUndefined | JNull =>
      throw (ThrownError (Text "Cannot read properties of null"))
  | _ =>
      let payment := orElse (get response "payment") response in
      let receiver :=
        orElse (get payment "receiver")
          (orElse (get payment "address")
             (orElse (get payment "wallet") (get payment "recipient"))) in
      a <- amountText (get payment "amount") ;;
      amountArg <-
        (if truthyString a then ret a
         else
           p <- amountText (get payment "price") ;;
           ret (if truthyString p then p else Some "0")) ;;
      let amount :=
        parseFloat (match amountArg with Some s => s | None => "0" end) in
      ret (mkRequirements receiver amount
             (orElse (get payment "token")
                (orElse (get payment "asset") (JStr "USDC")))
             (orElse (get payment "network") (JStr (network this))))
  end.

(** Lines 316-324. *)
Definition parseResponse (response : HttpResponse) : M Body :=
  match content_type response with
  | Some ct =>
      if includes ct "application/json"
      then v <- lift (json response) ;; ret (BodyJson v)
      else s <- lift (text response) ;; ret (BodyText s)
  | None => s <- lift (text response) ;; ret (BodyText s)
  end.

(** Lines 239-288. *)
Definition sendUSDCPayment (receiver : jsval) (amount : number) : M string :=
  usdcMint <- lift (PublicKey_new net
                      (match USDC_MINTS (network this) with
                       | Some m => JStr m
                       | None => JUndefined
                       end)) ;;
  receiverPubkey <- lift (PublicKey_new net receiver) ;;
  senderTokenAccount <-
    lift (getAssociatedTokenAddress net usdcMint (publicKey this)) ;;
  receiverTokenAccount <-
    lift (getAssociatedTokenAddress net usdcMint receiverPubkey) ;;
  emit (EvGetAccount senderTokenAccount) ;;;
  senderAccount <- lift (getAccount net senderTokenAccount) ;;
  amountRaw <-
    match Math_round (mul amount (Number 1000000)) with
    | Some z => ret z
    | None => throw (ThrownError (Text "RangeError"))
    end ;;
  if senderAccount <? amountRaw
  then
    throw (ThrownError
             (InsufficientBalance
                (div (Number senderAccount) (Number 1000000)) amount))
  else
    let transferIx :=
      mkTransfer senderTokenAccount receiverTokenAccount
        (publicKey this) amountRaw in
    emit (EvCreateTransferInstruction transferIx) ;;;
    lift (createTransferInstruction net transferIx) ;;;
    emit (EvSendAndConfirmTransaction transferIx) ;;;
    signature <- lift (sendAndConfirmTransaction net transferIx) ;;
    ret signature.

(** Lines 173-177: the log of the requirements when [debug] is on.  The
    console is not part of the state; what is kept is that the template
    literals convert [requirements.receiver] and [requirements.token] to
    strings, which throws for a value that cannot be converted. *)
Definition logRequirements (requirements : PaymentRequirements) : M unit :=
  if debug this
  then
    if convertible (req_receiver requirements)
       && convertible (req_token requirements)
    then ret tt
    else throw (ThrownError (Text "Cannot convert object to primitive value"))
  else ret tt.

(** [fetch(url, init)], with the request and the status of the response
    recorded in the trace. *)
Definition doFetch (r : Request) : M HttpResponse :=
  emit (EvFetch r) ;;;
  response <- lift (fetch net r) ;;
  emit (EvResponse (http_status response)) ;;;
  ret response.

(** Lines 149-220: the body of the [try] block. *)
Definition payTry (url : string) (maxAmount : number) (options : RequestInit)
  : M PaymentResponse.t :=
  initialResponse <-
    doFetch (mkRequest url
               (mkInit (spread [("Content-Type", JStr "application/json")]
                          (headers options))
                       (rest options))) ;;
  if negb (http_status initialResponse =? 402)
  then
    data <- parseResponse initialResponse ;;
    ret (PaymentResponse.mk (ok initialResponse) (Some data)
           (if ok initialResponse then None
            else Some (Http (http_status initialResponse)))
           None
           (http_status initialResponse))
  else
    paymentInfo <- lift (json initialResponse) ;;
    requirements <- parsePaymentRequirements paymentInfo ;;
    logRequirements requirements ;;;
    if gt (req_amount requirements) maxAmount
    then
      ret (PaymentResponse.mk false None
             (Some (ExceedsMaximum (req_amount requirements) maxAmount))
             None 402)
    else
      txSignature <-
        sendUSDCPayment (req_receiver requirements) (req_amount requirements) ;;
      paidResponse <-
        doFetch (mkRequest url
                   (mkInit (spread [("Content-Type", JStr "application/json");
                                    ("Authorization", JStr txSignature)]
                              (headers options))
                           (rest options))) ;;
      data <- parseResponse paidResponse ;;
      ret (PaymentResponse.mk (ok paidResponse) (Some data)
             (if ok paidResponse then None
              else Some (Http (http_status paidResponse)))
             (Some txSignature)
             (http_status paidResponse)).

(** Lines 139-234: [pay], the [try] block under its [catch]. *)
Definition pay (url : string) (maxAmount : number) (options : RequestInit)
  (tr : list Event) : PaymentResponse.t * list Event :=
  match payTry url maxAmount options tr with
  | (inl r, tr') => (r, tr')
  | (inr t, tr') =>
      (PaymentResponse.mk false None (Some (Caught (messageOf t))) None 0, tr')
  end.

End AgentWallet.

(* ================================================================== *)
(** ** Vocabulary of the statements *)
(* ================================================================== *)

(** The state after [n] presentations of the same signature with the same
    arguments against the same ledger and clock. *)
Fixpoint presentations (env : Env) (signature : string) (expectedAmount : number)
  (expectedReceiver network : string) (n : nat) (w : World) : World :=
  match n with
  | O => w
  | S k =>
      presentations env signature expectedAmount expectedReceiver network k
        (snd (verifyPayment env signature expectedAmount expectedReceiver network w))
  end.

(** One call of [verifyPayment]: what it reads from outside and its
    arguments. *)
Record Call : Type := mkCall
  { call_env : Env;
    call_signature : string;
    call_expectedAmount : number;
    call_expectedReceiver : string;
    call_network : string }.

(** The state after a call, and after a sequence of calls. *)
Definition perform (w : World) (c : Call) : World :=
  snd (verifyPayment (call_env c) (call_signature c) (call_expectedAmount c)
         (call_expectedReceiver c) (call_network c) w).

Definition performAll (calls : list Call) (w : World) : World :=
  fold_left perform calls w.

(** [sig] is in the set with at most [k] entries after it. *)
Definition remembered (sig : string) (k : nat) (u : StringSet) : Prop :=
  exists l1 l2, u = l1 ++ sig :: l2 /\ ~ In sig l1 /\ (List.length l2 <= k)%nat.

(** The balance of the entry with the same account index in the other
    snapshot, 0 when there is none. *)
Definition amountAt (balances : list TokenBalance) (b : TokenBalance) : Z :=
  match findByIndex balances (accountIndex b) with
  | Some p => amount p
  | None => 0
  end.

(** [post] is an entry of the expected mint, owned by the expected
    receiver, whose balance grew by [d > 0]. *)
Definition credits (usdcMint expectedReceiver : string)
  (preBalances : list TokenBalance) (post : TokenBalance) (d : Z) : Prop :=
  mint post = usdcMint
  /\ owner post = Some expectedReceiver
  /\ d = amount post - amountAt preBalances post
  /\ 0 < d.


(** The call gets as far as the transfer extraction: the signature is not
    in the set, the network has a mint, the ledger returns [tx], [tx]
    carries no error and the age check lets it pass. *)
Definition reachesTransferCheck (env : Env) (signature network : string)
  (w : World) (tx : ParsedTransactionWithMeta) (usdcMint : string) : Prop :=
  has (usedSignatures w) signature = false
  /\ USDC_MINTS network = Some usdcMint
  /\ getParsedTransaction env signature = RpcTx tx
  /\ metaErr tx = None
  /\ checkAge env (blockTime tx) = None.

(** *** Sample data *)

Definition devnetMint : string := "4zMMC9srt5Ri5X14GAgXhaHii3GnPAEERYPJgZJDncDU".

Definition sampleSignature : string :=
  "5VERv8NMvzbJMEkV8xnrLkEaWRtSz9CosKDYjCJjBRnbJLgp8uirBgmQpjKhoR4tjF3ZpRzrFmBV6UjKdiSZkQUW".

(** A transaction that moves [d] smallest units of the devnet mint from
    alice's token account to bob's, with block time [bt]. *)
Definition transferTx (d : Z) (bt : option Z) : ParsedTransactionWithMeta :=
  mkTx bt 7
    (Some (mkMeta None
       (Some [mkTokenBalance 1 devnetMint (Some "alice") 1000000;
              mkTokenBalance 2 devnetMint (Some "bob") 10])
       (Some [mkTokenBalance 1 devnetMint (Some "alice") (1000000 - d);
              mkTokenBalance 2 devnetMint (Some "bob") (10 + d)])))
    [Parsed "spl-token" "transfer" None (Some "bobTokenAccount")].

(** The same transfer out of a larger balance, for amounts above one
    token. *)
Definition largeTransferTx (d : Z) (bt : option Z) : ParsedTransactionWithMeta :=
  mkTx bt 7
    (Some (mkMeta None
       (Some [mkTokenBalance 1 devnetMint (Some "alice") 5000000;
              mkTokenBalance 2 devnetMint (Some "bob") 10])
       (Some [mkTokenBalance 1 devnetMint (Some "alice") (5000000 - d);
              mkTokenBalance 2 devnetMint (Some "bob") (10 + d)])))
    [Parsed "spl-token" "transfer" None (Some "bobTokenAccount")].

(** A ledger that knows [sampleSignature] as [tx], read at the clock
    1700000000.999 s. *)
Definition ledgerOf (tx : ParsedTransactionWithMeta) : Env :=
  mkEnv (fun s => if String.eqb s sampleSignature then RpcTx tx else RpcNull)
        1700000000999.

Definition freshWorld : World := mkWorld [] [].

(** A transaction in which alice and carol each move 25000 smallest units
    to bob: no single account falls by the 50000 that bob receives. *)
Definition splitTx : ParsedTransactionWithMeta :=
  mkTx (Some 1700000000) 9
    (Some (mkMeta None
       (Some [mkTokenBalance 1 devnetMint (Some "alice") 100000;
              mkTokenBalance 2 devnetMint (Some "carol") 100000;
              mkTokenBalance 3 devnetMint (Some "bob") 0])
       (Some [mkTokenBalance 1 devnetMint (Some "alice") 75000;
              mkTokenBalance 2 devnetMint (Some "carol") 75000;
              mkTokenBalance 3 devnetMint (Some "bob") 50000])))
    [Parsed "spl-token" "transfer" None (Some "bobTokenAccount");
     Parsed "spl-token" "transfer" None (Some "bobTokenAccount")].

(** Token amounts on the ledger are unsigned 64-bit integers. *)
Definition u64Balances (tx : ParsedTransactionWithMeta) : Prop :=
  forall b, In b (preBalancesOf tx ++ postBalancesOf tx) -> 0 <= amount b < 2 ^ 64.

(** How far the extracted amount [a] is from the expected amount [e] in
    smallest units, as line 133 computes it. *)
Definition deviation (a e : number) : number :=
  Math_abs (sub a (mul e (Number 1000000))).

(** [n] copies of the character [c]. *)
Fixpoint replicate (n : nat) (c : ascii) : string :=
  match n with
  | O => EmptyString
  | S k => String c (replicate k c)
  end.

(** A string of 200 characters: longer than any base-58 rendering of a
    64-byte signature (at most 88 characters). *)
Definition oversizedSignature : string := replicate 200 "1"%char.

Definition sampleConfig : Config :=
  mkConfig "bob" "devnet".

(** A ledger that knows no transaction at all. *)
Definition emptyLedger : Env := mkEnv (fun _ => RpcNull) 1700000000999.

(** An RPC node that refuses whatever it is asked for. *)
Definition refusingLedger : Env :=
  mkEnv (fun _ => RpcThrows (ThrownError (Text "Invalid param: WrongSize")))
        1700000000999.

(** The request of line 150: the caller's options with the JSON content
    type underneath. *)
Definition initialRequest (url : string) (options : RequestInit) : Request :=
  mkRequest url
    (mkInit (spread [("Content-Type", JStr "application/json")] (headers options))
            (rest options)).

(** The status of the last response received in a trace, 0 when none was
    received: the furthest-reached HTTP status. *)
Definition lastStatus (tr : list Event) : Z :=
  fold_left (fun acc ev => match ev with EvResponse s => s | _ => acc end) tr 0.

(** The literal [2.01]: the binary64 value 0x1.0147ae147ae14p+1. *)
Definition lit_2_01 : number := S754_finite false 4526117625507348 (-51).


(** The 402 body of the reputation route for the price 0.05. *)
Definition paymentRequiredBody : jsval :=
  JObj [("status", JNum (Number 402));
        ("message", JStr "Payment Required - Send USDC to access wallet reputation data");
        ("payment", JObj [("receiver", JStr "bob");
                          ("amount", JNum lit_0_05);
                          ("token", JStr "USDC");
                          ("network", JStr "Solana Devnet")])].

(** Stand-ins for the two built-ins.  They agree with the host on the
    inputs that occur in the sample runs: [(0.05).toString()] is ["0.05"]
    and [parseFloat("0.05")] is [0.05]. *)
Definition sampleToString (v : jsval) : Thrown + string :=
  match v with
  | JStr s => inr s
  | JNum _ => inr "0.05"
  | _ => inr "[object Object]"
  end.

Definition sampleParseFloat (s : string) : number :=
  if String.eqb s "0.05" then lit_0_05 else S754_nan.

(** A [createTransferInstruction] that accepts the amounts of 64 bits. *)
Definition u64Instruction (t : Transfer) : Thrown + unit :=
  if (0 <=? amountRaw t) && (amountRaw t <? 2 ^ 64) then inr tt
  else inl (ThrownError (Text "The value of amount is out of range")).

(** A server that always answers 402 with [paymentRequiredBody], and a
    chain on which the wallet's token account holds [balance]. *)
Definition gatedNet (balance : Z) : Net :=
  mkNet
    (fun _ => inr (mkHttp 402 (Some "application/json")
                     (inr paymentRequiredBody) (inr "")))
    (fun v => match v with
              | JStr s => inr s
              | _ => inl (ThrownError (Text "Invalid public key input"))
              end)
    (fun mint owner => inr (owner ++ "-ata")%string)
    (fun _ => inr balance)
    (fun _ => inr sampleSignature)
    u64Instruction.

Definition sampleWallet : Wallet := mkWallet "alice" "devnet" false.

Definition noOptions : RequestInit := mkInit [] "".




(** A computation that leaves the trace alone and does not depend on it. *)
Definition quiet {A : Type} (m : M A) : Prop :=
  forall tr, m tr = (fst (m []), tr).

(** The set holds no signature twice and no more than 10000 of them. *)
Definition wellKept (w : World) : Prop :=
  NoDup (usedSignatures w) /\ size (usedSignatures w) <= 10000.

(** [n] different signatures: the strings of 1, 2, ..., [n] ones. *)
Definition numbered (n : nat) : list string :=
  map (fun k => replicate k "1"%char) (seq 1 n).

(** The request of line 199: the caller's options over the JSON content
    type and the signature as [Authorization]. *)
Definition retryRequest (url : string) (options : RequestInit)
  (txSignature : string) : Request :=
  mkRequest url
    (mkInit (spread [("Content-Type", JStr "application/json");
                     ("Authorization", JStr txSignature)]
               (headers options))
            (rest options)).

(** The value an object holds under a key of its own. *)
Fixpoint headerValue {V : Type} (k : string) (h : list (string * V)) : option V :=
  match h with
  | [] => None
  | (k', v) :: rest => if String.eqb k k' then Some v else headerValue k rest
  end.

(** The transfers handed to [sendAndConfirmTransaction] in a trace. *)
Fixpoint transfersOf (tr : list Event) : list Transfer :=
  match tr with
  | [] => []
  | EvSendAndConfirmTransaction t :: rest => t :: transfersOf rest
  | _ :: rest => transfersOf rest
  end.

(** What [pay] returns once a response has been read or not. *)
Definition settled (r : Thrown + HttpResponse) (sig : option string)
  : PaymentResponse.t :=
  match r with
  | inl t => PaymentResponse.mk false None (Some (Caught (messageOf t))) None 0
  | inr response =>
      match fst (parseResponse response []) with
      | inl data =>
          PaymentResponse.mk (ok response) (Some data)
            (if ok response then None else Some (Http (http_status response)))
            sig (http_status response)
      | inr t => PaymentResponse.mk false None (Some (Caught (messageOf t))) None 0
      end
  end.

(** Options whose headers carry an [Authorization] of the caller's own. *)
Definition bearerOptions : RequestInit :=
  mkInit [("Authorization", JStr "Bearer api-key")] "".

(** Options whose headers are a plain object with a lower-case key. *)
Definition lowercaseOptions : RequestInit :=
  mkInit [("authorization", JStr "Bearer api-key")] "".

(** Options whose headers are the array of pairs
    [[["Authorization", "Bearer api-key"]]]: its one own property is the
    index 0. *)
Definition pairsOptions : RequestInit :=
  mkInit [("0", JArr [JStr "Authorization"; JStr "Bearer api-key"])] "".

(** A server that answers every request with 503 and a plain text. *)
Definition unavailableNet : Net :=
  mkNet
    (fun _ => inr (mkHttp 503 (Some "text/plain")
                     (inl (ThrownError (Text "Unexpected token")))
                     (inr "Service Unavailable")))
    (fun _ => inl (ThrownError (Text "Invalid public key input")))
    (fun _ _ => inl (ThrownError (Text "unreachable")))
    (fun _ => inl (ThrownError (Text "unreachable")))
    (fun _ => inl (ThrownError (Text "unreachable")))
    u64Instruction.

(** The server of [gatedNet], but the connection drops on every request
    that carries an [Authorization] header. *)
Definition droppingNet (balance : Z) : Net :=
  mkNet
    (fun r =>
       match headerValue "Authorization" (headers (init r)) with
       | Some _ => inl (ThrownError (Text "fetch failed"))
       | None => fetch (gatedNet balance) r
       end)
    (PublicKey_new (gatedNet balance))
    (getAssociatedTokenAddress (gatedNet balance))
    (getAccount (gatedNet balance))
    (sendAndConfirmTransaction (gatedNet balance))
    u64Instruction.

(** The signature the route reads from a non-empty [Authorization]
    header (line 188). *)
Definition signatureOf (authHeader : string) : string :=
  trim (stripBearer authHeader).

(** Strings of white space only. *)
Fixpoint allSpace (s : string) : bool :=
  match s with
  | EmptyString => true
  | String c r => isSpace c && allSpace r
  end.

(* ================================================================== *)
(** ** src/app/api/reputation/route.ts: configuration, the 402 body,
       [POST] and the reputation data *)
(* ================================================================== *)

(** The variables of [process.env] that the module reads (lines 25-33). *)
Record ProcessEnv : Type := mkProcessEnv
  { REPUTATION_RECEIVER_WALLET : option string;
    SOLANA_WALLET_ADDRESS : option string;
    X402_NETWORK : option string }.

Fixpoint dropPrefix (p s : string) : option string :=
  match p, s with
  | EmptyString, _ => Some s
  | String a p', String b s' => if Ascii.eqb a b then dropPrefix p' s' else None
  | String _ _, EmptyString => None
  end.

(** [s.replace(p, '')] for a string [p]: the first occurrence of [p] is
    removed. *)
Fixpoint removeFirst (p s : string) : string :=
  match dropPrefix p s with
  | Some r => r
  | None =>
      match s with
      | EmptyString => EmptyString
      | String c r => String c (removeFirst p r)
      end
  end.

(** The module constants [RECEIVER_WALLET] and [NETWORK] (lines 25-27 and
    33), as they are computed when the module is loaded.  The cast of line
    33 checks nothing. *)
Definition configOf (e : ProcessEnv) : Config :=
  mkConfig
    (match REPUTATION_RECEIVER_WALLET e with
     | Some a =>
         if negb (String.eqb a "") then a
         else
           match SOLANA_WALLET_ADDRESS e with
           | Some b =>
               if negb (String.eqb b "") then b
               else "GiDRjzYbFvzBxyhkCjrYj9kPHti9Gz3rYKtNmKwPiqEA"
           | None => "GiDRjzYbFvzBxyhkCjrYj9kPHti9Gz3rYKtNmKwPiqEA"
           end
     | None =>
         match SOLANA_WALLET_ADDRESS e with
         | Some b =>
             if negb (String.eqb b "") then b
             else "GiDRjzYbFvzBxyhkCjrYj9kPHti9Gz3rYKtNmKwPiqEA"
         | None => "GiDRjzYbFvzBxyhkCjrYj9kPHti9Gz3rYKtNmKwPiqEA"
         end
     end)
    (match X402_NETWORK e with
     | Some n =>
         let r := removeFirst "solana-" n in
         if negb (String.eqb r "") then r else "devnet"
     | None => "devnet"
     end).

(** A response built by [NextResponse.json]. *)
Record JsonResponse : Type := mkJsonResponse
  { jr_status : Z;
    jr_headers : Headers;
    jr_body : jsval }.

(** [PRICE_USDC] in a template literal and [PRICE_USDC.toString()]: the
    shortest decimal that reads back as the binary64 value of [0.05]. *)
Definition PRICE_USDC_toString : string := "0.05".

(** Lines 135-158. *)
Definition createPaymentRequiredResponse (cfg : Config) : JsonResponse :=
  let response :=
    JObj [("status", JNum (Number 402));
          ("message",
           JStr "Payment Required - Send USDC to access wallet reputation data");
          ("payment",
           JObj [("receiver", JStr (RECEIVER_WALLET cfg));
                 ("amount", JNum PRICE_USDC);
                 ("token", JStr "USDC");
                 ("network",
                  JStr (if String.eqb (NETWORK cfg) "devnet"
                        then "Solana Devnet" else "Solana Mainnet"));
                 ("instructions",
                  JStr ("Send " ++ PRICE_USDC_toString ++ " USDC to "
                        ++ RECEIVER_WALLET cfg ++ " on Solana " ++ NETWORK cfg
                        ++ ". Include the transaction signature in the Authorization header.")%string)])] in
  mkJsonResponse 402
    [("X-Payment-Required", "true");
     ("X-Payment-Receiver", RECEIVER_WALLET cfg);
     ("X-Payment-Amount", PRICE_USDC_toString);
     ("X-Payment-Token", "USDC");
     ("X-Payment-Network", NETWORK cfg)]
    response.

(** [verification.sender] as a value. *)
Definition senderValue (verification : PaymentVerification.t) : jsval :=
  match PaymentVerification.sender verification with
  | Some s => JStr s
  | None => JUndefined
  end.

(** [POST] (lines 268-350).  [body] is what [request.json()] gives.  The
    call of [generateReputationData] throws at [walletAddress.split] when
    the wallet taken from the body is not a string; nothing catches it. *)
Definition POST (cfg : Config) (env : Env)
  (authHeader : option string) (body : Thrown + jsval)
  (w : World) : (Thrown + Response) * World :=
  match authHeader with
  | None => (inr PaymentRequired402, w)
  | Some h =>
      if String.eqb h "" then (inr PaymentRequired402, w)
      else
        let signature := trim (stripBearer h) in
        if String.eqb signature "" || (Z.of_nat (String.length signature) <? 80)
        then (inr InvalidAuthorization400, w)
        else
          let '(verification, w') :=
            verifyPayment env signature PRICE_USDC
              (RECEIVER_WALLET cfg) (NETWORK cfg) w in
          if negb (PaymentVerification.valid verification)
          then (inr (VerificationFailed402
                       (PaymentVerification.error verification)), w')
          else
            let queryWallet :=
              match body with
              | inr b =>
                  match b with
                  | JUndefined | JNull => senderValue verification
                  | _ => orElse (get b "wallet") (senderValue verification)
                  end
              | inl _ => senderValue verification
              end in
            if negb (truthy queryWallet) then (inr NoWalletProvided400, w')
            else
              match queryWallet with
              | JStr q => (inr (Reputation200 q verification signature), w')
              | _ =>
                  (inl (ThrownError
                          (Text "walletAddress.split is not a function")), w')
              end
  end.

(** [+] on numbers. *)
Definition plus (x y : number) : number := SFadd prec emax x y.

(** The literals [0.1] and [0.5]. *)
Definition lit_0_1 : number := S754_finite false 7205759403792794 (-56).
Definition lit_0_5 : number := S754_finite false 4503599627370496 (-53).

(** [walletAddress.split('').reduce((a, c) => a + c.charCodeAt(0), 0)]:
    the sum of the code units.  The sum of the code units of a string that
    a JavaScript engine can hold is below 2^53, so the additions are
    exact. *)
Definition addressHash (walletAddress : string) : Z :=
  fold_left (fun a c => a + Z.of_nat (nat_of_ascii c))
            (list_ascii_of_string walletAddress) 0.

Definition tierOf (score : Z) : string :=
  if 90 <=? score then "Platinum"
  else if 75 <=? score then "Gold"
  else if 60 <=? score then "Silver"
  else "Bronze".

Definition badgeNames : list string :=
  ["Diamond Hands"; "Early Adopter"; "DeFi Degen"; "NFT Collector";
   "DAO Voter"; "Staking Pro"; "Bridge Builder"; "Airdrop Hunter"].

(** [l.filter((_, i) => (h + i) % 3 === 0)], for the elements of [l] at
    the indices [i], [i + 1], ... *)
Fixpoint filterByIndex (h i : Z) (l : list string) : list string :=
  match l with
  | [] => []
  | b :: rest =>
      if (h + i) mod 3 =? 0 then b :: filterByIndex h (i + 1) rest
      else filterByIndex h (i + 1) rest
  end.

Definition ageOptions : list string :=
  ["< 1 month"; "1-3 months"; "3-6 months"; "6-12 months"; "1-2 years";
   "2+ years"].

Module ReputationData.
Record metrics_t : Type := mkMetrics
  { totalTransactions : Z;
    uniqueInteractions : Z;
    avgTransactionValue : number;
    trustScore : number }.
Record proof_t : Type := mkProof
  { txSignature : string;
    paidAmount : number;
    verifiedAt : string }.
Record t : Type := mk
  { walletAddress : string;
    score : Z;
    badge : string;
    tier : string;
    age : option string;
    metrics : metrics_t;
    badges : list string;
    lastUpdated : string;
    paymentVerification : proof_t }.
End ReputationData.

Section GenerateReputationData.

(** Built-ins of the host: [parseFloat] and [x.toFixed(2)]. *)
Variable parseFloat : string -> number.
Variable toFixed2 : number -> string.

(** Lines 80-129.  [isoNow1] and [isoNow2] are what the two calls of
    [new Date().toISOString()] give. *)
Definition generateReputationData (walletAddress : string)
  (paymentVerification : PaymentVerification.t) (isoNow1 isoNow2 : string)
  : ReputationData.t :=
  let addressHash := addressHash walletAddress in
  let score := 50 + addressHash mod 50 in
  let tier := tierOf score in
  let selectedBadges := filterByIndex addressHash 0 badgeNames in
  let age := nth_error ageOptions (Z.to_nat (addressHash mod 6)) in
  let mainBadge :=
    match selectedBadges with
    | b :: _ => if negb (String.eqb b "") then b else "Newcomer"
    | [] => "Newcomer"
    end in
  ReputationData.mk walletAddress score mainBadge tier age
    (ReputationData.mkMetrics
       (100 + addressHash mod 5000)
       (10 + addressHash mod 200)
       (parseFloat
          (toFixed2 (plus lit_0_1 (div (Number (addressHash mod 100)) (Number 10)))))
       (parseFloat
          (toFixed2 (plus lit_0_5 (div (Number (addressHash mod 50)) (Number 100))))))
    selectedBadges
    isoNow1
    (ReputationData.mkProof
       (match PaymentVerification.sender paymentVerification with
        | Some s =>
            if negb (String.eqb s "") then ("Verified from " ++ s)%string
            else "Verified"
        | None => "Verified"
        end)
       (match PaymentVerification.amount paymentVerification with
        | Some a =>
            match a with
            | S754_zero _ | S754_nan => PRICE_USDC
            | _ => a
            end
        | None => PRICE_USDC
        end)
       isoNow2).

(** The body of a 200 answer of [GET] and [POST] (lines 241 and 332). *)
Definition reputationOf (r : Response) (isoNow1 isoNow2 : string)
  : option ReputationData.t :=
  match r with
  | Reputation200 queryWallet verification _ =>
      Some (generateReputationData queryWallet verification isoNow1 isoNow2)
  | _ => None
  end.

End GenerateReputationData.

(* ================================================================== *)
(** ** src/app/page.tsx: the demo of the landing page *)
(* ================================================================== *)

Module DemoResult.
Record t : Type := mk
  { walletAddress : string;
    score : Z;
    tier : string;
    badge : option string;
    age : option string;
    totalTransactions : Z;
    trustScore : string }.
End DemoResult.

(** [handleCheck] of [LiveDemo] (lines 352-380): the value handed to
    [setResult], [None] when the function returns at its first line. *)
Definition handleCheck (toFixed2 : number -> string) (wallet : string)
  : option DemoResult.t :=
  if String.eqb wallet "" then None
  else
    let hash := addressHash wallet in
    let score := 50 + hash mod 50 in
    let tier := tierOf score in
    let badges := ["Diamond Hands"; "Early Adopter"; "DeFi Degen"; "NFT Collector"] in
    let badge := nth_error badges (Z.to_nat (hash mod Z.of_nat (List.length badges))) in
    Some (DemoResult.mk wallet score tier badge
            (nth_error ["< 1 month"; "1-3 months"; "6-12 months"; "1-2 years";
                        "2+ years"]
                       (Z.to_nat (hash mod 5)))
            (100 + hash mod 5000)
            (toFixed2 (plus lit_0_5 (div (Number (hash mod 50)) (Number 100))))).

(** *** Vocabulary and sample data for the route *)

(** The answer of [POST] that corresponds to an answer of [GET]: the
    same, but for the 400 about the wallet, whose message differs. *)
Definition asPOST (r : Response) : Response :=
  match r with
  | NoWallet400 => NoWalletProvided400
  | _ => r
  end.

(** The wallet that a request body names, when [POST] can read one the
    way [GET] reads the [wallet] parameter: [Some None] when the body
    cannot be read, is [null] or names no wallet, [Some (Some q)] when it
    names the string [q], [None] when it names something that is not a
    string. *)
Definition bodyWallet (body : Thrown + jsval) : option (option string) :=
  match body with
  | inl _ => Some None
  | inr b =>
      match b with
      | JUndefined | JNull => Some None
      | _ =>
          match get b "wallet" with
          | JStr q => Some (Some q)
          | v => if truthy v then None else Some None
          end
      end
  end.

(** The environment of the README's production section. *)
Definition productionEnv : ProcessEnv :=
  mkProcessEnv None (Some "bob") (Some "solana-mainnet").

Definition devnetEnv : ProcessEnv :=
  mkProcessEnv None (Some "bob") (Some "solana-devnet").

(** An environment whose network names a member that every object
    inherits. *)
Definition constructorEnv : ProcessEnv :=
  mkProcessEnv None (Some "bob") (Some "constructor").

(* ================================================================== *)
(** ** src/scripts/test-job.ts: reading [.env.local] *)
(* ================================================================== *)

(** [s.split(sep)] for a separator of one character. *)
Fixpoint splitOn (sep : ascii) (s : string) : list string :=
  match s with
  | EmptyString => [EmptyString]
  | String c r =>
      if Ascii.eqb c sep then EmptyString :: splitOn sep r
      else
        match splitOn sep r with
        | p :: ps => String c p :: ps
        | [] => [String c EmptyString]
        end
  end.

(** [l.join(sep)] *)
Fixpoint join (sep : string) (l : list string) : string :=
  match l with
  | [] => EmptyString
  | a :: rest =>
      match rest with
      | [] => a
      | _ :: _ => (a ++ sep ++ join sep rest)%string
      end
  end.

(** [env[k] = v] on an object created by [{}]: the key [__proto__] names
    the accessor of [Object.prototype], which ignores a string. *)
Definition assign (k v : string) (env : Headers) : Headers :=
  if String.eqb k "__proto__" then env else setKey k v env.

(** The body of the loop of [loadEnv] (lines 45-53). *)
Definition loadEnvLine (env : Headers) (line : string) : Headers :=
  let trimmed := trim line in
  if negb (String.eqb trimmed "") && negb (isPrefix "#" trimmed)
  then
    match splitOn "="%char trimmed with
    | key :: valueParts =>
        if negb (String.eqb key "") && (0 <? Z.of_nat (List.length valueParts))
        then assign (trim key) (trim (join "=" valueParts)) env
        else env
    | [] => env
    end
  else env.

(** [loadEnv] (lines 32-55).  [file] is the content of [.env.local],
    [None] when the file does not exist; the result is [None] when the
    script exits. *)
Definition loadEnv (file : option string) : option Headers :=
  match file with
  | None => None
  | Some envContent =>
      Some (fold_left loadEnvLine (splitOn "010"%char envContent) [])
  end.

(** The text before and the text after the first [=] of a string. *)
Fixpoint cutAtEquals (s : string) : option (string * string) :=
  match s with
  | EmptyString => None
  | String c r =>
      if Ascii.eqb c "="%char then Some (EmptyString, r)
      else
        match cutAtEquals r with
        | Some (k, v) => Some (String c k, v)
        | None => None
        end
  end.

(** A line feed. *)
Definition LF : string := String "010" EmptyString.

Definition sampleEnvFile : string :=
  ("# demo" ++ LF ++ "SOLANA_PRIVATE_KEY = abc=def " ++ LF ++ "=orphan" ++ LF
   ++ "API_URL=http://localhost:3000/api/reputation")%string.

(* ================================================================== *)
(** ** src/lib/AgentWallet.ts: [getBalance] *)
(* ================================================================== *)

(** [getBalance] (lines 329-341).  Only [getAccount] is inside the
    [try]. *)
Definition getBalance (net : Net) (this : Wallet) : M number :=
  usdcMint <- lift (PublicKey_new net
                      (match USDC_MINTS (network this) with
                       | Some m => JStr m
                       | None => JUndefined
                       end)) ;;
  tokenAccount <-
    lift (getAssociatedTokenAddress net usdcMint (publicKey this)) ;;
  emit (EvGetAccount tokenAccount) ;;;
  match getAccount net tokenAccount with
  | inr amount => ret (div (Number amount) (Number 1000000))
  | inl _ => ret (Number 0)
  end.

(** A chain on which the wallet has no token account yet. *)
Definition accountlessNet : Net :=
  mkNet
    (fetch (gatedNet 0))
    (PublicKey_new (gatedNet 0))
    (getAssociatedTokenAddress (gatedNet 0))
    (fun _ => inl (ThrownError (Text "TokenAccountNotFoundError")))
    (sendAndConfirmTransaction (gatedNet 0))
    u64Instruction.

(* ================================================================== *)
(** ** Properties *)
(* ================================================================== *)

(** *** The used-signature set *)

Lemma has_In (u : StringSet) (s : string) : has u s = true <-> In s u.
Proof.
  unfold has. rewrite existsb_exists. split.
  - intros [x [Hin Heq]]. apply String.eqb_eq in Heq. now subst.
  - intros Hin. exists s. split; [assumption | apply String.eqb_refl].
Qed.

Lemma has_false_not_In (u : StringSet) (s : string) :
  has u s = false <-> ~ In s u.
Proof.
  rewrite <- has_In. destruct (has u s); split; congruence.
Qed.

Lemma delete_In (u : StringSet) (s x : string) :
  In x (delete u s) <-> In x u /\ x <> s.
Proof.
  unfold delete. rewrite filter_In. rewrite negb_true_iff, String.eqb_neq.
  tauto.
Qed.

Lemma fold_delete_In (l : list string) (u : StringSet) (x : string) :
  In x (fold_left delete l u) <-> In x u /\ ~ In x l.
Proof.
  revert u. induction l as [| a l IH]; intros u; simpl.
  - tauto.
  - rewrite IH, delete_In. split.
    + intros [[Hu Hne] Hl]. split; [assumption |]. intros [E | E]; [congruence | tauto].
    + intros [Hu Hl]. repeat split; try assumption.
      * intros E. apply Hl. now left.
      * intros E. apply Hl. now right.
Qed.

(** A signature that was not in the set is in it after the commit, whether
    or not the commit evicts: the eviction removes the 5000 oldest entries,
    and the signature just added is the newest of more than 10000. *)
Lemma commitSignature_In (used : StringSet) (s : string) :
  has used s = false -> In s (commitSignature used s).
Proof.
  intros Hn. unfold commitSignature, add. rewrite Hn.
  destruct (10000 <? size (used ++ [s])) eqn:Hsz.
  - apply fold_delete_In. split.
    + apply in_or_app. right. now left.
    + unfold slice0. apply Z.ltb_lt in Hsz. unfold size in Hsz.
      rewrite length_app in Hsz. simpl in Hsz.
      rewrite firstn_app.
      replace (Z.to_nat 5000 - List.length used)%nat with 0%nat by lia.
      simpl. rewrite app_nil_r. intros Hin.
      apply has_false_not_In in Hn. apply Hn.
      rewrite <- (firstn_skipn (Z.to_nat 5000) used).
      apply in_or_app. now left.
  - apply in_or_app. right. now left.
Qed.

(** The result of a call depends on the state only through the set. *)
Lemma verifyPayment_result_set (env : Env) (sig : string) (e : number)
  (recv net : string) (w1 w2 : World) :
  usedSignatures w1 = usedSignatures w2 ->
  fst (verifyPayment env sig e recv net w1) = fst (verifyPayment env sig e recv net w2).
Proof.
  intros E. unfold verifyPayment. rewrite E.
  destruct (has (usedSignatures w2) sig); [reflexivity |].
  destruct (USDC_MINTS_at net); [| reflexivity].
  destruct (getParsedTransaction env sig); try reflexivity.
  destruct (metaErr tx); [reflexivity |].
  destruct (checkAge env (blockTime tx)); [reflexivity |].
  unfold checkTransfer. cbv zeta.
  destruct (negb _); [reflexivity |]. destruct (gt _ _); reflexivity.
Qed.

Lemma checkTransfer_set (tx : ParsedTransactionWithMeta) (m : Member)
  (sig : string) (e : number) (recv : string) (w1 : World) :
  let '(r, w') := checkTransfer tx m sig e recv w1 in
  (PaymentVerification.valid r = false /\ w' = w1)
  \/ (PaymentVerification.valid r = true
      /\ usedSignatures w' = commitSignature (usedSignatures w1) sig).
Proof.
  unfold checkTransfer. cbv zeta.
  destruct (negb _); [left; split; reflexivity |].
  destruct (gt _ _); [left; split; reflexivity |].
  right. split; reflexivity.
Qed.

(** Every path of [verifyPayment] but the last leaves the set as it was;
    the last one returns [valid: true] and commits the signature. *)
Lemma verifyPayment_set (env : Env) (sig : string) (e : number)
  (recv net : string) (w : World) :
  let '(r, w') := verifyPayment env sig e recv net w in
  (PaymentVerification.valid r = false /\ usedSignatures w' = usedSignatures w)
  \/ (PaymentVerification.valid r = true
      /\ has (usedSignatures w) sig = false
      /\ usedSignatures w' = commitSignature (usedSignatures w) sig).
Proof.
  unfold verifyPayment.
  destruct (has (usedSignatures w) sig) eqn:Hhas; [left; split; reflexivity |].
  destruct (USDC_MINTS_at net) as [m |]; [| left; split; reflexivity].
  destruct (getParsedTransaction env sig); try (left; split; reflexivity).
  destruct (metaErr tx); [left; split; reflexivity |].
  destruct (checkAge env (blockTime tx)) as [r |] eqn:Hage.
  - left. split; [| reflexivity].
    unfold checkAge in Hage. destruct (blockTime tx) as [t |]; [| discriminate].
    destruct (t =? 0); [discriminate |]. cbv zeta in Hage.
    destruct (_ >? _); [now inversion Hage |].
    destruct (_ <? _); [now inversion Hage | discriminate].
  - pose proof (checkTransfer_set tx m sig e recv
                  (mkWorld (usedSignatures w) (rpcCalls w ++ [sig]))) as H.
    destruct (checkTransfer _ _ _ _ _ _) as [r w'].
    destruct H as [[Hv Hw] | [Hv Hw]].
    + left. split; [assumption |]. now subst w'.
    + right. repeat split; assumption.
Qed.

Lemma findUSDCTransfer_not_found (tx : ParsedTransactionWithMeta) (m : Member)
  (recv : string) :
  TransferSearchResult.found (findUSDCTransfer tx m recv) = false ->
  findUSDCTransfer tx m recv = notFound recv.
Proof.
  unfold findUSDCTransfer, balanceDeltaScan.
  assert (Hpost : forall pre post l r,
             postLoop m recv pre post l = Some r -> TransferSearchResult.found r = true).
  { intros pre post l. induction l as [| p l IH]; intros r; simpl; [discriminate |].
    destruct (_ && _); [| apply IH].
    destruct (0 <? _); [| apply IH]. intros E. now inversion E. }
  assert (HpostIx : forall pre post l r,
             postLoopIx m recv pre post l = Some r -> TransferSearchResult.found r = true).
  { intros pre post l. induction l as [| p l IH]; intros r; simpl; [discriminate |].
    destruct (_ && _); [| apply IH].
    destruct (0 <? _); [| apply IH]. intros E. now inversion E. }
  assert (Hix : forall pre post l r,
             instructionLoop m recv pre post l = Some r -> TransferSearchResult.found r = true).
  { intros pre post l. induction l as [| i l IH]; intros r; simpl; [discriminate |].
    destruct i as [| program ptype info_mint info_destination]; [apply IH |].
    destruct (String.eqb program _); [| apply IH].
    destruct (_ || _); [| apply IH].
    destruct (_ && _); [apply IH |].
    destruct (postLoopIx _ _ _ _ _) as [r' |] eqn:E; [| apply IH].
    intros E'. inversion E'; subst. eapply HpostIx; eassumption. }
  destruct (instructionLoop _ _ _ _ _) as [r |] eqn:E1.
  - intros Hf. apply Hix in E1. congruence.
  - destruct (postLoop _ _ _ _ _) as [r |] eqn:E2; [| reflexivity].
    intros Hf. apply Hpost in E2. congruence.
Qed.

(** The replay error is returned only for a signature that is in the set. *)
Lemma verifyPayment_replay_only_if_used (env : Env) (sig : string) (e : number)
  (recv net : string) (w : World) :
  PaymentVerification.error (fst (verifyPayment env sig e recv net w)) = Some ReplayDetected ->
  has (usedSignatures w) sig = true.
Proof.
  unfold verifyPayment.
  destruct (has (usedSignatures w) sig); [reflexivity |].
  destruct (USDC_MINTS_at net) as [m |]; [| discriminate].
  destruct (getParsedTransaction env sig); try discriminate.
  destruct (metaErr tx); [discriminate |].
  destruct (checkAge env (blockTime tx)) as [r |] eqn:Hage.
  - unfold checkAge in Hage. destruct (blockTime tx) as [t |]; [| discriminate].
    destruct (t =? 0); [discriminate |]. cbv zeta in Hage.
    destruct (_ >? _); [inversion Hage; discriminate |].
    destruct (_ <? _); [inversion Hage; discriminate | discriminate].
  - unfold checkTransfer. cbv zeta.
    destruct (negb _) eqn:Hf.
    + apply negb_true_iff in Hf. rewrite (findUSDCTransfer_not_found _ _ _ Hf).
      discriminate.
    + destruct (gt _ _); discriminate.
Qed.

Lemma presentations_rejected (env : Env) (sig : string) (e : number)
  (recv net : string) (w : World) :
  PaymentVerification.valid (fst (verifyPayment env sig e recv net w)) = false ->
  forall n,
    usedSignatures (presentations env sig e recv net n w) = usedSignatures w.
Proof.
  intros Hv n. revert w Hv. induction n as [| n IH]; intros w Hv; simpl; [reflexivity |].
  pose proof (verifyPayment_set env sig e recv net w) as H.
  destruct (verifyPayment env sig e recv net w) as [r w'] eqn:E. simpl in *.
  destruct H as [[_ Hw] | [Hv' _]]; [| congruence].
  rewrite IH; [assumption |].
  rewrite (verifyPayment_result_set env sig e recv net w' w Hw), E. assumption.
Qed.

(** *** The eviction and the entries it keeps *)

Lemma delete_middle (l1 l2 : list string) (sig x : string) :
  x <> sig ->
  delete (l1 ++ sig :: l2) x = delete l1 x ++ sig :: delete l2 x.
Proof.
  intros Hne. unfold delete. rewrite filter_app. simpl.
  assert (E : String.eqb sig x = false) by (apply String.eqb_neq; congruence).
  now rewrite E.
Qed.

Lemma delete_length (l : list string) (x : string) :
  (List.length (delete l x) <= List.length l)%nat.
Proof. apply filter_length_le. Qed.

Lemma delete_not_In (l : list string) (x sig : string) :
  ~ In sig l -> ~ In sig (delete l x).
Proof. intros H Hin. apply delete_In in Hin. tauto. Qed.

Lemma fold_delete_remembered (L l1 l2 : list string) (sig : string) (k : nat) :
  ~ In sig L -> ~ In sig l1 -> (List.length l2 <= k)%nat ->
  remembered sig k (fold_left delete L (l1 ++ sig :: l2)).
Proof.
  revert l1 l2. induction L as [| x L IH]; intros l1 l2 HL H1 H2; simpl.
  - now exists l1, l2.
  - rewrite delete_middle by (intros E; apply HL; left; exact E).
    apply IH.
    + intros Hin. apply HL. now right.
    + now apply delete_not_In.
    + pose proof (delete_length l2 x). lia.
Qed.

Lemma remembered_weaken (sig : string) (k k' : nat) (u : StringSet) :
  (k <= k')%nat -> remembered sig k u -> remembered sig k' u.
Proof.
  intros Hk [l1 [l2 [E [H1 H2]]]]. exists l1, l2. repeat split; try assumption. lia.
Qed.

Lemma remembered_has (sig : string) (k : nat) (u : StringSet) :
  remembered sig k u -> has u sig = true.
Proof.
  intros [l1 [l2 [E _]]]. apply has_In. subst u.
  apply in_or_app. right. now left.
Qed.

(** The eviction of lines 145-148 keeps an entry that has at most 5000
    entries after it: such an entry is not among the 5000 oldest of more
    than 10000. *)
Lemma evict_remembered (u l1 l2 : list string) (sig : string) :
  u = l1 ++ sig :: l2 -> ~ In sig l1 -> (List.length l2 <= 5000)%nat ->
  remembered sig (List.length l2)
    (if 10000 <? size u then fold_left delete (slice0 u 5000) u else u).
Proof.
  intros E H1 H2. destruct (10000 <? size u) eqn:Hsz.
  - rewrite E at 2. apply fold_delete_remembered; [| assumption | lia].
    apply Z.ltb_lt in Hsz. unfold size in Hsz. unfold slice0.
    rewrite E in Hsz |- *. rewrite length_app in Hsz. simpl in Hsz.
    rewrite firstn_app.
    replace (Z.to_nat 5000 - List.length l1)%nat with 0%nat by lia.
    simpl. rewrite app_nil_r. intros Hin. apply H1.
    rewrite <- (firstn_skipn (Z.to_nat 5000) l1). apply in_or_app. now left.
  - exists l1, l2. auto.
Qed.

Lemma commitSignature_first (used : StringSet) (sig : string) :
  has used sig = false -> remembered sig 0 (commitSignature used sig).
Proof.
  intros Hn. unfold commitSignature, add. rewrite Hn.
  apply (evict_remembered (used ++ [sig]) used [] sig); simpl;
    [reflexivity | now apply has_false_not_In | lia].
Qed.

Lemma commitSignature_remembered (used : StringSet) (sig x : string) (k : nat) :
  remembered sig k used -> (k < 5000)%nat ->
  remembered sig (S k) (commitSignature used x).
Proof.
  intros [l1 [l2 [E [H1 H2]]]] Hk. unfold commitSignature, add.
  destruct (has used x).
  - apply (remembered_weaken sig (List.length l2)); [lia |].
    apply (evict_remembered used l1 l2 sig); [assumption | assumption | lia].
  - apply (remembered_weaken sig (List.length (l2 ++ [x]))).
    + rewrite length_app. simpl. lia.
    + apply (evict_remembered (used ++ [x]) l1 (l2 ++ [x]) sig).
      * rewrite E, <- app_assoc. reflexivity.
      * assumption.
      * rewrite length_app. simpl. lia.
Qed.

Lemma perform_remembered (sig : string) (k : nat) (w : World) (c : Call) :
  remembered sig k (usedSignatures w) -> (k < 5000)%nat ->
  remembered sig (S k) (usedSignatures (perform w c)).
Proof.
  intros Hr Hk. unfold perform.
  pose proof (verifyPayment_set (call_env c) (call_signature c)
                (call_expectedAmount c) (call_expectedReceiver c)
                (call_network c) w) as H.
  destruct (verifyPayment _ _ _ _ _ w) as [r w']. simpl.
  destruct H as [[_ Hw] | [_ [_ Hw]]]; rewrite Hw.
  - apply (remembered_weaken sig k); [lia | assumption].
  - now apply commitSignature_remembered.
Qed.

Lemma performAll_remembered (sig : string) (calls : list Call) (k : nat) (w : World) :
  remembered sig k (usedSignatures w) ->
  (k + List.length calls <= 5000)%nat ->
  remembered sig (k + List.length calls) (usedSignatures (performAll calls w)).
Proof.
  revert k w. induction calls as [| c calls IH]; intros k w Hr Hk; simpl in *.
  - now rewrite Nat.add_0_r.
  - replace (k + S (List.length calls))%nat with (S k + List.length calls)%nat by lia.
    apply IH; [| lia]. apply perform_remembered; [assumption | lia].
Qed.

(** What the eviction gives up: once more than 10000 signatures are held,
    the oldest one is forgotten. *)
Lemma eviction_forgets_oldest (sig x : string) (rest : list string) :
  has (sig :: rest) x = false ->
  10000 <= size (sig :: rest) ->
  has (commitSignature (sig :: rest) x) sig = false.
Proof.
  intros Hx Hsz. apply has_false_not_In. unfold commitSignature, add. rewrite Hx.
  assert (E : (10000 <? size ((sig :: rest) ++ [x])) = true).
  { apply Z.ltb_lt. unfold size in *. rewrite length_app. simpl List.length in *. lia. }
  rewrite E. intros Hin. apply fold_delete_In in Hin. destruct Hin as [_ Hn].
  apply Hn. unfold slice0.
  replace (Z.to_nat 5000) with (S (Z.to_nat 4999)) by lia. simpl. now left.
Qed.

(** *** C1 *)

(** C1.  Whenever [verifyPayment] returns [valid: true] for a signature,
    the next call for the same signature returns [valid: false] with the
    replay error and changes nothing, whatever the ledger, the clock and
    the other arguments of that call are: the signature was added to
    [usedSignatures] on the success path, it survives the eviction that
    may follow, and the set is consulted first.  This also holds when up
    to 5000 other calls, of any kind, are made in between. *)
Theorem replay_after_success (env : Env) (sig : string) (e : number)
  (recv net : string) (w : World) :
  PaymentVerification.valid (fst (verifyPayment env sig e recv net w)) = true ->
  forall (between : list Call),
    (List.length between <= 5000)%nat ->
    forall (env' : Env) (e' : number) (recv' net' : string),
      let w' := performAll between (snd (verifyPayment env sig e recv net w)) in
      verifyPayment env' sig e' recv' net' w' = (failure ReplayDetected, w').
Proof.
  intros Hv between Hlen env' e' recv' net' w'. subst w'.
  pose proof (verifyPayment_set env sig e recv net w) as H.
  destruct (verifyPayment env sig e recv net w) as [r w1] eqn:E. simpl in *.
  destruct H as [[Hv' _] | [_ [Hn Hw]]]; [congruence |].
  assert (Hr : remembered sig 0 (usedSignatures w1))
    by (rewrite Hw; now apply commitSignature_first).
  apply (performAll_remembered sig between 0 w1) in Hr; [| simpl; lia].
  apply remembered_has in Hr.
  unfold verifyPayment. now rewrite Hr.
Qed.

(** *** C6 *)

(** C6.  A call of [verifyPayment] that returns [valid: false] leaves
    [usedSignatures] as it found it.  Hence presenting the signature again
    and again against the same ledger and clock gives the same result
    every time; in particular a signature rejected with the
    amount-mismatch error is rejected with that error at every later
    presentation, and no later call for it, whatever its ledger, clock
    and arguments, answers with the replay error. *)
Theorem rejection_leaves_set_unchanged (env : Env) (sig : string) (e : number)
  (recv net : string) (w : World) :
  PaymentVerification.valid (fst (verifyPayment env sig e recv net w)) = false ->
  usedSignatures (snd (verifyPayment env sig e recv net w)) = usedSignatures w
  /\ (forall n,
        fst (verifyPayment env sig e recv net (presentations env sig e recv net n w))
        = fst (verifyPayment env sig e recv net w))
  /\ (forall x y,
        PaymentVerification.error (fst (verifyPayment env sig e recv net w))
        = Some (AmountMismatch x y) ->
        forall n,
          PaymentVerification.error
            (fst (verifyPayment env sig e recv net (presentations env sig e recv net n w)))
          = Some (AmountMismatch x y)
          /\ forall env' e' recv' net',
               PaymentVerification.error
                 (fst (verifyPayment env' sig e' recv' net'
                         (presentations env sig e recv net n w)))
               <> Some ReplayDetected).
Proof.
  intros Hv.
  assert (Hsame : forall n,
             fst (verifyPayment env sig e recv net (presentations env sig e recv net n w))
             = fst (verifyPayment env sig e recv net w)).
  { intros n. apply verifyPayment_result_set. now apply presentations_rejected. }
  split; [| split].
  - apply (presentations_rejected env sig e recv net w Hv 1).
  - exact Hsame.
  - intros x y Herr n. split.
    + now rewrite Hsame.
    + intros env' e' recv' net' Hrep.
      apply verifyPayment_replay_only_if_used in Hrep.
      rewrite (presentations_rejected env sig e recv net w Hv n) in Hrep.
      assert (Hnot : has (usedSignatures w) sig = false).
      { destruct (has (usedSignatures w) sig) eqn:Hh; [| reflexivity].
        unfold verifyPayment in Herr. rewrite Hh in Herr. discriminate. }
      congruence.
Qed.

Lemma replay_after_success_witness :
  let first :=
    verifyPayment (ledgerOf (transferTx 50000 (Some 1700000000)))
      sampleSignature lit_0_05 "bob" "devnet" freshWorld in
  let other := mkCall emptyLedger "another signature" lit_0_05 "bob" "devnet" in
  PaymentVerification.valid (fst first) = true
  /\ verifyPayment (ledgerOf (transferTx 50000 (Some 1700000000)))
       sampleSignature lit_0_05 "bob" "devnet" (snd first)
     = (failure ReplayDetected, snd first)
  /\ fst (verifyPayment (ledgerOf (transferTx 50000 (Some 1700000000)))
            sampleSignature lit_0_05 "bob" "devnet"
            (performAll [other; other] (snd first)))
     = failure ReplayDetected.
Proof.
  cbv zeta.
  assert (Hv : PaymentVerification.valid
                 (fst (verifyPayment (ledgerOf (transferTx 50000 (Some 1700000000)))
                         sampleSignature lit_0_05 "bob" "devnet" freshWorld)) = true)
    by (vm_compute; reflexivity).
  split; [exact Hv |]. split.
  - apply (replay_after_success
             (ledgerOf (transferTx 50000 (Some 1700000000)))
             sampleSignature lit_0_05 "bob" "devnet" freshWorld Hv []).
    simpl. lia.
  - rewrite (replay_after_success
               (ledgerOf (transferTx 50000 (Some 1700000000)))
               sampleSignature lit_0_05 "bob" "devnet" freshWorld Hv
               [mkCall emptyLedger "another signature" lit_0_05 "bob" "devnet";
                mkCall emptyLedger "another signature" lit_0_05 "bob" "devnet"]).
    + reflexivity.
    + simpl. lia.
Defined.

Lemma rejection_leaves_set_unchanged_witness :
  let env := ledgerOf (transferTx 30000 (Some 1700000000)) in
  let first := verifyPayment env sampleSignature lit_0_05 "bob" "devnet" freshWorld in
  PaymentVerification.valid (fst first) = false
  /\ usedSignatures (snd first) = []
  /\ PaymentVerification.error
       (fst (verifyPayment env sampleSignature lit_0_05 "bob" "devnet"
               (presentations env sampleSignature lit_0_05 "bob" "devnet" 3 freshWorld)))
     = Some (AmountMismatch lit_0_05 (div (Number 30000) (Number 1000000))).
Proof.
  pose proof (rejection_leaves_set_unchanged
                (ledgerOf (transferTx 30000 (Some 1700000000)))
                sampleSignature lit_0_05 "bob" "devnet" freshWorld) as H.
  assert (Hv : PaymentVerification.valid
                 (fst (verifyPayment (ledgerOf (transferTx 30000 (Some 1700000000)))
                         sampleSignature lit_0_05 "bob" "devnet" freshWorld)) = false)
    by (vm_compute; reflexivity).
  destruct (H Hv) as [Hset [_ Hmis]].
  split; [exact Hv |]. split; [exact Hset |].
  apply (Hmis lit_0_05 (div (Number 30000) (Number 1000000))).
  vm_compute. reflexivity.
Defined.

(** *** The transfer extractor *)

Section Extractor.

Variable usdcMint expectedReceiver : string.
Variable preBalances postBalances : list TokenBalance.

Lemma senderLoopIx_eq (d : Z) (l : list TokenBalance) :
  senderLoopIx usdcMint expectedReceiver postBalances d l
  = senderLoop usdcMint expectedReceiver postBalances d l.
Proof.
  induction l as [| preB l IH]; simpl; [reflexivity |].
  rewrite IH. reflexivity.
Qed.

Lemma postLoopIx_eq (l : list TokenBalance) :
  postLoopIx usdcMint expectedReceiver preBalances postBalances l
  = postLoop usdcMint expectedReceiver preBalances postBalances l.
Proof.
  induction l as [| post l IH]; simpl; [reflexivity |].
  rewrite IH, senderLoopIx_eq. reflexivity.
Qed.

(** Whatever instruction makes the first pass return, it returns what the
    scan of [postBalances] returns. *)
Lemma instructionLoop_Some (ixs : list Instruction) (r : TransferSearchResult.t) :
  instructionLoop usdcMint expectedReceiver preBalances postBalances ixs = Some r ->
  postLoop usdcMint expectedReceiver preBalances postBalances postBalances = Some r.
Proof.
  induction ixs as [| ix ixs IH]; simpl; [discriminate |].
  destruct ix as [| program ptype info_mint info_destination]; [exact IH |].
  destruct (String.eqb program _); [| exact IH].
  destruct (_ || _); [| exact IH].
  destruct (_ && _); [exact IH |].
  rewrite postLoopIx_eq.
  destruct (postLoop _ _ _ _ _) as [r' |]; [| exact IH].
  intros E. exact E.
Qed.

Lemma opt_eqb_eq (a : option string) (b : string) :
  opt_eqb a b = true <-> a = Some b.
Proof.
  destruct a as [x |]; simpl.
  - rewrite String.eqb_eq. split; congruence.
  - split; discriminate.
Qed.




(** The scan of [postBalances] returns at the first crediting entry. *)
Lemma postLoop_Some (l : list TokenBalance) (r : TransferSearchResult.t) :
  postLoop usdcMint expectedReceiver preBalances postBalances l = Some r ->
  exists post d,
    In post l
    /\ credits usdcMint expectedReceiver preBalances post d
    /\ r = TransferSearchResult.mk true None
             (senderLoop usdcMint expectedReceiver postBalances d preBalances)
             (Some expectedReceiver) (Some (Number d)).
Proof.
  induction l as [| post l IH]; simpl; [discriminate |].
  assert (Hrest :
    postLoop usdcMint expectedReceiver preBalances postBalances l = Some r ->
    exists post0 d,
      (post = post0 \/ In post0 l)
      /\ credits usdcMint expectedReceiver preBalances post0 d
      /\ r = TransferSearchResult.mk true None
               (senderLoop usdcMint expectedReceiver postBalances d preBalances)
               (Some expectedReceiver) (Some (Number d))).
  { intros H. destruct (IH H) as [p [d [Hin Hp]]]. exists p, d. split; [now right | exact Hp]. }
  destruct (String.eqb (mint post) usdcMint) eqn:Hm; simpl; [| exact Hrest].
  destruct (opt_eqb (owner post) expectedReceiver) eqn:Ho; simpl; [| exact Hrest].
  destruct (0 <? _) eqn:Hd; [| exact Hrest].
  intros E. inversion E; subst r; clear E.
  exists post, (amount post - amountAt preBalances post).
  split; [now left |]. split; [| reflexivity].
  unfold credits. apply String.eqb_eq in Hm. apply opt_eqb_eq in Ho.
  apply Z.ltb_lt in Hd. unfold amountAt. auto.
Qed.

Lemma postLoop_None (l : list TokenBalance) :
  (forall post d, In post l -> ~ credits usdcMint expectedReceiver preBalances post d) ->
  postLoop usdcMint expectedReceiver preBalances postBalances l = None.
Proof.
  induction l as [| post l IH]; simpl; [reflexivity |]. intros Hno.
  assert (Hrest : postLoop usdcMint expectedReceiver preBalances postBalances l = None)
    by (apply IH; intros b d Hb; apply Hno; now right).
  destruct (String.eqb (mint post) usdcMint) eqn:Hm; simpl; [| exact Hrest].
  destruct (opt_eqb (owner post) expectedReceiver) eqn:Ho; simpl; [| exact Hrest].
  destruct (0 <? _) eqn:Hd; [| exact Hrest].
  exfalso. apply (Hno post (amount post - amountAt preBalances post)); [now left |].
  unfold credits. apply String.eqb_eq in Hm. apply opt_eqb_eq in Ho.
  apply Z.ltb_lt in Hd. unfold amountAt. auto.
Qed.

End Extractor.

(** The first pass can only return what the scan of lines 255-302
    returns. *)
Lemma instruction_pass_redundant
  (tx : ParsedTransactionWithMeta) (usdcMint expectedReceiver : string) :
  findUSDCTransfer tx usdcMint expectedReceiver
  = balanceDeltaScan tx usdcMint expectedReceiver.
Proof.
  unfold findUSDCTransfer.
  destruct (instructionLoop _ _ _ _ _) as [r |] eqn:E; [| reflexivity].
  apply instructionLoop_Some in E.
  unfold balanceDeltaScan. cbv zeta. now rewrite E.
Qed.

(** *** C10 *)

(** C10.  For every transaction, mint and receiver, [findUSDCTransfer]
    returns exactly what the balance-delta scan of lines 255-302 returns
    on its own: the pass over the instructions runs the same scan of
    [postTokenBalances] and never looks at the instruction's destination,
    so it can only return what the fallback would.  Hence the result does
    not depend on the instructions of the transaction at all. *)
Theorem findUSDCTransfer_is_balanceDeltaScan
  (tx : ParsedTransactionWithMeta) (usdcMint expectedReceiver : string) :
  findUSDCTransfer tx usdcMint expectedReceiver
  = balanceDeltaScan tx usdcMint expectedReceiver
  /\ forall ixs : list Instruction,
       findUSDCTransfer (mkTx (blockTime tx) (slot tx) (meta tx) ixs)
         usdcMint expectedReceiver
       = findUSDCTransfer tx usdcMint expectedReceiver.
Proof.
  split.
  - apply instruction_pass_redundant.
  - intros ixs. rewrite !instruction_pass_redundant. reflexivity.
Qed.

(** Indexing [USDC_MINTS] gives an own string exactly at the two keys of
    the literal. *)
Lemma USDC_MINTS_at_own (net m : string) :
  USDC_MINTS net = Some m -> USDC_MINTS_at net = Some (OwnString m).
Proof. intros H. unfold USDC_MINTS_at. now rewrite H. Qed.

Lemma USDC_MINTS_at_inv (net : string) (mem : Member) :
  USDC_MINTS_at net = Some mem ->
  (exists m, mem = OwnString m /\ USDC_MINTS net = Some m)
  \/ (mem = InheritedMember /\ USDC_MINTS net = None
      /\ In net Object_prototype).
Proof.
  unfold USDC_MINTS_at. destruct (USDC_MINTS net) as [m |].
  - intros H. inversion H. left. now exists m.
  - destruct (existsb (String.eqb net) Object_prototype) eqn:E; [| discriminate].
    intros H. inversion H. right. split; [reflexivity |]. split; [reflexivity |].
    apply existsb_exists in E. destruct E as [x [Hin Hx]].
    apply String.eqb_eq in Hx. now subst x.
Qed.

Lemma USDC_MINTS_at_None (net : string) :
  USDC_MINTS_at net = None <->
  USDC_MINTS net = None /\ ~ In net Object_prototype.
Proof.
  unfold USDC_MINTS_at. destruct (USDC_MINTS net) as [m |].
  - split; [discriminate | intros [H _]; discriminate].
  - destruct (existsb (String.eqb net) Object_prototype) eqn:E.
    + split; [discriminate |]. intros [_ Hn]. exfalso. apply Hn.
      apply existsb_exists in E. destruct E as [x [Hin Hx]].
      apply String.eqb_eq in Hx. now subst x.
    + split; [| reflexivity]. intros _. split; [reflexivity |].
      intros Hin. assert (existsb (String.eqb net) Object_prototype = true).
      { apply existsb_exists. exists net. split; [exact Hin |].
        apply String.eqb_refl. }
      congruence.
Qed.

(** An inherited member is the mint of no balance entry and of no
    instruction: both passes of the extractor run out. *)
Lemma findUSDCTransfer_inherited (tx : ParsedTransactionWithMeta) (recv : string) :
  findUSDCTransfer tx InheritedMember recv = notFound recv.
Proof.
  assert (Hpost : forall pre post l, postLoop InheritedMember recv pre post l = None).
  { intros pre post l. induction l as [| p l IH]; [reflexivity |]. exact IH. }
  assert (HpostIx : forall pre post l,
             postLoopIx InheritedMember recv pre post l = None).
  { intros pre post l. induction l as [| p l IH]; [reflexivity |]. exact IH. }
  assert (Hix : forall pre post l,
             instructionLoop InheritedMember recv pre post l = None).
  { intros pre post l. induction l as [| i l IH]; [reflexivity |].
    destruct i as [| program ptype info_mint info_destination]; [exact IH |].
    simpl. destruct (String.eqb program _); [| exact IH].
    destruct (_ || _); [| exact IH].
    destruct (_ && _); [exact IH |].
    rewrite HpostIx. exact IH. }
  unfold findUSDCTransfer, balanceDeltaScan. cbv zeta.
  now rewrite Hix, Hpost.
Qed.

Lemma verifyPayment_reaches (env : Env) (sig : string) (e : number)
  (recv net : string) (w : World) (tx : ParsedTransactionWithMeta) (m : string) :
  reachesTransferCheck env sig net w tx m ->
  verifyPayment env sig e recv net w
  = checkTransfer tx m sig e recv (mkWorld (usedSignatures w) (rpcCalls w ++ [sig])).
Proof.
  intros [Hh [Hm [Hl [He Ha]]]]. unfold verifyPayment.
  now rewrite Hh, (USDC_MINTS_at_own net m Hm), Hl, He, Ha.
Qed.

(** A transaction returned by the ledger is accepted only through the
    transfer check. *)
Lemma verifyPayment_valid_inv (env : Env) (sig : string) (e : number)
  (recv net : string) (w : World) :
  PaymentVerification.valid (fst (verifyPayment env sig e recv net w)) = true ->
  exists tx m,
    reachesTransferCheck env sig net w tx m
    /\ TransferSearchResult.found (findUSDCTransfer tx m recv) = true.
Proof.
  unfold verifyPayment, reachesTransferCheck.
  destruct (has (usedSignatures w) sig); [discriminate |].
  destruct (USDC_MINTS_at net) as [mem |] eqn:Hat; [| discriminate].
  destruct (getParsedTransaction env sig); try discriminate.
  destruct (metaErr tx) eqn:He; [discriminate |].
  destruct (checkAge env (blockTime tx)) as [r |] eqn:Hage.
  - unfold checkAge in Hage. destruct (blockTime tx) as [t |]; [| discriminate].
    destruct (t =? 0); [discriminate |]. cbv zeta in Hage.
    destruct (_ >? _); [inversion Hage; discriminate |].
    destruct (_ <? _); [inversion Hage; discriminate | discriminate].
  - unfold checkTransfer. cbv zeta.
    destruct (USDC_MINTS_at_inv net mem Hat) as [[m [-> Hm]] | [-> _]].
    + destruct (TransferSearchResult.found _) eqn:Hf; simpl; [| discriminate].
      intros _. exists tx, m. repeat split; auto.
    + rewrite findUSDCTransfer_inherited. simpl. discriminate.
Qed.

Lemma findUSDCTransfer_found (tx : ParsedTransactionWithMeta) (m recv : string) :
  TransferSearchResult.found (findUSDCTransfer tx m recv) = true ->
  exists post d,
    In post (postBalancesOf tx)
    /\ credits m recv (preBalancesOf tx) post d
    /\ findUSDCTransfer tx m recv
       = TransferSearchResult.mk true None
           (senderLoop m recv (postBalancesOf tx) d (preBalancesOf tx))
           (Some recv) (Some (Number d)).
Proof.
  rewrite instruction_pass_redundant. unfold balanceDeltaScan. cbv zeta.
  destruct (postLoop _ _ _ _ _) as [r |] eqn:E; [| discriminate].
  intros _. now apply postLoop_Some in E.
Qed.

Lemma findUSDCTransfer_no_credit (tx : ParsedTransactionWithMeta) (m recv : string) :
  (forall post d, In post (postBalancesOf tx) ->
                  ~ credits m recv (preBalancesOf tx) post d) ->
  findUSDCTransfer tx m recv = notFound recv.
Proof.
  intros Hno. rewrite instruction_pass_redundant.
  unfold balanceDeltaScan. cbv zeta. now rewrite postLoop_None.
Qed.

(** *** C2 *)

(** C2.  [findUSDCTransfer] reports a transfer only if some entry of
    [postTokenBalances] has the expected mint, has the expected receiver
    as its owner and shows a strictly positive delta against the entry of
    [preTokenBalances] with the same account index (0 when there is
    none).  When no entry is such (the credit goes to another owner, or
    the receiver's delta is zero or negative), nothing is found, no call
    of [verifyPayment] that the ledger answers with this transaction
    returns [valid: true], and a call that gets as far as the extraction
    fails with the transfer-not-found error. *)
Theorem transfer_found_only_if_receiver_credited
  (tx : ParsedTransactionWithMeta) (usdcMint expectedReceiver : string) :
  (TransferSearchResult.found (findUSDCTransfer tx usdcMint expectedReceiver) = true ->
   exists post d,
     In post (postBalancesOf tx)
     /\ credits usdcMint expectedReceiver (preBalancesOf tx) post d)
  /\ ((forall post d, In post (postBalancesOf tx) ->
                      ~ credits usdcMint expectedReceiver (preBalancesOf tx) post d) ->
      TransferSearchResult.found (findUSDCTransfer tx usdcMint expectedReceiver) = false
      /\ forall env sig e net w,
           USDC_MINTS net = Some usdcMint ->
           getParsedTransaction env sig = RpcTx tx ->
           PaymentVerification.valid
             (fst (verifyPayment env sig e expectedReceiver net w)) = false
           /\ (reachesTransferCheck env sig net w tx usdcMint ->
               fst (verifyPayment env sig e expectedReceiver net w)
               = failure (TransferNotFound expectedReceiver))).
Proof.
  split.
  - intros Hf. destruct (findUSDCTransfer_found _ _ _ Hf) as [post [d [Hin [Hc _]]]].
    now exists post, d.
  - intros Hno.
    pose proof (findUSDCTransfer_no_credit tx usdcMint expectedReceiver Hno) as Hnf.
    split; [now rewrite Hnf |].
    intros env sig e net w Hm Hl. split.
    + destruct (PaymentVerification.valid _) eqn:Hv; [| reflexivity].
      apply verifyPayment_valid_inv in Hv.
      destruct Hv as [tx' [m' [[_ [Hm' [Hl' _]]] Hf]]].
      assert (m' = usdcMint) by congruence. assert (tx' = tx) by congruence. subst.
      rewrite Hnf in Hf. discriminate.
    + intros Hr. rewrite (verifyPayment_reaches _ _ e expectedReceiver _ _ _ _ Hr).
      unfold checkTransfer. cbv zeta. rewrite Hnf. reflexivity.
Qed.

Lemma transfer_found_only_if_receiver_credited_witness :
  let tx := transferTx (-50000) (Some 1700000000) in
  TransferSearchResult.found (findUSDCTransfer tx devnetMint "bob") = false
  /\ fst (verifyPayment (ledgerOf tx) sampleSignature lit_0_05 "bob" "devnet" freshWorld)
     = failure (TransferNotFound "bob")
  /\ fst (verifyPayment (ledgerOf (transferTx 50000 (Some 1700000000)))
            sampleSignature lit_0_05 "carol" "devnet" freshWorld)
     = failure (TransferNotFound "carol").
Proof.
  cbv zeta.
  assert (Hno : forall recv d0 post d,
             (recv = "bob" /\ d0 = -50000) \/ (recv = "carol" /\ d0 = 50000) ->
             In post (postBalancesOf (transferTx d0 (Some 1700000000))) ->
             ~ credits devnetMint recv
                 (preBalancesOf (transferTx d0 (Some 1700000000))) post d).
  { intros recv d0 post d Hcase Hin [_ [Ho [Hd Hpos]]].
    destruct Hcase as [[-> ->] | [-> ->]];
      simpl in Hin; destruct Hin as [<- | [<- | []]];
      simpl in Ho; try discriminate;
      unfold amountAt in Hd; simpl in Hd; lia. }
  pose proof (transfer_found_only_if_receiver_credited
                (transferTx (-50000) (Some 1700000000)) devnetMint "bob") as [_ Hbob].
  pose proof (transfer_found_only_if_receiver_credited
                (transferTx 50000 (Some 1700000000)) devnetMint "carol") as [_ Hcarol].
  destruct (Hbob (fun post d => Hno "bob" (-50000) post d (or_introl (conj eq_refl eq_refl))))
    as [Hnf Hvp].
  destruct (Hcarol (fun post d => Hno "carol" 50000 post d (or_intror (conj eq_refl eq_refl))))
    as [_ Hvp'].
  split; [exact Hnf |]. split.
  - apply Hvp; [reflexivity | reflexivity |].
    unfold reachesTransferCheck. repeat split; vm_compute; reflexivity.
  - apply Hvp'; [reflexivity | reflexivity |].
    unfold reachesTransferCheck. repeat split; vm_compute; reflexivity.
Defined.

(** *** C9 *)




(** *** Binary64 arithmetic never invents a NaN here *)

Lemma shr_1_nonneg (mrs : shr_record) : 0 <= shr_m mrs -> 0 <= shr_m (shr_1 mrs).
Proof.
  destruct mrs as [m r s]. simpl.
  destruct m as [| p | p]; [simpl; lia | | lia].
  intros _. destruct p; simpl; lia.
Qed.

Lemma iter_shr_1_nonneg (p : positive) (mrs : shr_record) :
  0 <= shr_m mrs -> 0 <= shr_m (iter_pos shr_1 p mrs).
Proof.
  revert mrs. induction p as [p IH | p IH |]; intros mrs H; simpl.
  - apply IH, IH, shr_1_nonneg, H.
  - apply IH, IH, H.
  - apply shr_1_nonneg, H.
Qed.

Lemma shr_fexp_nonneg (m e : Z) (l : location) :
  0 <= m -> 0 <= shr_m (fst (shr_fexp prec emax m e l)).
Proof.
  intros H. unfold shr_fexp, shr.
  assert (H0 : 0 <= shr_m (shr_record_of_loc m l)) by (destruct l as [| []]; exact H).
  destruct (_ - e); simpl; [exact H0 | | exact H0].
  apply iter_shr_1_nonneg, H0.
Qed.

Lemma binary_round_aux_not_nan (sx : bool) (mx ex : Z) (lx : location) :
  0 <= mx -> binary_round_aux prec emax sx mx ex lx <> S754_nan.
Proof.
  intros H. unfold binary_round_aux.
  pose proof (shr_fexp_nonneg mx ex lx H) as H1.
  destruct (shr_fexp prec emax mx ex lx) as [mrs' e']. simpl in H1.
  assert (H2 : 0 <= round_nearest_even (shr_m mrs') (loc_of_shr_record mrs')).
  { unfold round_nearest_even.
    destruct (loc_of_shr_record mrs') as [| []]; try lia.
    destruct (Z.even _); lia. }
  pose proof (shr_fexp_nonneg _ e' loc_Exact H2) as H3.
  destruct (shr_fexp prec emax _ e' loc_Exact) as [mrs'' e'']. simpl in H3.
  destruct (shr_m mrs''); [discriminate | | lia].
  destruct (_ <=? _); discriminate.
Qed.

Lemma binary_normalize_not_nan (m e : Z) (szero : bool) :
  binary_normalize prec emax m e szero <> S754_nan.
Proof.
  unfold binary_normalize, binary_round.
  destruct m as [| p | p]; [discriminate | |];
    destruct (shl_align _ _ _) as [mz ez];
    apply binary_round_aux_not_nan; lia.
Qed.

Lemma mul_not_nan (e c : number) :
  e <> S754_nan -> isFinite c = true -> c <> S754_zero false -> c <> S754_zero true ->
  mul e c <> S754_nan.
Proof.
  intros He Hc Hz Hz'. unfold mul.
  destruct e as [s | s | | s m ex]; destruct c as [s' | s' | | s' m' ex'];
    simpl in *; try discriminate; try congruence.
  - destruct s'; congruence.
  - apply binary_round_aux_not_nan. lia.
Qed.

Lemma sub_not_nan (a b : number) :
  isFinite a = true -> b <> S754_nan -> sub a b <> S754_nan.
Proof.
  intros Ha Hb. unfold sub.
  destruct a as [s | s | | s m ex]; destruct b as [s' | s' | | s' m' ex'];
    simpl in *; try discriminate; try congruence.
  - destruct s, s'; discriminate.
  - apply binary_normalize_not_nan.
Qed.

Lemma Math_abs_not_nan (x : number) : x <> S754_nan -> Math_abs x <> S754_nan.
Proof. destruct x; simpl; congruence. Qed.

(** For operands that are not NaN, [x > y] is the negation of [x <= y]. *)
Lemma gt_negb_le (x y : number) :
  x <> S754_nan -> y <> S754_nan -> gt x y = negb (le x y).
Proof.
  intros Hx Hy. unfold gt, le, SFltb, SFleb.
  destruct x as [s | s | | s m ex]; destruct y as [s' | s' | | s' m' ex'];
    try congruence; simpl;
    try (destruct s; try destruct s'; reflexivity);
    try (destruct s'; reflexivity).
  assert (Hm : Pos.compare_cont Eq m m' = CompOpp (Pos.compare_cont Eq m' m))
    by (rewrite Pos.compare_cont_antisym; reflexivity).
  destruct s, s'; try reflexivity;
    rewrite (Z.compare_antisym ex' ex);
    destruct (ex' ?= ex); simpl; try reflexivity;
    rewrite Hm; destruct (Pos.compare_cont Eq m' m); reflexivity.
Qed.

Lemma gt_zero_not_nan (e : number) : gt e (Number 0) = true -> e <> S754_nan.
Proof. intros H E. subst e. discriminate. Qed.

(** *** Conversion of a 64-bit amount to a number *)

Lemma digits2_pos_size (p : positive) : digits2_pos p = Pos.size p.
Proof. induction p; simpl; congruence. Qed.

Lemma digits2_upper (p : positive) (k : Z) :
  0 <= k -> Zpos p < 2 ^ k -> Zpos (digits2_pos p) <= k.
Proof.
  intros Hk Hp. rewrite digits2_pos_size.
  pose proof (Pos.size_le p) as H.
  assert (H' : 2 ^ Zpos (Pos.size p) <= 2 * Zpos p).
  { change 2 with (Zpos 2) at 1. rewrite <- Pos2Z.inj_pow. 
    change (2 * Zpos p) with (Zpos p~0). apply Pos2Z.pos_le_pos. exact H. }
  destruct (Z_lt_le_dec k (Zpos (Pos.size p))) as [Hlt | Hle]; [| exact Hle].
  exfalso.
  assert (2 ^ (k + 1) <= 2 ^ Zpos (Pos.size p)) by (apply Z.pow_le_mono_r; lia).
  rewrite Z.pow_add_r in H0 by lia. lia.
Qed.

Lemma digits2_lower (p : positive) : Zpos p < 2 ^ Zpos (digits2_pos p).
Proof.
  rewrite digits2_pos_size. pose proof (Pos.size_gt p) as H.
  change 2 with (Zpos 2). rewrite <- Pos2Z.inj_pow. apply Pos2Z.pos_lt_pos. exact H.
Qed.

Lemma shr_1_le (mrs : shr_record) : 0 <= shr_m mrs -> shr_m (shr_1 mrs) <= shr_m mrs.
Proof.
  destruct mrs as [m r s]. simpl. destruct m as [| p | p]; [simpl; lia | | lia].
  intros _. destruct p; simpl; lia.
Qed.

Lemma iter_shr_1_le (p : positive) (mrs : shr_record) :
  0 <= shr_m mrs -> shr_m (iter_pos shr_1 p mrs) <= shr_m mrs.
Proof.
  revert mrs. induction p as [p IH | p IH |]; intros mrs H; simpl.
  - pose proof (shr_1_le mrs H). pose proof (shr_1_nonneg mrs H).
    pose proof (IH _ H1). pose proof (iter_shr_1_nonneg p _ H1).
    pose proof (IH _ H3). lia.
  - pose proof (IH _ H). pose proof (iter_shr_1_nonneg p _ H).
    pose proof (IH _ H1). lia.
  - apply shr_1_le, H.
Qed.

Lemma shr_fexp_le (m e : Z) (l : location) :
  0 <= m -> shr_m (fst (shr_fexp prec emax m e l)) <= m.
Proof.
  intros H. unfold shr_fexp, shr.
  assert (H0 : shr_m (shr_record_of_loc m l) = m) by (destruct l as [| []]; reflexivity).
  destruct (_ - e); simpl; try lia.
  pose proof (iter_shr_1_le p (shr_record_of_loc m l)). lia.
Qed.

Lemma shr_fexp_exp (m e : Z) (l : location) :
  snd (shr_fexp prec emax m e l) = Z.max e (fexp prec emax (Zdigits2 m + e)).
Proof.
  unfold shr_fexp, shr.
  destruct (fexp prec emax (Zdigits2 m + e) - e) eqn:E; simpl; lia.
Qed.

Lemma Zdigits2_upper (m k : Z) : 0 <= k -> 0 <= m < 2 ^ k -> Zdigits2 m <= k.
Proof.
  intros Hk [H0 H1]. destruct m as [| p | p]; simpl; [lia | | lia].
  now apply digits2_upper.
Qed.

Lemma binary_round_aux_finite (sx : bool) (mx ex : Z) :
  0 <= mx < 2 ^ 64 -> ex <= 0 -> Zdigits2 mx + ex <= 64 ->
  isFinite (binary_round_aux prec emax sx mx ex loc_Exact) = true.
Proof.
  intros Hm Hex Hd. unfold binary_round_aux.
  pose proof (shr_fexp_nonneg mx ex loc_Exact (proj1 Hm)) as H1.
  pose proof (shr_fexp_le mx ex loc_Exact (proj1 Hm)) as H1'.
  pose proof (shr_fexp_exp mx ex loc_Exact) as He1.
  destruct (shr_fexp prec emax mx ex loc_Exact) as [mrs' e'].
  cbn [fst snd] in H1, H1', He1.
  set (m1 := round_nearest_even (shr_m mrs') (loc_of_shr_record mrs')).
  assert (H2 : 0 <= m1 <= shr_m mrs' + 1).
  { unfold m1, round_nearest_even.
    destruct (loc_of_shr_record mrs') as [| []]; try lia.
    destruct (Z.even _); lia. }
  pose proof (shr_fexp_nonneg m1 e' loc_Exact (proj1 H2)) as H3.
  pose proof (shr_fexp_exp m1 e' loc_Exact) as He2.
  destruct (shr_fexp prec emax m1 e' loc_Exact) as [mrs'' e''].
  cbn [fst snd] in H3, He2.
  destruct (shr_m mrs''); [reflexivity | | lia].
  assert (Hd1 : Zdigits2 m1 <= 65).
  { apply Zdigits2_upper; [lia |].
    assert (2 ^ 65 = 2 * 2 ^ 64) by reflexivity. lia. }
  assert (Hle : (e'' <=? emax - prec) = true).
  { apply Z.leb_le. subst e'' e'. unfold fexp, emin, emax, prec. lia. }
  rewrite Hle. reflexivity.
Qed.

Lemma digits2_iter_xO (p d : positive) :
  Zpos (digits2_pos (Pos.iter xO p d)) = Zpos (digits2_pos p) + Zpos d.
Proof.
  induction d as [| d IH] using Pos.peano_ind.
  - simpl. lia.
  - rewrite Pos.iter_succ. simpl digits2_pos. lia.
Qed.

Lemma iter_xO_value (p d : positive) :
  Zpos (Pos.iter xO p d) = Zpos p * 2 ^ Zpos d.
Proof.
  induction d as [| d IH] using Pos.peano_ind.
  - simpl. lia.
  - rewrite Pos.iter_succ, Pos2Z.inj_xO, IH, Pos2Z.inj_succ, Z.pow_succ_r by lia. lia.
Qed.

Lemma Number_u64_finite (d : Z) : 0 <= d < 2 ^ 64 -> isFinite (Number d) = true.
Proof.
  intros Hd. unfold Number, binary_normalize.
  destruct d as [| p | p]; [reflexivity | | lia].
  unfold binary_round.
  pose proof (digits2_upper p 64 ltac:(lia) (proj2 Hd)) as HD.
  pose proof (digits2_lower p) as HL.
  unfold shl_align.
  destruct (fexp prec emax (Zpos (digits2_pos p) + 0) - 0) as [| q | q] eqn:E.
  - apply binary_round_aux_finite; simpl; lia.
  - apply binary_round_aux_finite; simpl; lia.
  - apply binary_round_aux_finite.
    + split; [lia |]. rewrite iter_xO_value.
      unfold fexp, emin, emax, prec in E.
      assert (Zpos q = 53 - Zpos (digits2_pos p)) by lia.
      assert (Zpos p * 2 ^ Zpos q < 2 ^ Zpos (digits2_pos p) * 2 ^ Zpos q).
      { apply Z.mul_lt_mono_pos_r; [apply Z.pow_pos_nonneg; lia | exact HL]. }
      rewrite <- Z.pow_add_r in H0 by lia.
      replace (Zpos (digits2_pos p) + Zpos q) with 53 in H0 by lia.
      assert (2 ^ 53 < 2 ^ 64) by reflexivity. lia.
    + unfold fexp, emin, emax, prec in *. lia.
    + simpl Zdigits2. rewrite digits2_iter_xO.
      unfold fexp, emin, emax, prec in *. lia.
Qed.

(** The amount extracted from a ledger of 64-bit balances is the number
    of a delta between 0 and 2^64, hence finite. *)
Lemma extracted_amount_finite (tx : ParsedTransactionWithMeta) (m recv : string)
  (a : number) :
  u64Balances tx ->
  TransferSearchResult.amount (findUSDCTransfer tx m recv) = Some a ->
  TransferSearchResult.found (findUSDCTransfer tx m recv) = true /\ isFinite a = true.
Proof.
  intros Hu Ha.
  destruct (TransferSearchResult.found (findUSDCTransfer tx m recv)) eqn:Hf.
  - split; [reflexivity |].
    destruct (findUSDCTransfer_found _ _ _ Hf) as [post [d [Hin [Hc Hr]]]].
    rewrite Hr in Ha. simpl in Ha. inversion Ha; subst a.
    apply Number_u64_finite.
    destruct Hc as [_ [_ [Hd Hpos]]].
    assert (Hpost : 0 <= amount post < 2 ^ 64)
      by (apply Hu, in_or_app; now right).
    assert (Hpre : 0 <= amountAt (preBalancesOf tx) post).
    { unfold amountAt, findByIndex.
      destruct (find _ (preBalancesOf tx)) as [p |] eqn:E; [| lia].
      apply find_some in E. destruct E as [E _].
      assert (0 <= amount p < 2 ^ 64) by (apply Hu, in_or_app; now left). lia. }
    lia.
  - rewrite (findUSDCTransfer_not_found _ _ _ Hf) in Ha. discriminate.
Qed.

Lemma million_finite : Number 1000000 = S754_finite false 8589934592000000 (-33).
Proof. reflexivity. Qed.

Lemma deviation_not_nan (a e : number) :
  isFinite a = true -> gt e (Number 0) = true -> deviation a e <> S754_nan.
Proof.
  intros Ha He. unfold deviation.
  apply Math_abs_not_nan, sub_not_nan; [exact Ha |].
  apply mul_not_nan; [now apply gt_zero_not_nan | | |];
    rewrite million_finite; [reflexivity | discriminate | discriminate].
Qed.

(** *** Integers in binary64 *)

Lemma digits2_ge (p : positive) : 2 ^ (Zpos (digits2_pos p) - 1) <= Zpos p.
Proof.
  rewrite digits2_pos_size. pose proof (Pos.size_le p) as H.
  assert (H' : 2 ^ Zpos (Pos.size p) <= 2 * Zpos p).
  { change 2 with (Zpos 2) at 1. rewrite <- Pos2Z.inj_pow.
    change (2 * Zpos p) with (Zpos p~0). apply Pos2Z.pos_le_pos. exact H. }
  replace (Zpos (Pos.size p)) with (Z.succ (Zpos (Pos.size p) - 1)) in H' by lia.
  rewrite Z.pow_succ_r in H' by lia. lia.
Qed.

Lemma Zdigits2_lower (m k : Z) : 0 <= k -> 2 ^ k <= m -> k + 1 <= Zdigits2 m.
Proof.
  intros Hk H. assert (0 < 2 ^ k) by (apply Z.pow_pos_nonneg; lia).
  destruct m as [| p | p]; [lia | | lia]. simpl.
  pose proof (digits2_lower p) as HL.
  destruct (Z_lt_le_dec k (Zpos (digits2_pos p))) as [Hlt | Hle]; [lia |].
  assert (2 ^ Zpos (digits2_pos p) <= 2 ^ k) by (apply Z.pow_le_mono_r; lia). lia.
Qed.

Lemma Zdigits2_mul_pow2 (c n : Z) :
  0 < c -> 0 <= n -> Zdigits2 (c * 2 ^ n) = Zdigits2 c + n.
Proof.
  intros Hc Hn. destruct c as [| p | p]; [lia | | lia].
  destruct n as [| d | d]; [| | lia].
  - rewrite Z.mul_1_r, Z.add_0_r. reflexivity.
  - rewrite <- iter_xO_value. simpl Zdigits2. apply digits2_iter_xO.
Qed.

Lemma fexp_normal (x : Z) : -1021 <= x -> fexp prec emax x = x - 53.
Proof. intros H. unfold fexp, emin, emax, prec. lia. Qed.

Lemma shr_1_even (m : Z) :
  0 < m ->
  shr_1 (Build_shr_record (2 * m) false false) = Build_shr_record m false false.
Proof. intros H. destruct m as [| p | p]; [lia | reflexivity | lia]. Qed.

Lemma iter_shr_1_exact (n : positive) (m : Z) :
  0 < m ->
  iter_pos shr_1 n (Build_shr_record (m * 2 ^ Zpos n) false false)
  = Build_shr_record m false false.
Proof.
  revert m. induction n as [n IH | n IH |]; intros m Hm.
  - assert (Hp : 0 < 2 ^ Zpos n) by (apply Z.pow_pos_nonneg; lia).
    assert (Hq : 0 < m * 2 ^ Zpos n) by (apply Z.mul_pos_pos; assumption).
    cbn [iter_pos].
    replace (m * 2 ^ Zpos n~1) with (2 * ((m * 2 ^ Zpos n) * 2 ^ Zpos n))
      by (replace (Zpos n~1) with (Zpos n + Zpos n + 1) by lia;
          rewrite !Z.pow_add_r by lia; rewrite Z.pow_1_r; ring).
    rewrite shr_1_even by (apply Z.mul_pos_pos; assumption).
    rewrite (IH _ Hq). apply IH, Hm.
  - assert (Hp : 0 < 2 ^ Zpos n) by (apply Z.pow_pos_nonneg; lia).
    assert (Hq : 0 < m * 2 ^ Zpos n) by (apply Z.mul_pos_pos; assumption).
    cbn [iter_pos].
    replace (m * 2 ^ Zpos n~0) with ((m * 2 ^ Zpos n) * 2 ^ Zpos n)
      by (replace (Zpos n~0) with (Zpos n + Zpos n) by lia;
          rewrite Z.pow_add_r by lia; ring).
    rewrite (IH _ Hq). apply IH, Hm.
  - cbn [iter_pos]. replace (m * 2 ^ 1) with (2 * m) by (rewrite Z.pow_1_r; ring).
    apply shr_1_even, Hm.
Qed.

(** A mantissa [c * 2^n] of [53 + n] digits is shifted to [c] without a
    remainder. *)
Lemma shr_fexp_exact (m c n e : Z) :
  0 < c -> 0 <= n -> m = c * 2 ^ n -> Zdigits2 m = 53 + n -> -1074 <= e + n ->
  shr_fexp prec emax m e loc_Exact = (Build_shr_record c false false, e + n).
Proof.
  intros Hc Hn Hm Hd He. unfold shr_fexp. rewrite Hd, fexp_normal by lia.
  replace (53 + n + e - 53 - e) with n by lia.
  unfold shr, shr_record_of_loc. destruct n as [| p | p]; [| | lia].
  - rewrite Z.add_0_r. subst m. rewrite Z.mul_1_r. reflexivity.
  - subst m. rewrite iter_shr_1_exact by exact Hc. reflexivity.
Qed.

Lemma binary_round_aux_exact (sx : bool) (m c n e : Z) :
  0 < c -> 0 <= n -> m = c * 2 ^ n -> Zdigits2 m = 53 + n ->
  -1074 <= e + n <= 971 ->
  binary_round_aux prec emax sx m e loc_Exact = S754_finite sx (Z.to_pos c) (e + n).
Proof.
  intros Hc Hn Hm Hd He. unfold binary_round_aux.
  rewrite (shr_fexp_exact m c n e Hc Hn Hm Hd) by lia.
  cbn [shr_m loc_of_shr_record round_nearest_even].
  assert (Hdc : Zdigits2 c = 53).
  { subst m. rewrite Zdigits2_mul_pow2 in Hd by lia. lia. }
  assert (H2 : shr_fexp prec emax c (e + n) loc_Exact
               = (Build_shr_record c false false, e + n + 0)).
  { apply shr_fexp_exact; [exact Hc | lia | rewrite Z.pow_0_r; lia | lia | lia]. }
  rewrite H2. cbn [shr_m]. destruct c as [| q | q]; [lia | | lia].
  rewrite Z.add_0_r.
  replace (e + n <=? emax - prec) with true
    by (symmetry; apply Z.leb_le; unfold emax, prec; lia).
  reflexivity.
Qed.

Lemma binary_round_exact (sx : bool) (p : positive) (ex c : Z) :
  (Zpos (digits2_pos p) <= 53 -> c = Zpos p * 2 ^ (53 - Zpos (digits2_pos p))) ->
  (53 < Zpos (digits2_pos p) ->
   0 < c /\ Zpos p = c * 2 ^ (Zpos (digits2_pos p) - 53)) ->
  -1074 <= ex + Zpos (digits2_pos p) - 53 <= 971 ->
  binary_round prec emax sx p ex
  = S754_finite sx (Z.to_pos c) (ex + Zpos (digits2_pos p) - 53).
Proof.
  unfold binary_round.
  remember (Zpos (digits2_pos p)) as d eqn:Hd. intros Hs Hl He.
  rewrite fexp_normal by lia. unfold shl_align.
  replace (d + ex - 53 - ex) with (d - 53) by lia.
  destruct (d - 53) as [| q | q] eqn:E.
  - rewrite (Hs ltac:(lia)). replace (53 - d) with 0 by lia.
    rewrite Z.mul_1_r.
    rewrite (binary_round_aux_exact sx (Zpos p) (Zpos p) 0 ex);
      [f_equal; lia | lia | lia | rewrite Z.pow_0_r; lia
      | simpl Zdigits2; lia | lia].
  - destruct (Hl ltac:(lia)) as [Hc Hp].
    rewrite (binary_round_aux_exact sx (Zpos p) c (Zpos q) ex);
      [f_equal; lia | exact Hc | lia | exact Hp | simpl Zdigits2; lia | lia].
  - assert (Hq : Zpos q = 53 - d) by lia.
    rewrite (binary_round_aux_exact sx (Zpos (Pos.iter xO p q)) c 0 (d + ex - 53)).
    + f_equal. lia.
    + rewrite (Hs ltac:(lia)). apply Z.mul_pos_pos; [lia |].
      apply Z.pow_pos_nonneg; lia.
    + lia.
    + rewrite (Hs ltac:(lia)), iter_xO_value, Z.pow_0_r, <- Hq. lia.
    + simpl Zdigits2. rewrite digits2_iter_xO. lia.
    + lia.
Qed.

(** The number of an integer below 2^53 scaled by a power of two is the
    number of the integer: nothing is rounded away. *)
Lemma binary_round_integer (sx : bool) (p q : positive) (s : Z) :
  0 <= s -> Zpos p < 2 ^ 53 -> Zpos q = Zpos p * 2 ^ s ->
  binary_round prec emax sx q (- s)
  = S754_finite sx (Z.to_pos (Zpos p * 2 ^ (53 - Zpos (digits2_pos p))))
      (Zpos (digits2_pos p) - 53).
Proof.
  intros Hs Hp Hq.
  pose proof (digits2_upper p 53 ltac:(lia) Hp) as Hk.
  assert (Hk0 : 0 < Zpos (digits2_pos p)) by lia.
  set (k := Zpos (digits2_pos p)) in *.
  assert (Hd : Zpos (digits2_pos q) = k + s).
  { change (Zdigits2 (Zpos q) = Zdigits2 (Zpos p) + s).
    rewrite Hq. apply Zdigits2_mul_pow2; lia. }
  rewrite (binary_round_exact sx q (- s) (Zpos p * 2 ^ (53 - k))).
  - f_equal. lia.
  - intros H. rewrite Hq, Hd, <- Z.mul_assoc, <- Z.pow_add_r by lia.
    f_equal. f_equal. lia.
  - intros H. split.
    + apply Z.mul_pos_pos; [lia | apply Z.pow_pos_nonneg; lia].
    + rewrite Hq, Hd, <- Z.mul_assoc, <- Z.pow_add_r by lia.
      f_equal. f_equal. lia.
  - rewrite Hd. lia.
Qed.

Lemma Number_pos (p : positive) :
  Zpos p < 2 ^ 53 ->
  Number (Zpos p)
  = S754_finite false (Z.to_pos (Zpos p * 2 ^ (53 - Zpos (digits2_pos p))))
      (Zpos (digits2_pos p) - 53).
Proof.
  intros Hp. unfold Number, binary_normalize.
  apply (binary_round_integer false p p 0); [lia | exact Hp | rewrite Z.pow_0_r; lia].
Qed.

Lemma Number_neg (p : positive) :
  Zpos p < 2 ^ 53 ->
  Number (Zneg p)
  = S754_finite true (Z.to_pos (Zpos p * 2 ^ (53 - Zpos (digits2_pos p))))
      (Zpos (digits2_pos p) - 53).
Proof.
  intros Hp. unfold Number, binary_normalize.
  apply (binary_round_integer true p p 0); [lia | exact Hp | rewrite Z.pow_0_r; lia].
Qed.

Lemma binary_normalize_integer (a s : Z) :
  0 <= s -> Z.abs a < 2 ^ 53 ->
  binary_normalize prec emax (a * 2 ^ s) (- s) false = Number a.
Proof.
  intros Hs Ha. assert (Hp : 0 < 2 ^ s) by (apply Z.pow_pos_nonneg; lia).
  destruct a as [| p | p].
  - reflexivity.
  - rewrite Number_pos by lia.
    destruct (Zpos p * 2 ^ s) as [| q | q] eqn:E; [lia | | lia].
    apply binary_round_integer; [exact Hs | lia | symmetry; exact E].
  - rewrite Number_neg by lia.
    destruct (Zneg p * 2 ^ s) as [| q | q] eqn:E; [lia | lia |].
    apply binary_round_integer; [exact Hs | lia | lia].
Qed.

Lemma shl_align_value (mx : positive) (ex ez : Z) :
  ez <= ex -> Zpos (fst (shl_align mx ex ez)) = Zpos mx * 2 ^ (ex - ez).
Proof.
  intros H. unfold shl_align. destruct (ez - ex) as [| d | d] eqn:E; cbn [fst].
  - replace (ex - ez) with 0 by lia. lia.
  - lia.
  - rewrite iter_xO_value. f_equal. f_equal. lia.
Qed.

(** Subtraction of integers below 2^53 is exact. *)
Lemma sub_integers (a t : Z) :
  0 < a < 2 ^ 53 -> 0 < t < 2 ^ 53 -> sub (Number a) (Number t) = Number (a - t).
Proof.
  intros Ha Ht. destruct a as [| p | p]; [lia | | lia].
  destruct t as [| q | q]; [lia | | lia].
  rewrite (Number_pos p), (Number_pos q) by lia.
  pose proof (digits2_upper p 53 ltac:(lia) (proj2 Ha)) as Hkp.
  pose proof (digits2_upper q 53 ltac:(lia) (proj2 Ht)) as Hkq.
  set (kp := Zpos (digits2_pos p)) in *. set (kq := Zpos (digits2_pos q)) in *.
  assert (0 < kp) by (unfold kp; lia). assert (0 < kq) by (unfold kq; lia).
  unfold sub, SFsub. cbv zeta. cbn [cond_Zopp].
  set (ez := Z.min (kp - 53) (kq - 53)).
  rewrite !shl_align_value by (unfold ez; lia).
  rewrite !Z2Pos.id by (apply Z.mul_pos_pos; [lia | apply Z.pow_pos_nonneg; lia]).
  rewrite <- !Z.mul_assoc, <- !Z.pow_add_r by (unfold ez; lia).
  replace (53 - kp + (kp - 53 - ez)) with (- ez) by lia.
  replace (53 - kq + (kq - 53 - ez)) with (- ez) by lia.
  rewrite <- Z.mul_sub_distr_r.
  replace ez with (- - ez) at 2 by lia.
  apply binary_normalize_integer; [unfold ez; lia | lia].
Qed.

Lemma Math_abs_Number (a : Z) :
  Z.abs a < 2 ^ 53 -> Math_abs (Number a) = Number (Z.abs a).
Proof.
  intros Ha. destruct a as [| p | p].
  - reflexivity.
  - cbn [Z.abs] in *. rewrite Number_pos by lia. reflexivity.
  - cbn [Z.abs] in *. rewrite Number_neg, Number_pos by lia. reflexivity.
Qed.

Lemma Number_1000 : Number 1000 = S754_finite false 8796093022208000 (-43).
Proof. reflexivity. Qed.

(** Against the tolerance, numbers of integers below 2^53 compare as the
    integers do. *)
Lemma le_Number_1000 (k : Z) :
  0 <= k < 2 ^ 53 -> le (Number k) (Number 1000) = (k <=? 1000).
Proof.
  intros Hk. destruct k as [| p | p]; [reflexivity | | lia].
  rewrite Number_pos, Number_1000 by lia.
  pose proof (digits2_lower p) as HL. pose proof (digits2_ge p) as HG.
  pose proof (digits2_upper p 53 ltac:(lia) (proj2 Hk)) as HU.
  set (k := Zpos (digits2_pos p)) in *.
  assert (Hk0 : 0 < k) by (unfold k; lia).
  unfold le, SFleb, SFcompare.
  destruct (Z.compare_spec (k - 53) (-43)) as [E | E | E].
  - assert (Hk10 : k = 10) by lia. rewrite Hk10 in *.
    change (53 - 10) with 43.
    rewrite Pos.compare_cont_spec, Pos2Z.inj_compare, Z2Pos.id by lia.
    change (2 ^ 43) with 8796093022208.
    destruct (Z.compare_spec (Zpos p * 8796093022208) 8796093022208000);
      cbn [Pos.switch_Eq]; symmetry;
      [apply Z.leb_le | apply Z.leb_le | apply Z.leb_gt]; lia.
  - assert (2 ^ k <= 2 ^ 9) by (apply Z.pow_le_mono_r; lia).
    change (2 ^ 9) with 512 in *. symmetry. apply Z.leb_le. lia.
  - assert (2 ^ 10 <= 2 ^ (k - 1)) by (apply Z.pow_le_mono_r; lia).
    change (2 ^ 10) with 1024 in *. symmetry. apply Z.leb_gt. lia.
Qed.

(** *** Amounts of 2^53 and more *)

Lemma shr_1_lower (mrs : shr_record) :
  0 <= shr_m mrs -> shr_m mrs <= 2 * shr_m (shr_1 mrs) + 1.
Proof.
  destruct mrs as [m r s]. simpl. destruct m as [| p | p]; [simpl; lia | | lia].
  intros _. destruct p; simpl; lia.
Qed.

Lemma iter_shr_1_lower (n : positive) (mrs : shr_record) :
  0 <= shr_m mrs ->
  shr_m mrs < 2 ^ Zpos n * (shr_m (iter_pos shr_1 n mrs) + 1).
Proof.
  revert mrs. induction n as [n IH | n IH |]; intros mrs H.
  - assert (Hp : 0 < 2 ^ Zpos n) by (apply Z.pow_pos_nonneg; lia).
    cbn [iter_pos].
    pose proof (shr_1_lower mrs H) as H1.
    pose proof (shr_1_nonneg mrs H) as H1'.
    pose proof (IH _ H1') as H2.
    pose proof (iter_shr_1_nonneg n _ H1') as H2'.
    pose proof (IH _ H2') as H3.
    replace (Zpos n~1) with (Zpos n + Zpos n + 1) by lia.
    rewrite !Z.pow_add_r, Z.pow_1_r by lia.
    set (P := 2 ^ Zpos n) in *.
    set (b := shr_m (shr_1 mrs)) in *.
    set (c := shr_m (iter_pos shr_1 n (shr_1 mrs))) in *.
    set (d := shr_m (iter_pos shr_1 n (iter_pos shr_1 n (shr_1 mrs)))) in *.
    assert (Hc : c + 1 <= P * (d + 1)) by lia.
    assert (Hb : b + 1 <= P * (c + 1)) by lia.
    assert (Hbc : P * (c + 1) <= P * (P * (d + 1)))
      by (apply Z.mul_le_mono_nonneg_l; lia).
    lia.
  - assert (Hp : 0 < 2 ^ Zpos n) by (apply Z.pow_pos_nonneg; lia).
    cbn [iter_pos].
    pose proof (IH _ H) as H2.
    pose proof (iter_shr_1_nonneg n _ H) as H2'.
    pose proof (IH _ H2') as H3.
    replace (Zpos n~0) with (Zpos n + Zpos n) by lia.
    rewrite !Z.pow_add_r by lia.
    set (P := 2 ^ Zpos n) in *.
    set (b := shr_m mrs) in *.
    set (c := shr_m (iter_pos shr_1 n mrs)) in *.
    set (d := shr_m (iter_pos shr_1 n (iter_pos shr_1 n mrs))) in *.
    assert (Hc : c + 1 <= P * (d + 1)) by lia.
    assert (Hbc : P * (c + 1) <= P * (P * (d + 1)))
      by (apply Z.mul_le_mono_nonneg_l; lia).
    lia.
  - cbn [iter_pos]. pose proof (shr_1_lower mrs H). rewrite Z.pow_1_r. lia.
Qed.

(** A mantissa of 53 digits or more keeps 53 of them. *)
Lemma shr_fexp_lower (m e : Z) (l : location) :
  0 < m -> 53 <= Zdigits2 m -> -1074 <= e + Zdigits2 m - 53 ->
  snd (shr_fexp prec emax m e l) = e + Zdigits2 m - 53
  /\ 2 ^ 52 <= shr_m (fst (shr_fexp prec emax m e l)).
Proof.
  intros Hm Hd He. unfold shr_fexp. rewrite fexp_normal by lia.
  assert (H0 : shr_m (shr_record_of_loc m l) = m) by (destruct l as [| []]; reflexivity).
  destruct m as [| p | p]; [lia | | lia]. cbn [Zdigits2] in *.
  pose proof (digits2_ge p) as HG.
  remember (Zpos (digits2_pos p)) as d eqn:Ed.
  replace (d + e - 53 - e) with (d - 53) by lia.
  unfold shr. destruct (d - 53) as [| q | q] eqn:E; cbn [fst snd].
  - split; [lia |]. rewrite H0. replace (d - 1) with 52 in HG by lia. exact HG.
  - split; [lia |].
    pose proof (iter_shr_1_lower q (shr_record_of_loc (Zpos p) l)) as HI.
    rewrite H0 in HI. specialize (HI ltac:(lia)).
    replace (d - 1) with (Zpos q + 52) in HG by lia.
    rewrite Z.pow_add_r in HG by lia.
    assert (Hp : 0 < 2 ^ Zpos q) by (apply Z.pow_pos_nonneg; lia).
    set (r := shr_m (iter_pos shr_1 q (shr_record_of_loc (Zpos p) l))) in *.
    assert (2 ^ Zpos q * 2 ^ 52 < 2 ^ Zpos q * (r + 1)) by lia.
    apply Z.mul_lt_mono_pos_l in H; lia.
  - lia.
Qed.

Lemma binary_round_aux_large (m e : Z) :
  0 < m -> 53 <= Zdigits2 m -> -1074 <= e + Zdigits2 m - 53 ->
  binary_round_aux prec emax false m e loc_Exact = S754_infinity false
  \/ exists m' e',
       binary_round_aux prec emax false m e loc_Exact = S754_finite false m' e'
       /\ e + Zdigits2 m - 53 <= e' /\ 2 ^ 52 <= Zpos m'.
Proof.
  intros Hm Hd He. unfold binary_round_aux.
  destruct (shr_fexp_lower m e loc_Exact Hm Hd He) as [He1 Hr1].
  destruct (shr_fexp prec emax m e loc_Exact) as [mrs' e1]. cbn [fst snd] in He1, Hr1.
  set (m1 := round_nearest_even (shr_m mrs') (loc_of_shr_record mrs')).
  assert (H1 : shr_m mrs' <= m1).
  { unfold m1, round_nearest_even.
    destruct (loc_of_shr_record mrs') as [| []]; try lia.
    destruct (Z.even _); lia. }
  assert (Hd1 : 53 <= Zdigits2 m1) by (apply (Zdigits2_lower m1 52); lia).
  assert (H52 : 0 < 2 ^ 52) by reflexivity.
  destruct (shr_fexp_lower m1 e1 loc_Exact ltac:(lia) Hd1 ltac:(lia)) as [He2 Hr2].
  destruct (shr_fexp prec emax m1 e1 loc_Exact) as [mrs'' e2]. cbn [fst snd] in He2, Hr2.
  destruct (shr_m mrs'') as [| q | q]; [lia | | lia].
  destruct (e2 <=? emax - prec); [right | left; reflexivity].
  exists q, e2. split; [reflexivity |]. split; [lia | exact Hr2].
Qed.

(** Far above the expected amount, the deviation exceeds the tolerance
    whatever the rounding. *)
Lemma large_amount_over_tolerance (a t : Z) :
  2 ^ 53 <= a < 2 ^ 64 -> 0 < t < 2 ^ 52 ->
  gt (Math_abs (sub (Number a) (Number t))) (Number 1000) = true.
Proof.
  intros Ha Ht.
  assert (H53 : 2 ^ 53 = 9007199254740992) by reflexivity.
  assert (H52 : 2 ^ 52 = 4503599627370496) by reflexivity.
  pose proof (Number_u64_finite a ltac:(lia)) as Hfin.
  destruct a as [| p | p]; [lia | | lia].
  destruct t as [| q | q]; [lia | | lia].
  rewrite (Number_pos q) by lia.
  pose proof (digits2_upper q 52 ltac:(lia) (proj2 Ht)) as Hkq.
  pose proof (digits2_lower q) as HLq.
  remember (Zpos (digits2_pos q)) as kq eqn:Ekq.
  assert (Hkq0 : 0 < kq) by lia.
  assert (Hmq : Zpos q * 2 ^ (53 - kq) < 2 ^ 53).
  { assert (Zpos q * 2 ^ (53 - kq) < 2 ^ kq * 2 ^ (53 - kq)).
    { apply Z.mul_lt_mono_pos_r; [apply Z.pow_pos_nonneg; lia | exact HLq]. }
    rewrite <- Z.pow_add_r in H by lia.
    replace (kq + (53 - kq)) with 53 in H by lia. exact H. }
  assert (Hmq0 : 0 < Zpos q * 2 ^ (53 - kq))
    by (apply Z.mul_pos_pos; [lia | apply Z.pow_pos_nonneg; lia]).
  (* the number of [a] *)
  assert (HN : exists m1 e1, Number (Zpos p) = S754_finite false m1 e1
                             /\ 1 <= e1 /\ 2 ^ 52 <= Zpos m1).
  { unfold Number, binary_normalize, binary_round in *.
    pose proof (Zdigits2_lower (Zpos p) 53 ltac:(lia) ltac:(lia)) as Hdp.
    cbn [Zdigits2] in Hdp.
    rewrite fexp_normal in * by lia. unfold shl_align in *.
    destruct (Zpos (digits2_pos p) + 0 - 53 - 0) as [| d | d] eqn:E; [lia | | lia].
    destruct (binary_round_aux_large (Zpos p) 0 ltac:(lia) ltac:(cbn [Zdigits2]; lia)
                ltac:(cbn [Zdigits2]; lia)) as [Hinf | [m1 [e1 [Hr [He1 Hm1]]]]].
    - rewrite Hinf in Hfin. discriminate.
    - exists m1, e1. split; [exact Hr |]. cbn [Zdigits2] in He1. split; lia. }
  destruct HN as [m1 [e1 [HN [He1 Hm1]]]]. rewrite HN.
  unfold sub, SFsub. cbv zeta. cbn [cond_Zopp].
  replace (Z.min e1 (kq - 53)) with (kq - 53) by lia.
  rewrite !shl_align_value by lia.
  rewrite Z2Pos.id by exact Hmq0.
  replace (kq - 53 - (kq - 53)) with 0 by lia. rewrite Z.pow_0_r, Z.mul_1_r.
  set (mt := Zpos q * 2 ^ (53 - kq)) in *.
  set (u := 52 - kq).
  assert (Hu : 0 <= u) by (unfold u; lia).
  assert (Hpu : 0 < 2 ^ u) by (apply Z.pow_pos_nonneg; lia).
  assert (Hsh : 4 * 2 ^ u <= 2 ^ (e1 - (kq - 53))).
  { change 4 with (2 ^ 2). rewrite <- Z.pow_add_r by lia.
    apply Z.pow_le_mono_r; unfold u; lia. }
  assert (HM : 2 ^ (53 + u) <= Zpos m1 * 2 ^ (e1 - (kq - 53)) - mt).
  { rewrite Z.pow_add_r by lia.
    assert (2 ^ 52 * (4 * 2 ^ u) <= Zpos m1 * 2 ^ (e1 - (kq - 53))).
    { apply Z.mul_le_mono_nonneg; lia. }
    rewrite H53 in *. rewrite H52 in *. lia. }
  assert (H0u : 0 < 2 ^ (53 + u)) by (apply Z.pow_pos_nonneg; lia).
  destruct (Zpos m1 * 2 ^ (e1 - (kq - 53)) - mt) as [| M | M] eqn:EM; [lia | | lia].
  pose proof (Zdigits2_lower (Zpos M) (53 + u) ltac:(lia) HM) as HdM.
  cbn [Zdigits2] in HdM.
  unfold binary_normalize, binary_round.
  rewrite fexp_normal by (unfold u in HdM; lia). unfold shl_align.
  destruct (Zpos (digits2_pos M) + (kq - 53) - 53 - (kq - 53)) as [| d | d] eqn:E;
    [unfold u in HdM; lia | | unfold u in HdM; lia].
  destruct (binary_round_aux_large (Zpos M) (kq - 53) ltac:(lia)
              ltac:(cbn [Zdigits2]; unfold u in HdM; lia)
              ltac:(cbn [Zdigits2]; unfold u in HdM; lia))
    as [Hinf | [m' [e' [Hr [He' _]]]]].
  - rewrite Hinf. reflexivity.
  - rewrite Hr. cbn [Zdigits2] in He'.
    rewrite Number_1000. unfold gt, SFltb, SFcompare, Math_abs, SFabs.
    assert (Hc : (-43 ?= e') = Lt) by (apply Z.compare_lt_iff; unfold u in HdM; lia).
    rewrite Hc. reflexivity.
Qed.

(** For an expected amount whose product with 10^6 is the integer [t], the
    check of line 133 is the comparison of integers. *)
Lemma deviation_of_integers (a t : Z) :
  0 <= a < 2 ^ 64 -> 0 < t < 2 ^ 52 ->
  gt (Math_abs (sub (Number a) (Number t))) (Number 1000)
  = (1000 <? Z.abs (a - t)).
Proof.
  intros Ha Ht.
  assert (H53 : 2 ^ 53 = 9007199254740992) by reflexivity.
  assert (H52 : 2 ^ 52 = 4503599627370496) by reflexivity.
  assert (Hgt : forall k, 0 <= k < 2 ^ 53 ->
                          gt (Number k) (Number 1000) = (1000 <? k)).
  { intros k Hk.
    rewrite gt_negb_le by apply binary_normalize_not_nan.
    rewrite le_Number_1000 by exact Hk.
    destruct (Z.leb_spec k 1000); destruct (Z.ltb_spec 1000 k); try reflexivity; lia. }
  destruct (Z_lt_le_dec a (2 ^ 53)) as [Hs | Hl].
  - destruct (Z.eq_dec a 0) as [-> | Hnz].
    + destruct t as [| q | q]; [lia | | lia].
      rewrite (Number_pos q) by lia.
      change (Math_abs (sub (Number 0) ?x)) with x.
      rewrite <- (Number_pos q) by lia.
      rewrite Hgt by lia. reflexivity.
    + rewrite sub_integers, Math_abs_Number by lia.
      apply Hgt. lia.
  - rewrite large_amount_over_tolerance by lia.
    symmetry. apply Z.ltb_lt. lia.
Qed.

(** *** C3 *)

(** C3.  For a call that reaches the amount check on a transaction of
    64-bit token balances, with the extracted amount [a] and an expected
    amount [e > 0], [verifyPayment] returns [valid: true] exactly when
    the number that line 133 computes for |a - e * 1000000|, the product
    and the difference each rounded to binary64, is at most 1000, and
    returns the amount-mismatch error, reporting a / 1000000, otherwise.
    When the rounded product is the number of an integer [t] below 2^52
    and the amount that of a 64-bit integer [d], that is |d - t| <= 1000
    on the integers.  0.05 * 1000000 is computed as 50000, so for
    e = 0.05 the amounts 50000 and 49000 are accepted and 48999 is
    rejected: the bound is inclusive. *)
Theorem amount_accepted_iff_within_tolerance :
  (forall env sig e recv net w tx m a,
     reachesTransferCheck env sig net w tx m ->
     u64Balances tx ->
     TransferSearchResult.amount (findUSDCTransfer tx m recv) = Some a ->
     gt e (Number 0) = true ->
     (PaymentVerification.valid (fst (verifyPayment env sig e recv net w)) = true
      <-> le (deviation a e) (Number 1000) = true)
     /\ (le (deviation a e) (Number 1000) = false ->
         fst (verifyPayment env sig e recv net w)
         = PaymentVerification.mk false
             (Some (AmountMismatch e (div a (Number 1000000))))
             None None (Some (div a (Number 1000000))) None None))
  /\ (forall env sig e recv net w tx m d t,
        reachesTransferCheck env sig net w tx m ->
        TransferSearchResult.amount (findUSDCTransfer tx m recv) = Some (Number d) ->
        0 <= d < 2 ^ 64 ->
        0 < t < 2 ^ 52 ->
        mul e (Number 1000000) = Number t ->
        (PaymentVerification.valid (fst (verifyPayment env sig e recv net w)) = true
         <-> Z.abs (d - t) <= 1000)
        /\ (1000 < Z.abs (d - t) ->
            fst (verifyPayment env sig e recv net w)
            = PaymentVerification.mk false
                (Some (AmountMismatch e (div (Number d) (Number 1000000))))
                None None (Some (div (Number d) (Number 1000000))) None None))
  /\ mul lit_0_05 (Number 1000000) = Number 50000
  /\ le (deviation (Number 50000) lit_0_05) (Number 1000) = true
  /\ le (deviation (Number 49000) lit_0_05) (Number 1000) = true
  /\ le (deviation (Number 48999) lit_0_05) (Number 1000) = false.
Proof.
  split; [| split; [| repeat split; vm_compute; reflexivity]].
  - intros env sig e recv net w tx m a Hreach Hu Ha He.
    destruct (extracted_amount_finite tx m recv a Hu Ha) as [Hf Hfin].
    rewrite (verifyPayment_reaches _ _ e recv _ _ _ _ Hreach).
    unfold checkTransfer. cbv zeta. rewrite Hf. unfold amountOf. rewrite Ha.
    change (Math_abs (sub a (mul e (Number 1000000)))) with (deviation a e).
    rewrite (gt_negb_le (deviation a e) (Number 1000)
               (deviation_not_nan a e Hfin He)
               (binary_normalize_not_nan 1000 0 false)).
    destruct (le (deviation a e) (Number 1000)); simpl.
    + split; [split; reflexivity | discriminate].
    + split; [split; discriminate | reflexivity].
  - intros env sig e recv net w tx m d t Hreach Ha Hd Ht He.
    assert (Hf : TransferSearchResult.found (findUSDCTransfer tx m recv) = true).
    { destruct (TransferSearchResult.found (findUSDCTransfer tx m recv)) eqn:Hf;
        [reflexivity |].
      rewrite (findUSDCTransfer_not_found _ _ _ Hf) in Ha. discriminate. }
    rewrite (verifyPayment_reaches _ _ e recv _ _ _ _ Hreach).
    unfold checkTransfer. cbv zeta. rewrite Hf. unfold amountOf. rewrite Ha, He.
    rewrite (deviation_of_integers d t Hd Ht).
    destruct (Z.ltb_spec 1000 (Z.abs (d - t))) as [Hlt | Hle];
      cbn [negb fst PaymentVerification.valid].
    + split; [split; [discriminate | lia] | reflexivity].
    + split; [split; [intros _; exact Hle | reflexivity] | lia].
Qed.

Lemma amount_accepted_iff_within_tolerance_witness :
  PaymentVerification.valid
    (fst (verifyPayment (ledgerOf (transferTx 49000 (Some 1700000000)))
            sampleSignature lit_0_05 "bob" "devnet" freshWorld)) = true
  /\ fst (verifyPayment (ledgerOf (transferTx 48999 (Some 1700000000)))
            sampleSignature lit_0_05 "bob" "devnet" freshWorld)
     = PaymentVerification.mk false
         (Some (AmountMismatch lit_0_05 (div (Number 48999) (Number 1000000))))
         None None (Some (div (Number 48999) (Number 1000000))) None None
  /\ PaymentVerification.valid
       (fst (verifyPayment (ledgerOf (transferTx 51000 (Some 1700000000)))
               sampleSignature lit_0_05 "bob" "devnet" freshWorld)) = true
  /\ fst (verifyPayment (ledgerOf (transferTx 51001 (Some 1700000000)))
            sampleSignature lit_0_05 "bob" "devnet" freshWorld)
     = PaymentVerification.mk false
         (Some (AmountMismatch lit_0_05 (div (Number 51001) (Number 1000000))))
         None None (Some (div (Number 51001) (Number 1000000))) None None.
Proof.
  destruct amount_accepted_iff_within_tolerance
    as [Hgen [Hint [Hprod [_ [H49000 H48999]]]]].
  assert (Hreach : forall d,
             reachesTransferCheck (ledgerOf (transferTx d (Some 1700000000)))
               sampleSignature "devnet" freshWorld
               (transferTx d (Some 1700000000)) devnetMint).
  { intros d. unfold reachesTransferCheck. repeat split; vm_compute; reflexivity. }
  assert (Hu : forall d, 0 <= d <= 1000000 ->
                         u64Balances (transferTx d (Some 1700000000))).
  { intros d Hd b Hin.
    assert (H64 : 2 ^ 64 = 18446744073709551616) by reflexivity. rewrite H64.
    unfold transferTx, preBalancesOf, postBalancesOf in Hin.
    cbn [meta preTokenBalances postTokenBalances app In] in Hin.
    destruct Hin as [<- | [<- | [<- | [<- | []]]]]; cbn [amount]; lia. }
  assert (Hpos : gt lit_0_05 (Number 0) = true) by reflexivity.
  split; [| split; [| split]].
  - destruct (Hgen _ _ lit_0_05 "bob" _ _ _ _ (Number 49000) (Hreach 49000)
                (Hu 49000 ltac:(lia)) eq_refl Hpos) as [Hiff _].
    apply Hiff. exact H49000.
  - destruct (Hgen _ _ lit_0_05 "bob" _ _ _ _ (Number 48999) (Hreach 48999)
                (Hu 48999 ltac:(lia)) eq_refl Hpos) as [_ Hrej].
    apply Hrej. exact H48999.
  - destruct (Hint _ _ lit_0_05 "bob" _ _ _ _ 51000 50000 (Hreach 51000)
                eq_refl ltac:(split; [lia | reflexivity])
                ltac:(split; [lia | reflexivity]) Hprod) as [Hiff _].
    apply Hiff. vm_compute. discriminate.
  - destruct (Hint _ _ lit_0_05 "bob" _ _ _ _ 51001 50000 (Hreach 51001)
                eq_refl ltac:(split; [lia | reflexivity])
                ltac:(split; [lia | reflexivity]) Hprod) as [_ Hrej].
    apply Hrej. reflexivity.
Defined.

(** C3, on the amounts.  The bound is one on the rounded numbers, not on
    the amounts: 2.01 * 1000000 is computed as 2009999.9999999998
    (8632884264959999 * 2^-32), so a transfer of 2011000 smallest units,
    whose distance from 2010000 is 1000, deviates by more than the
    tolerance and is rejected for the expected amount 2.01, while 2009000
    is accepted.  And 0.05 is the binary64 value
    7205759403792794 * 2^-57, from whose exact millionfold the accepted
    amount 49000 is further than 1000. *)
Lemma tolerance_is_on_rounded_numbers :
  div (Number 201) (Number 100) = lit_2_01
  /\ gt lit_2_01 (Number 0) = true
  /\ mul lit_2_01 (Number 1000000) = S754_finite false 8632884264959999 (-32)
  /\ TransferSearchResult.amount
       (findUSDCTransfer (largeTransferTx 2011000 (Some 1700000000)) devnetMint "bob")
     = Some (Number 2011000)
  /\ Z.abs (2011000 - 2010000) <= 1000
  /\ deviation (Number 2011000) lit_2_01 = S754_finite false 8796093022210048 (-43)
  /\ Number 1000 = S754_finite false 8796093022208000 (-43)
  /\ fst (verifyPayment (ledgerOf (largeTransferTx 2011000 (Some 1700000000)))
            sampleSignature lit_2_01 "bob" "devnet" freshWorld)
     = PaymentVerification.mk false
         (Some (AmountMismatch lit_2_01 (div (Number 2011000) (Number 1000000))))
         None None (Some (div (Number 2011000) (Number 1000000))) None None
  /\ PaymentVerification.valid
       (fst (verifyPayment (ledgerOf (largeTransferTx 2009000 (Some 1700000000)))
               sampleSignature lit_2_01 "bob" "devnet" freshWorld)) = true
  /\ lit_0_05 = S754_finite false 7205759403792794 (-57)
  /\ 1000 * 2 ^ 57 < 7205759403792794 * 1000000 - 49000 * 2 ^ 57
  /\ PaymentVerification.valid
       (fst (verifyPayment (ledgerOf (transferTx 49000 (Some 1700000000)))
               sampleSignature lit_0_05 "bob" "devnet" freshWorld)) = true.
Proof.
  split; [vm_compute; reflexivity |].
  split; [vm_compute; reflexivity |].
  split; [vm_compute; reflexivity |].
  split; [vm_compute; reflexivity |].
  split; [vm_compute; discriminate |].
  split; [vm_compute; reflexivity |].
  split; [vm_compute; reflexivity |].
  split; [vm_compute; reflexivity |].
  split; [vm_compute; reflexivity |].
  split; [reflexivity |].
  split; [vm_compute; reflexivity |].
  vm_compute; reflexivity.
Qed.

Lemma lit_0_05_is_one_twentieth : div (Number 5) (Number 100) = lit_0_05.
Proof. vm_compute. reflexivity. Qed.

(** *** C4 *)

(** The age check on a block time that is known and not 0: too old exactly
    above 300 seconds, from the future exactly beyond 60 seconds, passed
    in between.  An unknown block time passes. *)
Lemma checkAge_nonzero (env : Env) (t : Z) :
  t <> 0 ->
  let now := Date_now env / 1000 in
  (300 < now - t ->
   checkAge env (Some t)
   = Some (PaymentVerification.mk false (Some (TransactionTooOld (now - t)))
             None None None (Some t) None))
  /\ (60 < t - now ->
      checkAge env (Some t)
      = Some (PaymentVerification.mk false (Some TransactionFromFuture)
                None None None (Some t) None))
  /\ (-60 <= now - t <= 300 -> checkAge env (Some t) = None).
Proof.
  intros Ht now. unfold checkAge, MAX_TX_AGE_SECONDS. fold now.
  apply Z.eqb_neq in Ht. rewrite Ht. cbv zeta.
  repeat split; intros H.
  - assert (E : (now - t >? 300) = true) by lia. now rewrite E.
  - assert (E : (now - t >? 300) = false) by lia.
    assert (E' : (now - t <? -60) = true) by lia. now rewrite E, E'.
  - assert (E : (now - t >? 300) = false) by lia.
    assert (E' : (now - t <? -60) = false) by lia. now rewrite E, E'.
Qed.

Lemma checkAge_unknown (env : Env) : checkAge env None = None.
Proof. reflexivity. Qed.

(** X1.  For calls that get as far as the age check with a block time
    that is known and not 0, the too-old error is returned exactly when
    now - blockTime > 300 and the from-the-future error exactly when
    blockTime - now > 60. *)
Lemma freshness_errors_nonzero (env : Env) (sig : string) (e : number)
  (recv net : string) (w : World) (tx : ParsedTransactionWithMeta) (m : string) (t : Z) :
  has (usedSignatures w) sig = false ->
  USDC_MINTS net = Some m ->
  getParsedTransaction env sig = RpcTx tx ->
  metaErr tx = None ->
  blockTime tx = Some t ->
  t <> 0 ->
  let now := Date_now env / 1000 in
  let r := fst (verifyPayment env sig e recv net w) in
  (PaymentVerification.error r = Some (TransactionTooOld (now - t)) <-> 300 < now - t)
  /\ (PaymentVerification.error r = Some TransactionFromFuture <-> 60 < t - now).
Proof.
  intros Hh Hm Hl He Hb Ht now r. subst r.
  unfold verifyPayment. rewrite Hh, (USDC_MINTS_at_own net m Hm), Hl, He, Hb.
  destruct (checkAge_nonzero env t Ht) as [Hold [Hfut Hok]]. fold now in Hold, Hfut, Hok.
  assert (Hcases : 300 < now - t \/ 60 < t - now \/ -60 <= now - t <= 300) by lia.
  destruct Hcases as [H | [H | H]].
  - rewrite (Hold H). simpl. split; split; intros; try reflexivity; try discriminate; lia.
  - rewrite (Hfut H). simpl. split; split; intros; try reflexivity; try discriminate; lia.
  - rewrite (Hok H). unfold checkTransfer. cbv zeta.
    destruct (negb _) eqn:Hf.
    + apply negb_true_iff in Hf. rewrite (findUSDCTransfer_not_found _ _ _ Hf). simpl.
      split; split; intros; try discriminate; lia.
    + destruct (gt _ _); simpl; split; split; intros; try discriminate; lia.
Qed.

Lemma freshness_errors_nonzero_witness :
  PaymentVerification.error
    (fst (verifyPayment (ledgerOf (transferTx 50000 (Some 1699999699)))
            sampleSignature lit_0_05 "bob" "devnet" freshWorld))
  = Some (TransactionTooOld (1700000000 - 1699999699))
  /\ PaymentVerification.error
       (fst (verifyPayment (ledgerOf (transferTx 50000 (Some 1700000061)))
               sampleSignature lit_0_05 "bob" "devnet" freshWorld))
     = Some TransactionFromFuture.
Proof.
  split.
  - destruct (freshness_errors_nonzero
                (ledgerOf (transferTx 50000 (Some 1699999699)))
                sampleSignature lit_0_05 "bob" "devnet" freshWorld
                (transferTx 50000 (Some 1699999699)) devnetMint 1699999699
                eq_refl eq_refl eq_refl eq_refl eq_refl ltac:(discriminate))
      as [Hold _].
    apply Hold. reflexivity.
  - destruct (freshness_errors_nonzero
                (ledgerOf (transferTx 50000 (Some 1700000061)))
                sampleSignature lit_0_05 "bob" "devnet" freshWorld
                (transferTx 50000 (Some 1700000061)) devnetMint 1700000061
                eq_refl eq_refl eq_refl eq_refl eq_refl ltac:(discriminate))
      as [_ Hfut].
    apply Hfut. reflexivity.
Defined.

(** A call for the name of an inherited member: the lookup of line 66 is
    truthy, the ledger is queried, and no transfer is ever found. *)
Lemma verifyPayment_inherited (env : Env) (sig : string) (e : number)
  (recv net : string) (w : World) :
  has (usedSignatures w) sig = false ->
  USDC_MINTS net = None ->
  In net Object_prototype ->
  verifyPayment env sig e recv net w
  = (match getParsedTransaction env sig with
     | RpcThrows t => failure (VerificationFailed (messageOf t))
     | RpcNull => failure TransactionNotFound
     | RpcTx tx =>
         match metaErr tx with
         | Some err => failure (TransactionFailed err)
         | None =>
             match checkAge env (blockTime tx) with
             | Some r => r
             | None => failure (TransferNotFound recv)
             end
         end
     end,
     mkWorld (usedSignatures w) (rpcCalls w ++ [sig])).
Proof.
  intros Hh Hm Hin. unfold verifyPayment. rewrite Hh.
  assert (Hat : USDC_MINTS_at net = Some InheritedMember).
  { unfold USDC_MINTS_at. rewrite Hm.
    assert (E : existsb (String.eqb net) Object_prototype = true).
    { apply existsb_exists. exists net. split; [exact Hin | apply String.eqb_refl]. }
    now rewrite E. }
  rewrite Hat.
  destruct (getParsedTransaction env sig); try reflexivity.
  destruct (metaErr tx); [reflexivity |].
  destruct (checkAge env (blockTime tx)); [reflexivity |].
  unfold checkTransfer. cbv zeta. rewrite findUSDCTransfer_inherited. reflexivity.
Qed.

Lemma checkAge_result (env : Env) (bt : option Z) (r : PaymentVerification.t) :
  checkAge env bt = Some r ->
  PaymentVerification.valid r = false
  /\ ((exists age, PaymentVerification.error r = Some (TransactionTooOld age))
      \/ PaymentVerification.error r = Some TransactionFromFuture).
Proof.
  unfold checkAge. destruct bt as [t |]; [| discriminate].
  destruct (t =? 0); [discriminate |]. cbv zeta.
  destruct (_ >? _); [intros H; inversion H; simpl; eauto |].
  destruct (_ <? _); [intros H; inversion H; simpl; eauto | discriminate].
Qed.

(** X2.  A network for which [USDC_MINTS[network]] is [undefined] (no key
    of the literal, no member inherited from [Object.prototype]) is
    reported as unknown before the ledger is queried: the state, the
    query log included, is left as it was.  The name of an inherited
    member ([constructor], [toString], ...) is not reported as unknown:
    the lookup is truthy, the ledger is queried once, and the call fails
    with another error, the transfer-not-found error when it gets as far
    as the extraction. *)
Lemma unknown_network_before_ledger (env : Env) (sig : string) (e : number)
  (recv net : string) (w : World) :
  has (usedSignatures w) sig = false ->
  USDC_MINTS net = None ->
  (~ In net Object_prototype ->
   verifyPayment env sig e recv net w = (failure (UnknownNetwork net), w))
  /\ (In net Object_prototype ->
      snd (verifyPayment env sig e recv net w)
      = mkWorld (usedSignatures w) (rpcCalls w ++ [sig])
      /\ PaymentVerification.valid (fst (verifyPayment env sig e recv net w)) = false
      /\ PaymentVerification.error (fst (verifyPayment env sig e recv net w))
         <> Some (UnknownNetwork net)
      /\ (forall tx,
            getParsedTransaction env sig = RpcTx tx ->
            metaErr tx = None ->
            checkAge env (blockTime tx) = None ->
            fst (verifyPayment env sig e recv net w)
            = failure (TransferNotFound recv))).
Proof.
  intros Hh Hm. split.
  - intros Hno. unfold verifyPayment. rewrite Hh.
    assert (Hat : USDC_MINTS_at net = None) by (apply USDC_MINTS_at_None; now split).
    now rewrite Hat.
  - intros Hin. rewrite (verifyPayment_inherited env sig e recv net w Hh Hm Hin).
    cbn [fst snd]. split; [reflexivity |].
    destruct (getParsedTransaction env sig) as [t | | tx].
    + simpl. repeat split; try discriminate.
    + simpl. repeat split; try discriminate.
    + destruct (metaErr tx) as [err |] eqn:Herr.
      * simpl. split; [reflexivity |]. split; [discriminate |].
        intros tx' E. inversion E; subst tx'. congruence.
      * destruct (checkAge env (blockTime tx)) as [r |] eqn:Hage.
        -- destruct (checkAge_result env _ r Hage) as [Hv [[age He] | He]];
             (split; [exact Hv |]); (split; [rewrite He; discriminate |]);
             intros tx' E; inversion E; subst tx'; intros _ Hnone; congruence.
        -- simpl. split; [reflexivity |]. split; [discriminate |].
           intros tx' E _ _. reflexivity.
Qed.

Lemma unknown_network_before_ledger_witness :
  verifyPayment (ledgerOf (transferTx 50000 (Some 1700000000)))
    sampleSignature lit_0_05 "bob" "testnet" freshWorld
  = (failure (UnknownNetwork "testnet"), freshWorld)
  /\ verifyPayment (ledgerOf (transferTx 50000 (Some 1700000000)))
       sampleSignature lit_0_05 "bob" "constructor" freshWorld
     = (failure (TransferNotFound "bob"), mkWorld [] [sampleSignature]).
Proof.
  destruct (unknown_network_before_ledger
              (ledgerOf (transferTx 50000 (Some 1700000000)))
              sampleSignature lit_0_05 "bob" "testnet" freshWorld
              eq_refl eq_refl) as [Hunknown _].
  destruct (unknown_network_before_ledger
              (ledgerOf (transferTx 50000 (Some 1700000000)))
              sampleSignature lit_0_05 "bob" "constructor" freshWorld
              eq_refl eq_refl) as [_ Hinherited].
  split.
  - apply Hunknown. vm_compute. intuition discriminate.
  - destruct Hinherited as [Hw [_ [_ Hr]]]; [now left |].
    rewrite (surjective_pairing (verifyPayment _ _ _ _ _ _)), Hw.
    rewrite (Hr (transferTx 50000 (Some 1700000000)) eq_refl eq_refl eq_refl).
    reflexivity.
Defined.

(** The bounds on the sample ledger, whose clock reads 1700000000 s:
    300 s old passes and 301 s old does not; 30 s and 60 s ahead pass and
    61 s ahead does not. *)
Lemma freshness_boundary_examples :
  let verdict bt :=
    PaymentVerification.error
      (fst (verifyPayment (ledgerOf (transferTx 50000 (Some bt)))
              sampleSignature lit_0_05 "bob" "devnet" freshWorld)) in
  verdict 1699999700 = None
  /\ verdict 1699999699 = Some (TransactionTooOld 301)
  /\ verdict 1700000030 = None
  /\ verdict 1700000060 = None
  /\ verdict 1700000061 = Some TransactionFromFuture.
Proof.
  cbv zeta. repeat split; vm_compute; reflexivity.
Qed.

(** C4.  At block time 0 the age check is skipped: [if (txTimestamp)] is
    false for 0 as it is for an unknown block time.  A transaction whose
    block time is known to be 0, presented when the clock reads
    1700000000 s, is 1700000000 s > 300 s old; [verifyPayment] does not
    answer with the too-old error but returns [valid: true]. *)
Theorem block_time_zero_skips_age_check :
  (forall env, checkAge env (Some 0) = None)
  /\ 300 < Date_now (ledgerOf (transferTx 50000 (Some 0))) / 1000 - 0
  /\ fst (verifyPayment (ledgerOf (transferTx 50000 (Some 0)))
            sampleSignature lit_0_05 "bob" "devnet" freshWorld)
     = PaymentVerification.mk true None (Some "alice") (Some "bob")
         (Some lit_0_05) (Some 0) (Some 7).
Proof.
  split; [reflexivity |]. split; [vm_compute; reflexivity | vm_compute; reflexivity].
Qed.

(** *** C5 *)

(** The ledger queries of one call: none when the signature is in the set
    or the lookup of the network is [undefined], one otherwise.  No shape
    of the signature is looked at. *)
Lemma verifyPayment_rpcCalls (env : Env) (sig : string) (e : number)
  (recv net : string) (w : World) :
  rpcCalls (snd (verifyPayment env sig e recv net w))
  = if has (usedSignatures w) sig then rpcCalls w
    else match USDC_MINTS_at net with
         | None => rpcCalls w
         | Some _ => rpcCalls w ++ [sig]
         end.
Proof.
  unfold verifyPayment.
  destruct (has (usedSignatures w) sig); [reflexivity |].
  destruct (USDC_MINTS_at net) as [m |]; [| reflexivity].
  destruct (getParsedTransaction env sig); try reflexivity.
  destruct (metaErr tx); [reflexivity |].
  destruct (checkAge env (blockTime tx)); [reflexivity |].
  unfold checkTransfer. cbv zeta.
  destruct (negb _); [reflexivity |]. destruct (gt _ _); reflexivity.
Qed.

(** C5, as the code has it.  For every non-empty [Authorization] header
    whose signature (the header without a leading [Bearer] and trimmed) is
    empty or shorter than 80 characters, [GET] answers 400 with the
    invalid-authorization error and leaves the state as it was:
    [verifyPayment] is not called and the ledger is not queried.  A
    signature of 80 characters or more, whatever its length and its
    characters, is never answered with that error: it is handed to
    [verifyPayment], and the ledger is queried for it unless it is in the
    used set or the network is unknown.  [verifyPayment] looks at no shape
    itself: under the same two conditions it queries the ledger for any
    string, the empty one included. *)
Theorem short_signature_rejected_before_ledger (cfg : Config) (env : Env)
  (authHeader : string) (walletParam : option string) (w : World) :
  authHeader <> "" ->
  ((String.length (trim (stripBearer authHeader)) < 80)%nat ->
   GET cfg env (Some authHeader) walletParam w = (InvalidAuthorization400, w)
   /\ status (fst (GET cfg env (Some authHeader) walletParam w)) = 400
   /\ rpcCalls (snd (GET cfg env (Some authHeader) walletParam w)) = rpcCalls w)
  /\ ((80 <= String.length (trim (stripBearer authHeader)))%nat ->
      fst (GET cfg env (Some authHeader) walletParam w) <> InvalidAuthorization400
      /\ rpcCalls (snd (GET cfg env (Some authHeader) walletParam w))
         = if has (usedSignatures w) (trim (stripBearer authHeader))
           then rpcCalls w
           else match USDC_MINTS_at (NETWORK cfg) with
                | None => rpcCalls w
                | Some _ => rpcCalls w ++ [trim (stripBearer authHeader)]
                end)
  /\ (forall sig e recv net,
        has (usedSignatures w) sig = false ->
        USDC_MINTS_at net <> None ->
        rpcCalls (snd (verifyPayment env sig e recv net w)) = rpcCalls w ++ [sig]).
Proof.
  intros Hne. split; [| split].
  - intros Hlen.
    assert (E : GET cfg env (Some authHeader) walletParam w
                = (InvalidAuthorization400, w)).
    { unfold GET. apply String.eqb_neq in Hne. rewrite Hne.
      assert (Hlt : (Z.of_nat (String.length (trim (stripBearer authHeader))) <? 80)
                    = true) by (apply Z.ltb_lt; lia).
      rewrite Hlt, orb_true_r. reflexivity. }
    rewrite E. repeat split.
  - intros Hlen.
    pose proof (verifyPayment_rpcCalls env (trim (stripBearer authHeader))
                  PRICE_USDC (RECEIVER_WALLET cfg) (NETWORK cfg) w) as Hrpc.
    unfold GET. apply String.eqb_neq in Hne. rewrite Hne.
    assert (E1 : String.eqb (trim (stripBearer authHeader)) "" = false).
    { apply String.eqb_neq. intros E. rewrite E in Hlen. simpl in Hlen. lia. }
    assert (E2 : (Z.of_nat (String.length (trim (stripBearer authHeader))) <? 80)
                 = false) by (apply Z.ltb_ge; lia).
    rewrite E1, E2. cbn [orb]. cbv zeta.
    destruct (verifyPayment env (trim (stripBearer authHeader)) PRICE_USDC
                (RECEIVER_WALLET cfg) (NETWORK cfg) w) as [v w'].
    cbn [snd] in Hrpc.
    destruct (negb (PaymentVerification.valid v));
      [split; [discriminate | exact Hrpc] |].
    destruct (if truthyString walletParam then walletParam
              else PaymentVerification.sender v) as [q |];
      [destruct (String.eqb q "") |];
      (split; [discriminate | exact Hrpc]).
  - intros sig e recv net Hfresh Hnet.
    rewrite verifyPayment_rpcCalls, Hfresh.
    destruct (USDC_MINTS_at net); [reflexivity | congruence].
Qed.

Lemma short_signature_rejected_before_ledger_witness :
  GET sampleConfig (ledgerOf (transferTx 50000 (Some 1700000000)))
    (Some "Bearer 5VERv8NMvzbJMEkV8xnrLkEaWRtSz9CosKDYjCJjBRnbJLgp") None freshWorld
  = (InvalidAuthorization400, freshWorld)
  /\ GET sampleConfig emptyLedger (Some "Bearer   ") None freshWorld
     = (InvalidAuthorization400, freshWorld)
  /\ rpcCalls (snd (GET sampleConfig refusingLedger (Some oversizedSignature)
                      None freshWorld))
     = [oversizedSignature].
Proof.
  split; [| split].
  - destruct (short_signature_rejected_before_ledger sampleConfig
                (ledgerOf (transferTx 50000 (Some 1700000000)))
                "Bearer 5VERv8NMvzbJMEkV8xnrLkEaWRtSz9CosKDYjCJjBRnbJLgp" None
                freshWorld ltac:(discriminate)) as [Hshort _].
    apply Hshort. vm_compute. lia.
  - destruct (short_signature_rejected_before_ledger sampleConfig emptyLedger
                "Bearer   " None freshWorld ltac:(discriminate)) as [Hshort _].
    apply Hshort. vm_compute. lia.
  - destruct (short_signature_rejected_before_ledger sampleConfig refusingLedger
                oversizedSignature None freshWorld ltac:(discriminate))
      as [_ [Hlong _]].
    destruct Hlong as [_ Hrpc]; [vm_compute; lia |].
    rewrite Hrpc. reflexivity.
Defined.

(** C5, as stated, fails.  A header of 200 characters, which is not of the
    length of any encoded signature, passes the route's check; [GET] calls
    [verifyPayment], which queries the ledger for it, and the answer is
    402 with what the query produced, not a structural error.  And
    [verifyPayment] itself checks no shape: called with the empty
    signature it queries the ledger too. *)
Lemma malformed_signature_reaches_ledger :
  String.length oversizedSignature = 200%nat
  /\ GET sampleConfig refusingLedger (Some oversizedSignature) None freshWorld
     = (VerificationFailed402
          (Some (VerificationFailed (Text "Invalid param: WrongSize"))),
        mkWorld [] [oversizedSignature])
  /\ verifyPayment refusingLedger "" lit_0_05 "bob" "devnet" freshWorld
     = (failure (VerificationFailed (Text "Invalid param: WrongSize")),
        mkWorld [] [""]).
Proof.
  split; [reflexivity |]. split; vm_compute; reflexivity.
Qed.

(** *** The paying client *)

Section Client.

Variable parseFloat : string -> number.
Variable toString : jsval -> Thrown + string.
Variable net : Net.
Variable this : Wallet.

Lemma quiet_ret {A} (a : A) : quiet (ret a).
Proof. intros tr. reflexivity. Qed.

Lemma quiet_throw {A} (t : Thrown) : quiet (@throw A t).
Proof. intros tr. reflexivity. Qed.

Lemma quiet_lift {A} (r : Thrown + A) : quiet (lift r).
Proof. intros tr. unfold lift. destruct r; reflexivity. Qed.

Lemma quiet_bind {A B} (m : M A) (k : A -> M B) :
  quiet m -> (forall a, quiet (k a)) -> quiet (bind m k).
Proof.
  intros Hm Hk tr. unfold bind. rewrite (Hm tr), (Hm []).
  destruct (fst (m [])) as [a | t]; [apply Hk | reflexivity].
Qed.

Lemma bind_inl {A B} (m : M A) (k : A -> M B) (tr tr' : list Event) (b : B) :
  bind m k tr = (inl b, tr') ->
  exists a tr1, m tr = (inl a, tr1) /\ k a tr1 = (inl b, tr').
Proof.
  unfold bind. destruct (m tr) as [[a | t] tr1]; [| discriminate].
  intros H. now exists a, tr1.
Qed.

Lemma amountText_quiet (v : jsval) : quiet (amountText toString v).
Proof.
  unfold amountText.
  destruct v; try apply quiet_ret;
    (apply quiet_bind; [apply quiet_lift | intros; apply quiet_ret]).
Qed.

(** Parsing the descriptor touches nothing outside. *)
Lemma parsePaymentRequirements_quiet (v : jsval) :
  quiet (parsePaymentRequirements parseFloat toString this v).
Proof.
  unfold parsePaymentRequirements.
  destruct v; try apply quiet_throw;
    (apply quiet_bind; [apply amountText_quiet |];
     intros a; apply quiet_bind; [| intros; apply quiet_ret];
     destruct (truthyString a); [apply quiet_ret |];
     apply quiet_bind; [apply amountText_quiet | intros; apply quiet_ret]).
Qed.

Lemma parseResponse_trace (r : HttpResponse) (tr : list Event) :
  snd (parseResponse r tr) = tr.
Proof.
  unfold parseResponse, bind, lift, ret.
  destruct (content_type r) as [ct |].
  - destruct (includes ct _).
    + destruct (json r); reflexivity.
    + destruct (text r); reflexivity.
  - destruct (text r); reflexivity.
Qed.

Lemma lastStatus_response (tr : list Event) (s : Z) :
  lastStatus (tr ++ [EvResponse s]) = s.
Proof. unfold lastStatus. rewrite fold_left_app. reflexivity. Qed.

Lemma doFetch_spec (r : Request) (tr : list Event) :
  doFetch net r tr
  = match fetch net r with
    | inl t => (inr t, tr ++ [EvFetch r])
    | inr response =>
        (inl response, (tr ++ [EvFetch r]) ++ [EvResponse (http_status response)])
    end.
Proof.
  unfold doFetch, bind, emit, lift, ret. destruct (fetch net r); reflexivity.
Qed.

(** *** C7 *)

(** The log of the requirements touches nothing outside. *)
Lemma logRequirements_quiet (requirements : PaymentRequirements) :
  quiet (logRequirements this requirements).
Proof.
  unfold logRequirements.
  destruct (debug this); [| apply quiet_ret].
  destruct (_ && _); [apply quiet_ret | apply quiet_throw].
Qed.


(** *** C8 *)

(** C8, as the code has it.  When a step of [pay] throws (the request, the
    reading of a body, the descriptor, the balance check, the submission),
    the result is [success: false] with the message of the error and
    status 0, whatever responses were received before.  When no step
    throws, the status returned is that of the last response received. *)
Theorem status_zero_on_throw_else_last_response (url : string) (maxAmount : number)
  (options : RequestInit) (tr : list Event) :
  match payTry parseFloat toString net this url maxAmount options tr with
  | (inr t, tr') =>
      pay parseFloat toString net this url maxAmount options tr
      = (PaymentResponse.mk false None (Some (Caught (messageOf t))) None 0, tr')
  | (inl r, tr') =>
      pay parseFloat toString net this url maxAmount options tr = (r, tr')
      /\ PaymentResponse.status r = lastStatus tr'
  end.
Proof.
  unfold pay.
  destruct (payTry parseFloat toString net this url maxAmount options tr)
    as [[r | t] tr'] eqn:E; [| reflexivity].
  split; [reflexivity |].
  unfold payTry in E.
  apply bind_inl in E. destruct E as [initialResponse [tr1 [Hfetch E]]].
  rewrite doFetch_spec in Hfetch.
  destruct (fetch net _) as [t | resp]; [discriminate |].
  inversion Hfetch; subst initialResponse tr1; clear Hfetch.
  destruct (http_status resp =? 402) eqn:Hst; cbn [negb] in E.
  - apply bind_inl in E. destruct E as [paymentInfo [tr1 [Hjson E]]].
    apply bind_inl in E. destruct E as [requirements [tr2 [Hparse E]]].
    apply bind_inl in E. destruct E as [u [tr2' [Hlog E]]].
    rewrite logRequirements_quiet in Hlog.
    assert (Etr : tr2' = tr2) by (now inversion Hlog). subst tr2'. clear Hlog.
    destruct (gt _ _).
    + rewrite parsePaymentRequirements_quiet in Hparse.
      unfold lift in Hjson. destruct (json resp); [discriminate |].
      inversion Hjson; subst tr1. inversion Hparse; subst tr2.
      inversion E; subst. simpl.
      apply Z.eqb_eq in Hst. rewrite <- Hst. now rewrite lastStatus_response.
    + apply bind_inl in E. destruct E as [txSignature [tr3 [_ E]]].
      apply bind_inl in E. destruct E as [paidResponse [tr4 [Hfetch E]]].
      rewrite doFetch_spec in Hfetch.
      destruct (fetch net _) as [t | paid]; [discriminate |].
      inversion Hfetch; subst paidResponse tr4; clear Hfetch.
      apply bind_inl in E. destruct E as [data [tr5 [Hdata E]]].
      pose proof (parseResponse_trace paid
                    ((tr3 ++ [EvFetch (mkRequest url
                       (mkInit (spread [("Content-Type", JStr "application/json");
                                        ("Authorization", JStr txSignature)]
                                  (headers options)) (rest options)))]) ++
                     [EvResponse (http_status paid)])) as Htr.
      rewrite Hdata in Htr. simpl in Htr. subst tr5.
      inversion E; subst. simpl. now rewrite lastStatus_response.
  - apply bind_inl in E. destruct E as [data [tr5 [Hdata E]]].
    pose proof (parseResponse_trace resp
                  ((tr ++ [EvFetch (mkRequest url
                     (mkInit (spread [("Content-Type", JStr "application/json")]
                                (headers options)) (rest options)))]) ++
                   [EvResponse (http_status resp)])) as Htr.
    rewrite Hdata in Htr. simpl in Htr. subst tr5.
    inversion E; subst. simpl. now rewrite lastStatus_response.
Qed.

End Client.



(** C8, as stated, fails.  The server answers 402, the amount is within
    the budget, and the wallet's token account is empty: the balance check
    of [sendUSDCPayment] throws.  The 402 was received, and the status
    returned is 0. *)
Lemma status_zero_although_402_received :
  pay sampleParseFloat sampleToString (gatedNet 0) sampleWallet
    "https://oracle.example/api/reputation" lit_0_05 noOptions []
  = (PaymentResponse.mk false None
       (Some (Caught (InsufficientBalance (div (Number 0) (Number 1000000)) lit_0_05)))
       None 0,
     [EvFetch (initialRequest "https://oracle.example/api/reputation" noOptions);
      EvResponse 402;
      EvGetAccount "alice-ata"])
  /\ lastStatus
       (snd (pay sampleParseFloat sampleToString (gatedNet 0) sampleWallet
               "https://oracle.example/api/reputation" lit_0_05 noOptions []))
     = 402.
Proof.
  split; vm_compute; reflexivity.
Qed.

(* ================================================================== *)
(** ** Further properties of src/lib/verify-payment.ts *)
(* ================================================================== *)

(** *** The set as a set of bounded size *)

Lemma add_NoDup (u : StringSet) (s : string) : NoDup u -> NoDup (add u s).
Proof.
  intros H. unfold add. destruct (has u s) eqn:E; [exact H |].
  apply has_false_not_In in E.
  apply NoDup_app; [exact H | constructor; [intros [] | constructor] |].
  intros x Hx [<- | []]. contradiction.
Qed.

Lemma delete_NoDup (u : StringSet) (s : string) : NoDup u -> NoDup (delete u s).
Proof. intros H. unfold delete. now apply NoDup_filter. Qed.

Lemma fold_delete_NoDup (l : list string) (u : StringSet) :
  NoDup u -> NoDup (fold_left delete l u).
Proof.
  revert u. induction l as [| x l IH]; intros u H; simpl; [exact H |].
  apply IH, delete_NoDup, H.
Qed.

Lemma delete_absent (u : StringSet) (s : string) : ~ In s u -> delete u s = u.
Proof.
  intros H. unfold delete. induction u as [| x u IH]; simpl; [reflexivity |].
  assert (E : String.eqb x s = false).
  { apply String.eqb_neq. intros ->. apply H. now left. }
  rewrite E. simpl. rewrite IH; [reflexivity |]. intros Hin. apply H. now right.
Qed.

(** Deleting the first [n] elements of a duplicate-free list, one by one,
    leaves the elements from position [n] on, in their order. *)
Lemma fold_delete_firstn (n : nat) (l : list string) :
  NoDup l -> fold_left delete (firstn n l) l = skipn n l.
Proof.
  revert l. induction n as [| n IH]; intros l H; [reflexivity |].
  destruct l as [| x l]; [reflexivity |].
  inversion H as [| x' l' Hx Hl]; subst. simpl firstn. simpl skipn. simpl fold_left.
  unfold delete at 2. simpl. rewrite String.eqb_refl. simpl.
  fold (delete l x). rewrite (delete_absent l x Hx). apply IH, Hl.
Qed.

Lemma commitSignature_wellKept (used : StringSet) (s : string) :
  NoDup used -> size used <= 10000 ->
  NoDup (commitSignature used s) /\ size (commitSignature used s) <= 10000.
Proof.
  intros Hnd Hsz. unfold commitSignature.
  pose proof (add_NoDup used s Hnd) as Hadd.
  assert (Hlen : size (add used s) <= size used + 1).
  { unfold add, size. destruct (has used s); [lia |].
    rewrite length_app. simpl. lia. }
  destruct (10000 <? size (add used s)) eqn:E.
  - unfold slice0. rewrite (fold_delete_firstn _ _ Hadd). split.
    + rewrite <- (firstn_skipn (Z.to_nat 5000) (add used s)) in Hadd.
      now apply NoDup_app_remove_l in Hadd.
    + unfold size in *. rewrite length_skipn. lia.
  - apply Z.ltb_ge in E. split; assumption.
Qed.

(** *** X3 *)

(** X3.  Starting from a set without duplicates of at most 10000
    signatures (the empty set of a fresh process is one), every sequence
    of calls of [verifyPayment] leaves a set without duplicates of at most
    10000 signatures. *)
Theorem used_set_stays_bounded (calls : list Call) (w : World) :
  wellKept w -> wellKept (performAll calls w).
Proof.
  revert w. induction calls as [| c calls IH]; intros w Hw; simpl; [exact Hw |].
  apply IH. unfold perform.
  pose proof (verifyPayment_set (call_env c) (call_signature c)
                (call_expectedAmount c) (call_expectedReceiver c)
                (call_network c) w) as H.
  destruct (verifyPayment _ _ _ _ _ w) as [r w']. simpl.
  destruct Hw as [Hnd Hsz]. unfold wellKept.
  destruct H as [[_ Hu] | [_ [_ Hu]]]; rewrite Hu.
  - split; assumption.
  - now apply commitSignature_wellKept.
Qed.

Lemma used_set_stays_bounded_witness :
  wellKept
    (performAll
       [mkCall (ledgerOf (transferTx 50000 (Some 1700000000)))
          sampleSignature lit_0_05 "bob" "devnet";
        mkCall (ledgerOf (transferTx 50000 (Some 1700000000)))
          sampleSignature lit_0_05 "bob" "devnet"]
       freshWorld).
Proof.
  apply used_set_stays_bounded. split.
  - constructor.
  - vm_compute. discriminate.
Defined.

Lemma replicate_length (n : nat) (c : ascii) : String.length (replicate n c) = n.
Proof. induction n as [| n IH]; simpl; congruence. Qed.

Lemma numbered_NoDup (n : nat) : NoDup (numbered n).
Proof.
  unfold numbered. generalize (seq_NoDup n 1).
  induction (seq 1 n) as [| a l IH]; intros H; simpl; [constructor |].
  inversion H as [| a' l' Ha Hl]; subst. constructor; [| now apply IH].
  intros Hin. apply in_map_iff in Hin. destruct Hin as [b [E Hb]].
  apply (f_equal String.length) in E. rewrite !replicate_length in E.
  subst b. contradiction.
Qed.

Lemma numbered_length (n : nat) : List.length (numbered n) = n.
Proof. unfold numbered. now rewrite length_map, length_seq. Qed.

Lemma numbered_no_empty (n : nat) : has (numbered n) "" = false.
Proof.
  apply has_false_not_In. unfold numbered. intros H.
  apply in_map_iff in H. destruct H as [k [E Hk]].
  apply in_seq in Hk. apply (f_equal String.length) in E.
  rewrite replicate_length in E. simpl in E. lia.
Qed.

(** *** X4 *)

(** X4.  When the set holds 10000 different signatures and a new one is
    accepted, the commit leaves exactly the 5000 newest of the old ones
    followed by the new one, in their order of insertion: the 5000 oldest
    are forgotten, 5001 are kept. *)
Theorem eviction_keeps_newest (used : StringSet) (s : string) :
  NoDup used -> has used s = false -> size used = 10000 ->
  commitSignature used s = skipn (Z.to_nat 5000) used ++ [s]
  /\ size (commitSignature used s) = 5001.
Proof.
  intros Hnd Hs Hsz.
  assert (E : commitSignature used s = skipn (Z.to_nat 5000) used ++ [s]).
  { unfold commitSignature.
    pose proof (add_NoDup used s Hnd) as Hadd.
    unfold add in *. rewrite Hs in *.
    assert (Hgt : (10000 <? size (used ++ [s])) = true).
    { apply Z.ltb_lt. unfold size in *. rewrite length_app. simpl. lia. }
    rewrite Hgt. unfold slice0. rewrite (fold_delete_firstn _ _ Hadd).
    rewrite skipn_app. unfold size in Hsz.
    replace (Z.to_nat 5000 - List.length used)%nat with 0%nat by lia.
    reflexivity. }
  split; [exact E |].
  rewrite E. unfold size in *. rewrite length_app, length_skipn. simpl. lia.
Qed.

Lemma eviction_keeps_newest_witness :
  commitSignature (numbered (Z.to_nat 10000)) ""
  = skipn (Z.to_nat 5000) (numbered (Z.to_nat 10000)) ++ [""]
  /\ size (commitSignature (numbered (Z.to_nat 10000)) "") = 5001.
Proof.
  apply (eviction_keeps_newest (numbered (Z.to_nat 10000)) "").
  - apply numbered_NoDup.
  - apply numbered_no_empty.
  - unfold size. rewrite numbered_length. lia.
Defined.

(** *** X5 *)

(** X5.  [isSignatureUsed] is true exactly for the signatures that
    [verifyPayment] refuses as replays.  It is true for a signature right
    after the call that accepted it and false after
    [clearUsedSignatures]; a call that was accepted is accepted again,
    with the same result, once the set has been cleared. *)
Theorem isSignatureUsed_and_clear (env : Env) (sig : string) (e : number)
  (recv net : string) (w : World) :
  (isSignatureUsed sig w = true
   <-> fst (verifyPayment env sig e recv net w) = failure ReplayDetected)
  /\ (PaymentVerification.valid (fst (verifyPayment env sig e recv net w)) = true ->
      let w' := snd (verifyPayment env sig e recv net w) in
      isSignatureUsed sig w' = true
      /\ isSignatureUsed sig (clearUsedSignatures w') = false
      /\ fst (verifyPayment env sig e recv net (clearUsedSignatures w'))
         = fst (verifyPayment env sig e recv net w)).
Proof.
  split.
  - unfold isSignatureUsed. split.
    + intros H. unfold verifyPayment. now rewrite H.
    + intros H. apply (verifyPayment_replay_only_if_used env sig e recv net w).
      now rewrite H.
  - intros Hv w'. subst w'.
    pose proof (verifyPayment_set env sig e recv net w) as H.
    destruct (verifyPayment env sig e recv net w) as [r w1] eqn:E. simpl in *.
    destruct H as [[Hv' _] | [_ [Hn Hw]]]; [congruence |].
    unfold isSignatureUsed. split; [| split].
    + apply has_In. rewrite Hw. now apply commitSignature_In.
    + reflexivity.
    + replace r with (fst (verifyPayment env sig e recv net w)) by now rewrite E.
      unfold verifyPayment. simpl usedSignatures. rewrite Hn. simpl has.
      destruct (USDC_MINTS_at net) as [m |]; [| reflexivity].
      destruct (getParsedTransaction env sig); try reflexivity.
      destruct (metaErr tx); [reflexivity |].
      destruct (checkAge env (blockTime tx)); [reflexivity |].
      unfold checkTransfer. cbv zeta.
      destruct (negb _); [reflexivity |]. destruct (gt _ _); reflexivity.
Qed.

Lemma isSignatureUsed_and_clear_witness :
  let env := ledgerOf (transferTx 50000 (Some 1700000000)) in
  let w' := snd (verifyPayment env sampleSignature lit_0_05 "bob" "devnet" freshWorld) in
  isSignatureUsed sampleSignature w' = true
  /\ isSignatureUsed sampleSignature (clearUsedSignatures w') = false
  /\ PaymentVerification.valid
       (fst (verifyPayment env sampleSignature lit_0_05 "bob" "devnet"
               (clearUsedSignatures w'))) = true.
Proof.
  cbv zeta.
  destruct (isSignatureUsed_and_clear
              (ledgerOf (transferTx 50000 (Some 1700000000)))
              sampleSignature lit_0_05 "bob" "devnet" freshWorld) as [_ H].
  assert (Hv : PaymentVerification.valid
                 (fst (verifyPayment (ledgerOf (transferTx 50000 (Some 1700000000)))
                         sampleSignature lit_0_05 "bob" "devnet" freshWorld)) = true)
    by (vm_compute; reflexivity).
  destruct (H Hv) as [H1 [H2 H3]].
  split; [exact H1 |]. split; [exact H2 |]. rewrite H3. exact Hv.
Defined.

(** *** X6 *)

(** X6.  A call of [verifyPayment] queries the ledger at most once, and
    only for the signature presented: not at all when the signature is in
    the set or [USDC_MINTS[network]] is [undefined], exactly once
    otherwise (for the two keys of the literal, and for the names of the
    members it inherits from [Object.prototype]), whatever the outcome. *)
Theorem ledger_queried_at_most_once (env : Env) (sig : string) (e : number)
  (recv net : string) (w : World) :
  rpcCalls (snd (verifyPayment env sig e recv net w))
  = if has (usedSignatures w) sig then rpcCalls w
    else match USDC_MINTS_at net with
         | None => rpcCalls w
         | Some _ => rpcCalls w ++ [sig]
         end.
Proof.
  unfold verifyPayment.
  destruct (has (usedSignatures w) sig); [reflexivity |].
  destruct (USDC_MINTS_at net) as [m |]; [| reflexivity].
  destruct (getParsedTransaction env sig); try reflexivity.
  destruct (metaErr tx); [reflexivity |].
  destruct (checkAge env (blockTime tx)); [reflexivity |].
  unfold checkTransfer. cbv zeta.
  destruct (negb _); [reflexivity |]. destruct (gt _ _); reflexivity.
Qed.

(** The age check passes exactly for an unknown block time, for the block
    time 0, and for a block time at most 300 s behind and at most 60 s
    ahead of the clock. *)
Lemma checkAge_None_iff (env : Env) (bt : option Z) :
  checkAge env bt = None
  <-> bt = None \/ bt = Some 0
      \/ exists t, bt = Some t /\ -60 <= Date_now env / 1000 - t <= 300.
Proof.
  unfold checkAge, MAX_TX_AGE_SECONDS. destruct bt as [t |].
  - destruct (Z.eqb_spec t 0) as [-> | Hne].
    + split; [intros _; right; now left | reflexivity].
    + cbv zeta. destruct (_ >? 300) eqn:E1; [| destruct (_ <? -60) eqn:E2].
      * split; [discriminate |]. intros [H | [H | [t' [H Hw]]]]; try congruence.
        inversion H; subst t'. lia.
      * split; [discriminate |]. intros [H | [H | [t' [H Hw]]]]; try congruence.
        inversion H; subst t'. lia.
      * split; [| reflexivity]. intros _. right. right. exists t. split; [reflexivity | lia].
  - split; [intros _; now left | reflexivity].
Qed.

(** *** X7 *)

(** X7.  [verifyPayment] returns [valid: true] exactly when the signature
    is not in the set, the network has a mint, the ledger returns a
    transaction without error whose block time is unknown, 0, or between
    300 s behind and 60 s ahead of the clock, the extractor finds a
    transfer, and the amount check does not fire.  The result then names
    the expected receiver, the sender the extractor reported, the amount
    divided by 1000000, the block time and the slot, and the signature is
    committed to the set. *)
Theorem valid_exactly_when (env : Env) (sig : string) (e : number)
  (recv net : string) (w : World) :
  let accepts tx m :=
    has (usedSignatures w) sig = false
    /\ USDC_MINTS net = Some m
    /\ getParsedTransaction env sig = RpcTx tx
    /\ metaErr tx = None
    /\ (blockTime tx = None \/ blockTime tx = Some 0
        \/ exists t, blockTime tx = Some t /\ -60 <= Date_now env / 1000 - t <= 300)
    /\ TransferSearchResult.found (findUSDCTransfer tx m recv) = true
    /\ gt (deviation (amountOf (findUSDCTransfer tx m recv)) e) (Number 1000) = false in
  (PaymentVerification.valid (fst (verifyPayment env sig e recv net w)) = true
   <-> exists tx m, accepts tx m)
  /\ forall tx m, accepts tx m ->
       verifyPayment env sig e recv net w
       = (PaymentVerification.mk true None
            (TransferSearchResult.sender (findUSDCTransfer tx m recv))
            (Some recv)
            (Some (div (amountOf (findUSDCTransfer tx m recv)) (Number 1000000)))
            (blockTime tx) (Some (slot tx)),
          mkWorld (commitSignature (usedSignatures w) sig) (rpcCalls w ++ [sig])).
Proof.
  intros accepts.
  assert (Hres : forall tx m, accepts tx m ->
    verifyPayment env sig e recv net w
    = (PaymentVerification.mk true None
         (TransferSearchResult.sender (findUSDCTransfer tx m recv))
         (Some recv)
         (Some (div (amountOf (findUSDCTransfer tx m recv)) (Number 1000000)))
         (blockTime tx) (Some (slot tx)),
       mkWorld (commitSignature (usedSignatures w) sig) (rpcCalls w ++ [sig]))).
  { intros tx m [Hh [Hm [Hl [He [Ha [Hf Hg]]]]]].
    apply checkAge_None_iff in Ha.
    rewrite (verifyPayment_reaches env sig e recv net w tx m)
      by (unfold reachesTransferCheck; auto).
    unfold checkTransfer. cbv zeta. rewrite Hf. simpl negb. cbv iota.
    unfold deviation in Hg. rewrite Hg.
    destruct (findUSDCTransfer_found _ _ _ Hf) as [post [d [_ [_ Hr]]]].
    rewrite Hr. reflexivity. }
  split; [| exact Hres].
  split.
  - intros Hv.
    destruct (verifyPayment_valid_inv env sig e recv net w Hv)
      as [tx [m [Hreach Hf]]].
    exists tx, m.
    pose proof Hreach as [Hh [Hm [Hl [He Ha]]]].
    unfold accepts. repeat (split; [assumption |]).
    split; [now apply checkAge_None_iff |]. split; [exact Hf |].
    rewrite (verifyPayment_reaches env sig e recv net w tx m Hreach) in Hv.
    unfold checkTransfer in Hv. cbv zeta in Hv. rewrite Hf in Hv.
    simpl negb in Hv. cbv iota in Hv. unfold deviation.
    destruct (gt _ _); [discriminate | reflexivity].
  - intros [tx [m H]]. now rewrite (Hres tx m H).
Qed.

Lemma valid_exactly_when_witness :
  verifyPayment (ledgerOf splitTx) sampleSignature lit_0_05 "bob" "devnet" freshWorld
  = (PaymentVerification.mk true None None (Some "bob") (Some lit_0_05)
       (Some 1700000000) (Some 9),
     mkWorld [sampleSignature] [sampleSignature]).
Proof.
  destruct (valid_exactly_when (ledgerOf splitTx) sampleSignature lit_0_05
              "bob" "devnet" freshWorld) as [_ H].
  rewrite (H splitTx devnetMint).
  - vm_compute. reflexivity.
  - split; [vm_compute; reflexivity |].
    split; [vm_compute; reflexivity |].
    split; [vm_compute; reflexivity |].
    split; [vm_compute; reflexivity |].
    split.
    + right. right. exists 1700000000. split; [reflexivity |]. vm_compute.
      split; discriminate.
    + split; vm_compute; reflexivity.
Defined.

(** *** X8 *)

(** X8.  The amount check never fires when the expected amount is NaN:
    every comparison with NaN is false, so a call that reaches the check
    with a transfer of any positive size to the receiver returns
    [valid: true]. *)
Theorem nan_expected_amount_accepts (env : Env) (sig recv net : string)
  (w : World) (tx : ParsedTransactionWithMeta) (m : string) :
  reachesTransferCheck env sig net w tx m ->
  TransferSearchResult.found (findUSDCTransfer tx m recv) = true ->
  PaymentVerification.valid (fst (verifyPayment env sig S754_nan recv net w)) = true.
Proof.
  intros Hreach Hf.
  rewrite (verifyPayment_reaches env sig S754_nan recv net w tx m Hreach).
  unfold checkTransfer. cbv zeta. rewrite Hf. simpl negb. cbv iota.
  assert (E : gt (Math_abs (sub (amountOf (findUSDCTransfer tx m recv))
                             (mul S754_nan (Number 1000000)))) (Number 1000) = false).
  { unfold mul. simpl SFmul. unfold sub.
    destruct (amountOf (findUSDCTransfer tx m recv)); reflexivity. }
  rewrite E. reflexivity.
Qed.

Lemma nan_expected_amount_accepts_witness :
  PaymentVerification.valid
    (fst (verifyPayment (ledgerOf (transferTx 1 (Some 1700000000)))
            sampleSignature S754_nan "bob" "devnet" freshWorld)) = true.
Proof.
  apply (nan_expected_amount_accepts
           (ledgerOf (transferTx 1 (Some 1700000000)))
           sampleSignature "bob" "devnet" freshWorld
           (transferTx 1 (Some 1700000000)) devnetMint).
  - unfold reachesTransferCheck. repeat split; vm_compute; reflexivity.
  - vm_compute. reflexivity.
Defined.

(* ================================================================== *)
(** ** Further properties of src/lib/AgentWallet.ts *)
(* ================================================================== *)

Section ClientTrace.

Variable parseFloat : string -> number.
Variable toString : jsval -> Thrown + string.
Variable net : Net.
Variable this : Wallet.

(** What [sendUSDCPayment] does, by how far it gets: it throws before
    reading the token account, or after reading it, or when it builds the
    transfer instruction, or it builds one transfer for the rounded
    amount, covered by the balance read, and hands it to
    [sendAndConfirmTransaction]. *)
Lemma sendUSDCPayment_cases (receiver : jsval) (amount : number) (tr : list Event) :
  (exists t, sendUSDCPayment net this receiver amount tr = (inr t, tr))
  \/ (exists t a, sendUSDCPayment net this receiver amount tr
                  = (inr t, tr ++ [EvGetAccount a]))
  \/ (exists t a x, sendUSDCPayment net this receiver amount tr
                    = (inr t, tr ++ [EvGetAccount a;
                                     EvCreateTransferInstruction x]))
  \/ (exists x bal,
        Math_round (mul amount (Number 1000000)) = Some (amountRaw x)
        /\ getAccount net (source x) = inr bal
        /\ amountRaw x <= bal
        /\ authority x = publicKey this
        /\ (exists usdcMint receiverPubkey,
              PublicKey_new net
                (match USDC_MINTS (network this) with
                 | Some m => JStr m
                 | None => JUndefined
                 end) = inr usdcMint
              /\ PublicKey_new net receiver = inr receiverPubkey
              /\ getAssociatedTokenAddress net usdcMint (publicKey this)
                 = inr (source x)
              /\ getAssociatedTokenAddress net usdcMint receiverPubkey
                 = inr (destination x))
        /\ sendUSDCPayment net this receiver amount tr
           = (match sendAndConfirmTransaction net x with
              | inl t => inr t
              | inr s => inl s
              end,
              tr ++ [EvGetAccount (source x);
                     EvCreateTransferInstruction x;
                     EvSendAndConfirmTransaction x])).
Proof.
  unfold sendUSDCPayment, bind, lift, emit, ret, throw.
  destruct (PublicKey_new net
              match USDC_MINTS (network this) with
              | Some m => JStr m
              | None => JUndefined
              end) as [t | usdcMint] eqn:Hmint; [left; now exists t |].
  destruct (PublicKey_new net receiver) as [t | receiverPubkey] eqn:Hrecv;
    [left; now exists t |].
  destruct (getAssociatedTokenAddress net usdcMint (publicKey this))
    as [t | senderTokenAccount] eqn:Hsrc; [left; now exists t |].
  destruct (getAssociatedTokenAddress net usdcMint receiverPubkey)
    as [t | receiverTokenAccount] eqn:Hdst; [left; now exists t |].
  destruct (getAccount net senderTokenAccount) as [t | senderAccount] eqn:Hacc;
    [right; left; now exists t, senderTokenAccount |].
  destruct (Math_round (mul amount (Number 1000000))) as [raw |] eqn:Hround;
    [| right; left; now eexists _, senderTokenAccount].
  destruct (senderAccount <? raw) eqn:Hlt;
    [right; left; now eexists _, senderTokenAccount |].
  destruct (createTransferInstruction net
              (mkTransfer senderTokenAccount receiverTokenAccount (publicKey this) raw))
    as [t | []] eqn:Hix.
  { right. right. left. exists t, senderTokenAccount,
      (mkTransfer senderTokenAccount receiverTokenAccount (publicKey this) raw).
    rewrite <- !app_assoc. reflexivity. }
  right. right. right.
  exists (mkTransfer senderTokenAccount receiverTokenAccount (publicKey this) raw),
         senderAccount.
  simpl. apply Z.ltb_ge in Hlt.
  do 4 (split; [first [assumption | reflexivity] |]).
  split; [exists usdcMint, receiverPubkey; auto |].
  rewrite <- !app_assoc. simpl.
  destruct (sendAndConfirmTransaction net _); reflexivity.
Qed.

Lemma parseResponse_cases (r : HttpResponse) (tr : list Event) :
  parseResponse r tr = (fst (parseResponse r []), tr).
Proof.
  unfold parseResponse, bind, lift, ret.
  destruct (content_type r) as [ct |].
  - destruct (includes ct _).
    + destruct (json r); reflexivity.
    + destruct (text r); reflexivity.
  - destruct (text r); reflexivity.
Qed.

(** A [pay] call, by how far it gets: the first request; its response;
    the reading of the token account; the building of the transfer
    instruction; one transfer built and submitted for an amount that is
    not above [maxAmount]; the retry with the signature the submission
    returned; its response. *)
Lemma pay_cases (url : string) (maxAmount : number) (options : RequestInit) :
  let run := pay parseFloat toString net this url maxAmount options [] in
  let F0 := EvFetch (initialRequest url options) in
  snd run = [F0]
  \/ (exists s, snd run = [F0; EvResponse s])
  \/ (exists a, snd run = [F0; EvResponse 402; EvGetAccount a])
  \/ (exists a x, snd run = [F0; EvResponse 402; EvGetAccount a;
                             EvCreateTransferInstruction x])
  \/ (exists response paymentInfo requirements x bal,
        fetch net (initialRequest url options) = inr response
        /\ http_status response = 402
        /\ json response = inr paymentInfo
        /\ fst (parsePaymentRequirements parseFloat toString this paymentInfo [])
           = inl requirements
        /\ gt (req_amount requirements) maxAmount = false
        /\ Math_round (mul (req_amount requirements) (Number 1000000))
           = Some (amountRaw x)
        /\ getAccount net (source x) = inr bal
        /\ amountRaw x <= bal
        /\ authority x = publicKey this
        /\ (exists usdcMint receiverPubkey,
              PublicKey_new net
                (match USDC_MINTS (network this) with
                 | Some m => JStr m
                 | None => JUndefined
                 end) = inr usdcMint
              /\ PublicKey_new net (req_receiver requirements) = inr receiverPubkey
              /\ getAssociatedTokenAddress net usdcMint (publicKey this)
                 = inr (source x)
              /\ getAssociatedTokenAddress net usdcMint receiverPubkey
                 = inr (destination x))
        /\ let paid := [F0; EvResponse 402; EvGetAccount (source x);
                        EvCreateTransferInstruction x;
                        EvSendAndConfirmTransaction x] in
           match sendAndConfirmTransaction net x with
           | inl t => run = (settled (inl t) None, paid)
           | inr sig =>
               run = (settled (fetch net (retryRequest url options sig)) (Some sig),
                      paid ++ EvFetch (retryRequest url options sig)
                              :: match fetch net (retryRequest url options sig) with
                                 | inl _ => []
                                 | inr paidResponse =>
                                     [EvResponse (http_status paidResponse)]
                                 end)
           end).
Proof.
  cbv zeta.
  destruct (pay parseFloat toString net this url maxAmount options [])
    as [r tr] eqn:Erun.
  cbn [snd]. unfold pay, payTry, bind in Erun.
  fold (initialRequest url options) in Erun. rewrite doFetch_spec in Erun.
  destruct (fetch net (initialRequest url options)) as [t | response] eqn:Hfetch;
    [left; now inversion Erun |].
  destruct (http_status response =? 402) eqn:Hst; cbn [negb] in Erun.
  - apply Z.eqb_eq in Hst. rewrite Hst in Erun. unfold lift in Erun.
    destruct (json response) as [t | paymentInfo] eqn:Hjson;
      [right; left; exists 402; now inversion Erun |].
    rewrite parsePaymentRequirements_quiet in Erun.
    destruct (fst (parsePaymentRequirements parseFloat toString this paymentInfo []))
      as [requirements | t] eqn:Hparse;
      [| right; left; exists 402; now inversion Erun].
    rewrite logRequirements_quiet in Erun.
    destruct (fst (logRequirements this requirements [])) as [u | t];
      [| right; left; exists 402; now inversion Erun].
    destruct (gt (req_amount requirements) maxAmount) eqn:Hgt;
      [right; left; exists 402; now inversion Erun |].
    destruct (sendUSDCPayment_cases (req_receiver requirements)
                (req_amount requirements)
                (([] ++ [EvFetch (initialRequest url options)]) ++ [EvResponse 402]))
      as [[t E] | [[t [a E]] | [[t [a [x E]]]
          | [x [bal [Hround [Hacc [Hle [Hauth [Hwire E]]]]]]]]]];
      rewrite E in Erun; simpl app in Erun.
    + right. left. exists 402. now inversion Erun.
    + right. right. left. exists a. now inversion Erun.
    + right. right. right. left. exists a, x. now inversion Erun.
    + right. right. right. right.
      exists response, paymentInfo, requirements, x, bal.
      repeat (split; [assumption |]).
      destruct (sendAndConfirmTransaction net x) as [t | sig];
        [now inversion Erun |].
      fold (retryRequest url options sig) in Erun. rewrite doFetch_spec in Erun.
      destruct (fetch net (retryRequest url options sig)) as [t | paidResponse];
        [now inversion Erun |].
      rewrite parseResponse_cases in Erun. unfold settled.
      destruct (fst (parseResponse paidResponse [])); now inversion Erun.
  - right. left. exists (http_status response).
    rewrite parseResponse_cases in Erun.
    destruct (fst (parseResponse response [])); now inversion Erun.
Qed.

End ClientTrace.

Section ClientProperties.

Variable parseFloat : string -> number.
Variable toString : jsval -> Thrown + string.
Variable net : Net.
Variable this : Wallet.

Lemma headerValue_setKey_same {V : Type} (k : string) (v : V)
  (h : list (string * V)) :
  headerValue k (setKey k v h) = Some v.
Proof.
  induction h as [| [k' v'] h IH]; simpl.
  - now rewrite String.eqb_refl.
  - destruct (String.eqb k k') eqn:E; simpl; [now rewrite String.eqb_refl |].
    now rewrite E.
Qed.

Lemma headerValue_setKey_other {V : Type} (k k' : string) (v : V)
  (h : list (string * V)) :
  k <> k' -> headerValue k (setKey k' v h) = headerValue k h.
Proof.
  intros Hne. induction h as [| [k0 v0] h IH]; simpl.
  - apply String.eqb_neq in Hne. now rewrite Hne.
  - destruct (String.eqb k' k0) eqn:E; simpl.
    + apply String.eqb_eq in E. subst k0.
      apply String.eqb_neq in Hne. now rewrite Hne.
    + destruct (String.eqb k k0); [reflexivity | exact IH].
Qed.

Lemma headerValue_spread_absent {V : Type} (k : string)
  (base extra : list (string * V)) :
  (forall v, ~ In (k, v) extra) ->
  headerValue k (spread base extra) = headerValue k base.
Proof.
  unfold spread. revert base. induction extra as [| [k' v'] extra IH];
    intros base Hno; simpl; [reflexivity |].
  rewrite IH by (intros v Hin; apply (Hno v); now right).
  apply headerValue_setKey_other. intros ->. apply (Hno v'). now left.
Qed.

Lemma headerValue_spread_present {V : Type} (k : string)
  (base extra : list (string * V)) :
  (exists v, In (k, v) extra) ->
  exists v, In (k, v) extra /\ headerValue k (spread base extra) = Some v.
Proof.
  unfold spread. revert base.
  induction extra as [| [k' v'] extra IH] using rev_ind; intros base [v Hin];
    [destruct Hin |].
  rewrite fold_left_app. simpl.
  destruct (String.eqb_spec k k') as [-> | Hne].
  - exists v'. split; [apply in_or_app; right; now left |].
    apply headerValue_setKey_same.
  - rewrite headerValue_setKey_other by assumption.
    apply in_app_or in Hin. destruct Hin as [Hin | [Heq | []]];
      [| inversion Heq; congruence].
    destruct (IH base (ex_intro _ v Hin)) as [v0 [Hin0 E]].
    exists v0. split; [apply in_or_app; now left | exact E].
Qed.

(** *** X9 *)

(** X9.  [pay] hands at most one transfer to [sendAndConfirmTransaction],
    and only after a 402 response whose descriptor parsed to an amount
    that is not above [maxAmount]; the raw amount of the transfer is that
    amount times 1000000 rounded to an integer (so the amount is neither
    NaN nor infinite), it does not exceed the balance read from the
    wallet's token account, and the wallet is the authority. *)
Theorem pay_submits_one_transfer_within_budget
  (url : string) (maxAmount : number) (options : RequestInit) (x : Transfer) :
  In (EvSendAndConfirmTransaction x)
     (snd (pay parseFloat toString net this url maxAmount options [])) ->
  transfersOf (snd (pay parseFloat toString net this url maxAmount options [])) = [x]
  /\ exists response paymentInfo requirements bal,
       fetch net (initialRequest url options) = inr response
       /\ http_status response = 402
       /\ json response = inr paymentInfo
       /\ fst (parsePaymentRequirements parseFloat toString this paymentInfo [])
          = inl requirements
       /\ gt (req_amount requirements) maxAmount = false
       /\ isFinite (req_amount requirements) = true
       /\ Math_round (mul (req_amount requirements) (Number 1000000))
          = Some (amountRaw x)
       /\ getAccount net (source x) = inr bal
       /\ amountRaw x <= bal
       /\ authority x = publicKey this.
Proof.
  intros Hin.
  destruct (pay_cases parseFloat toString net this url maxAmount options)
    as [E | [[s E] | [[a E] | [[a [x0 E]]
        | [response [paymentInfo [requirements [x' [bal H]]]]]]]]].
  - rewrite E in Hin. simpl in Hin. destruct Hin as [H | []]. discriminate.
  - rewrite E in Hin. simpl in Hin. destruct Hin as [H | [H | []]]; discriminate.
  - rewrite E in Hin. simpl in Hin.
    destruct Hin as [H | [H | [H | []]]]; discriminate.
  - rewrite E in Hin. simpl in Hin.
    destruct Hin as [H | [H | [H | [H | []]]]]; discriminate.
  - destruct H as [Hfetch [Hst [Hjson [Hparse [Hgt [Hround [Hacc [Hle [Hauth [_ Hrun]]]]]]]]]].
    cbv zeta in Hrun.
    assert (Htr : transfersOf (snd (pay parseFloat toString net this url maxAmount options []))
                  = [x']
                  /\ forall y, In (EvSendAndConfirmTransaction y)
                                  (snd (pay parseFloat toString net this url maxAmount options []))
                               -> y = x').
    { destruct (sendAndConfirmTransaction net x') as [t | sig]; rewrite Hrun; simpl.
      - split; [reflexivity |].
        intros y [H | [H | [H | [H | [H | []]]]]]; try discriminate. now inversion H.
      - destruct (fetch net (retryRequest url options sig)); simpl.
        + split; [reflexivity |].
          intros y [H | [H | [H | [H | [H | [H | []]]]]]]; try discriminate.
          now inversion H.
        + split; [reflexivity |].
          intros y [H | [H | [H | [H | [H | [H | [H | []]]]]]]]; try discriminate.
          now inversion H. }
    destruct Htr as [Htr Huniq]. apply Huniq in Hin. subst x'.
    split; [exact Htr |].
    exists response, paymentInfo, requirements, bal.
    repeat (split; [assumption |]). split; [| auto].
    destruct (req_amount requirements) as [sg | sg | | sg mm ee];
      try reflexivity; simpl in Hround; discriminate.
Qed.

End ClientProperties.

Lemma pay_submits_one_transfer_within_budget_witness :
  let x := mkTransfer "alice-ata" "bob-ata" "alice" 50000 in
  let run := pay sampleParseFloat sampleToString (gatedNet 1000000) sampleWallet
               "https://oracle.example/api/reputation" lit_0_05 noOptions [] in
  In (EvSendAndConfirmTransaction x) (snd run)
  /\ transfersOf (snd run) = [x].
Proof.
  cbv zeta.
  assert (Hin : In (EvSendAndConfirmTransaction
                      (mkTransfer "alice-ata" "bob-ata" "alice" 50000))
                   (snd (pay sampleParseFloat sampleToString (gatedNet 1000000)
                           sampleWallet "https://oracle.example/api/reputation"
                           lit_0_05 noOptions []))).
  { vm_compute. right. right. right. right. now left. }
  split; [exact Hin |].
  apply (pay_submits_one_transfer_within_budget sampleParseFloat sampleToString
           (gatedNet 1000000) sampleWallet
           "https://oracle.example/api/reputation" lit_0_05 noOptions _ Hin).
Defined.

Section ClientRequests.

Variable parseFloat : string -> number.
Variable toString : jsval -> Thrown + string.
Variable net : Net.
Variable this : Wallet.

(** *** X10 *)

(** X10.  Every transfer that [pay] submits goes from the wallet's own
    token account to the token account of the receiver named by the
    descriptor, both derived for the USDC mint of the wallet's configured
    network: the token and the network the descriptor names play no part
    in it. *)
Theorem pay_transfers_own_usdc_to_named_receiver
  (url : string) (maxAmount : number) (options : RequestInit) (x : Transfer) :
  In (EvSendAndConfirmTransaction x)
     (snd (pay parseFloat toString net this url maxAmount options [])) ->
  exists response paymentInfo requirements usdcMint receiverPubkey,
    fetch net (initialRequest url options) = inr response
    /\ json response = inr paymentInfo
    /\ fst (parsePaymentRequirements parseFloat toString this paymentInfo [])
       = inl requirements
    /\ PublicKey_new net
         (match USDC_MINTS (network this) with
          | Some m => JStr m
          | None => JUndefined
          end) = inr usdcMint
    /\ PublicKey_new net (req_receiver requirements) = inr receiverPubkey
    /\ getAssociatedTokenAddress net usdcMint (publicKey this) = inr (source x)
    /\ getAssociatedTokenAddress net usdcMint receiverPubkey = inr (destination x).
Proof.
  intros Hin.
  destruct (pay_cases parseFloat toString net this url maxAmount options)
    as [E | [[s E] | [[a E] | [[a [x0 E]]
        | [response [paymentInfo [requirements [x' [bal H]]]]]]]]].
  - rewrite E in Hin. simpl in Hin. destruct Hin as [H | []]. discriminate.
  - rewrite E in Hin. simpl in Hin. destruct Hin as [H | [H | []]]; discriminate.
  - rewrite E in Hin. simpl in Hin.
    destruct Hin as [H | [H | [H | []]]]; discriminate.
  - rewrite E in Hin. simpl in Hin.
    destruct Hin as [H | [H | [H | [H | []]]]]; discriminate.
  - destruct H as [Hfetch [_ [Hjson [Hparse [_ [_ [_ [_ [_ [Hwire Hrun]]]]]]]]]].
    cbv zeta in Hrun.
    assert (Hx : x = x').
    { destruct (sendAndConfirmTransaction net x') as [t | sig];
        rewrite Hrun in Hin; simpl in Hin.
      - destruct Hin as [H | [H | [H | [H | [H | []]]]]]; try discriminate.
        now inversion H.
      - destruct (fetch net (retryRequest url options sig)); simpl in Hin.
        + destruct Hin as [H | [H | [H | [H | [H | [H | []]]]]]]; try discriminate.
          now inversion H.
        + destruct Hin as [H | [H | [H | [H | [H | [H | [H | []]]]]]]];
            try discriminate.
          now inversion H. }
    subst x'. destruct Hwire as [usdcMint [receiverPubkey Hw]].
    exists response, paymentInfo, requirements, usdcMint, receiverPubkey. tauto.
Qed.

(** *** X11 *)

(** X11.  The requests of a [pay] call are the first request and, after a
    transfer whose submission returned a signature, the retry built from
    the same options.  The headers that the retry hands to [fetch] are a
    plain object that holds the signature under the key [Authorization],
    unless [options.headers] has an own enumerable property of exactly
    that name, whose value then takes the place of the signature.  The
    signature therefore stays in place when [options.headers] is
    [undefined], a [Headers] instance or an array of pairs, and when it
    is a plain object whose key differs from [Authorization], be it in
    letter case only: that key is handed over beside the signature.  What
    [fetch] makes of the object is not part of [pay]. *)
Theorem retry_carries_signature_unless_overridden
  (url : string) (maxAmount : number) (options : RequestInit) :
  (forall r,
     In (EvFetch r) (snd (pay parseFloat toString net this url maxAmount options [])) ->
     r = initialRequest url options
     \/ exists x sig,
          In (EvSendAndConfirmTransaction x)
             (snd (pay parseFloat toString net this url maxAmount options []))
          /\ sendAndConfirmTransaction net x = inr sig
          /\ r = retryRequest url options sig)
  /\ (forall sig,
        (forall a, ~ In ("Authorization", a) (headers options)) ->
        headerValue "Authorization" (headers (init (retryRequest url options sig)))
        = Some (JStr sig)
        /\ forall k,
             k <> "Authorization" ->
             (exists a, In (k, a) (headers options)) ->
             exists a',
               In (k, a') (headers options)
               /\ headerValue k (headers (init (retryRequest url options sig)))
                  = Some a')
  /\ (forall sig a,
        In ("Authorization", a) (headers options) ->
        exists a',
          In ("Authorization", a') (headers options)
          /\ headerValue "Authorization" (headers (init (retryRequest url options sig)))
             = Some a').
Proof.
  split; [| split].
  - intros r Hin.
    destruct (pay_cases parseFloat toString net this url maxAmount options)
      as [E | [[s E] | [[a E] | [[a [x0 E]]
          | [response [paymentInfo [requirements [x [bal H]]]]]]]]].
    + rewrite E in Hin. simpl in Hin. destruct Hin as [H | []].
      left. now inversion H.
    + rewrite E in Hin. simpl in Hin. destruct Hin as [H | [H | []]];
        [left; now inversion H | discriminate].
    + rewrite E in Hin. simpl in Hin.
      destruct Hin as [H | [H | [H | []]]]; try discriminate.
      left. now inversion H.
    + rewrite E in Hin. simpl in Hin.
      destruct Hin as [H | [H | [H | [H | []]]]]; try discriminate.
      left. now inversion H.
    + destruct H as [_ [_ [_ [_ [_ [_ [_ [_ [_ [_ Hrun]]]]]]]]]].
      cbv zeta in Hrun.
      destruct (sendAndConfirmTransaction net x) as [t | sig] eqn:Hsend.
      * rewrite Hrun in Hin. simpl in Hin.
        destruct Hin as [H | [H | [H | [H | [H | []]]]]]; try discriminate.
        left. now inversion H.
      * assert (Hsent : In (EvSendAndConfirmTransaction x)
                          (snd (pay parseFloat toString net this url maxAmount options []))).
        { rewrite Hrun. simpl. right. right. right. right. now left. }
        rewrite Hrun in Hin. simpl in Hin.
        destruct Hin as [H | [H | [H | [H | [H | [H | Hin]]]]]]; try discriminate.
        -- left. now inversion H.
        -- right. exists x, sig. split; [exact Hsent |]. split; [exact Hsend |].
           now inversion H.
        -- destruct (fetch net (retryRequest url options sig)); simpl in Hin;
             [destruct Hin | destruct Hin as [H | []]; discriminate].
  - intros sig Hno. unfold retryRequest. cbn [init headers]. split.
    + rewrite headerValue_spread_absent by assumption. reflexivity.
    + intros k Hk Hex. now apply headerValue_spread_present.
  - intros sig a Hin. unfold retryRequest. cbn [init headers].
    apply headerValue_spread_present. now exists a.
Qed.

(** *** X12 *)

(** X12.  When the first request throws, [pay] returns the failure with
    status 0 after that one request.  When the first response has any
    status other than 402, [pay] returns it as it is (success for a 2xx
    status, the status as error otherwise; status 0 when its body cannot
    be read) and does nothing else: the wallet is not touched and no
    second request is made. *)
Theorem other_status_returned_as_is
  (url : string) (maxAmount : number) (options : RequestInit) (tr : list Event) :
  match fetch net (initialRequest url options) with
  | inl t =>
      pay parseFloat toString net this url maxAmount options tr
      = (settled (inl t) None, tr ++ [EvFetch (initialRequest url options)])
  | inr response =>
      http_status response <> 402 ->
      pay parseFloat toString net this url maxAmount options tr
      = (settled (inr response) None,
         tr ++ [EvFetch (initialRequest url options);
                EvResponse (http_status response)])
  end.
Proof.
  unfold pay, payTry, bind. fold (initialRequest url options).
  rewrite doFetch_spec.
  destruct (fetch net (initialRequest url options)) as [t | response];
    [reflexivity |].
  intros Hne. apply Z.eqb_neq in Hne. rewrite Hne. cbn [negb].
  rewrite parseResponse_cases. unfold settled. rewrite <- app_assoc.
  destruct (fst (parseResponse response [])); reflexivity.
Qed.

(** *** X13 *)

(** X13.  After a transfer whose submission returned a signature, the
    result of [pay] is decided by the retry alone.  It carries the
    signature only when the retry is answered and the body of the answer
    can be read; when the retry throws, the result is [success: false]
    with status 0 and without the signature of the transfer that was
    made. *)
Theorem signature_reported_only_if_retry_answered
  (url : string) (maxAmount : number) (options : RequestInit)
  (x : Transfer) (sig : string) :
  In (EvSendAndConfirmTransaction x)
     (snd (pay parseFloat toString net this url maxAmount options [])) ->
  sendAndConfirmTransaction net x = inr sig ->
  fst (pay parseFloat toString net this url maxAmount options [])
  = settled (fetch net (retryRequest url options sig)) (Some sig)
  /\ (forall t,
        fetch net (retryRequest url options sig) = inl t ->
        fst (pay parseFloat toString net this url maxAmount options [])
        = PaymentResponse.mk false None (Some (Caught (messageOf t))) None 0).
Proof.
  intros Hin Hsend.
  assert (E : fst (pay parseFloat toString net this url maxAmount options [])
              = settled (fetch net (retryRequest url options sig)) (Some sig)).
  { destruct (pay_cases parseFloat toString net this url maxAmount options)
      as [E | [[s E] | [[a E] | [[a [x0 E]]
        | [response [paymentInfo [requirements [x' [bal H]]]]]]]]].
    - rewrite E in Hin. simpl in Hin. destruct Hin as [H | []]. discriminate.
    - rewrite E in Hin. simpl in Hin. destruct Hin as [H | [H | []]]; discriminate.
    - rewrite E in Hin. simpl in Hin.
      destruct Hin as [H | [H | [H | []]]]; discriminate.
    - rewrite E in Hin. simpl in Hin.
      destruct Hin as [H | [H | [H | [H | []]]]]; discriminate.
    - destruct H as [_ [_ [_ [_ [_ [_ [_ [_ [_ [_ Hrun]]]]]]]]]].
      cbv zeta in Hrun.
      assert (Hx : x = x').
      { destruct (sendAndConfirmTransaction net x') as [t | sig'];
          rewrite Hrun in Hin; simpl in Hin.
        - destruct Hin as [H | [H | [H | [H | [H | []]]]]]; try discriminate.
          now inversion H.
        - destruct (fetch net (retryRequest url options sig')); simpl in Hin.
          + destruct Hin as [H | [H | [H | [H | [H | [H | []]]]]]]; try discriminate.
            now inversion H.
          + destruct Hin as [H | [H | [H | [H | [H | [H | [H | []]]]]]]];
              try discriminate.
            now inversion H. }
      subst x'. rewrite Hsend in Hrun. now rewrite Hrun. }
  split; [exact E |].
  intros t Ht. rewrite E, Ht. reflexivity.
Qed.

(** *** X14 *)

(** X14.  A descriptor nested under [payment] is parsed like the same
    descriptor given flat: when the body holds a truthy [payment] that has
    no truthy [payment] of its own, parsing the body gives what parsing
    that [payment] gives. *)
Theorem nested_descriptor_parsed_as_flat (body payment : jsval) (tr : list Event) :
  get body "payment" = payment ->
  truthy payment = true ->
  truthy (get payment "payment") = false ->
  parsePaymentRequirements parseFloat toString this body tr
  = parsePaymentRequirements parseFloat toString this payment tr.
Proof.
  intros Hget Ht Hflat. unfold parsePaymentRequirements.
  assert (E1 : orElse (get body "payment") body = payment)
    by (unfold orElse; now rewrite Hget, Ht).
  assert (E2 : orElse (get payment "payment") payment = payment)
    by (unfold orElse; now rewrite Hflat).
  rewrite E1, E2.
  destruct body; simpl in Hget; try (subst payment; discriminate);
    destruct payment; try discriminate; reflexivity.
Qed.

End ClientRequests.

Lemma pay_transfers_own_usdc_to_named_receiver_witness :
  let x := mkTransfer "alice-ata" "bob-ata" "alice" 50000 in
  In (EvSendAndConfirmTransaction x)
     (snd (pay sampleParseFloat sampleToString (gatedNet 1000000) sampleWallet
             "https://oracle.example/api/reputation" lit_0_05 noOptions []))
  /\ exists usdcMint receiverPubkey,
       PublicKey_new (gatedNet 1000000) (JStr devnetMint) = inr usdcMint
       /\ PublicKey_new (gatedNet 1000000) (JStr "bob") = inr receiverPubkey
       /\ getAssociatedTokenAddress (gatedNet 1000000) usdcMint "alice"
          = inr (source x)
       /\ getAssociatedTokenAddress (gatedNet 1000000) usdcMint receiverPubkey
          = inr (destination x).
Proof.
  cbv zeta.
  assert (Hin : In (EvSendAndConfirmTransaction
                      (mkTransfer "alice-ata" "bob-ata" "alice" 50000))
                   (snd (pay sampleParseFloat sampleToString (gatedNet 1000000)
                           sampleWallet "https://oracle.example/api/reputation"
                           lit_0_05 noOptions []))).
  { vm_compute. right. right. right. right. now left. }
  split; [exact Hin |].
  destruct (pay_transfers_own_usdc_to_named_receiver sampleParseFloat sampleToString
              (gatedNet 1000000) sampleWallet
              "https://oracle.example/api/reputation" lit_0_05 noOptions _ Hin)
    as [response [paymentInfo [requirements [usdcMint [receiverPubkey H]]]]].
  destruct H as [Hfetch [Hjson [Hparse [Hm [Hr [Hs Hd]]]]]].
  exists usdcMint, receiverPubkey.
  simpl in Hfetch. inversion Hfetch; subst response.
  simpl in Hjson. inversion Hjson; subst paymentInfo.
  vm_compute in Hparse. inversion Hparse; subst requirements.
  repeat split; assumption.
Defined.

Lemma retry_carries_signature_unless_overridden_witness :
  headerValue "Authorization"
    (headers (init (retryRequest "https://oracle.example/api/reputation"
                      noOptions sampleSignature)))
  = Some (JStr sampleSignature)
  /\ headerValue "Authorization"
       (headers (init (retryRequest "https://oracle.example/api/reputation"
                         lowercaseOptions sampleSignature)))
     = Some (JStr sampleSignature)
  /\ headerValue "Authorization"
       (headers (init (retryRequest "https://oracle.example/api/reputation"
                         pairsOptions sampleSignature)))
     = Some (JStr sampleSignature)
  /\ (exists a',
        In ("authorization", a') (headers lowercaseOptions)
        /\ headerValue "authorization"
             (headers (init (retryRequest "https://oracle.example/api/reputation"
                               lowercaseOptions sampleSignature)))
           = Some a')
  /\ exists a',
       In ("Authorization", a') (headers bearerOptions)
       /\ headerValue "Authorization"
            (headers (init (retryRequest "https://oracle.example/api/reputation"
                              bearerOptions sampleSignature)))
          = Some a'.
Proof.
  pose proof (fun o => retry_carries_signature_unless_overridden sampleParseFloat
                         sampleToString (gatedNet 1000000) sampleWallet
                         "https://oracle.example/api/reputation" lit_0_05 o) as H.
  destruct (H noOptions) as [_ [Hnone _]].
  destruct (H lowercaseOptions) as [_ [Hlower _]].
  destruct (H pairsOptions) as [_ [Hpairs _]].
  destruct (H bearerOptions) as [_ [_ Hsome]].
  split; [apply (Hnone sampleSignature); intros a [] |].
  split; [apply (Hlower sampleSignature);
          intros a [E | []]; discriminate |].
  split; [apply (Hpairs sampleSignature);
          intros a [E | []]; discriminate |].
  split.
  - destruct (Hlower sampleSignature) as [_ Hk];
      [intros a [E | []]; discriminate |].
    apply (Hk "authorization"); [discriminate |].
    exists (JStr "Bearer api-key"). now left.
  - apply (Hsome sampleSignature (JStr "Bearer api-key")). now left.
Defined.

Lemma other_status_returned_as_is_witness :
  pay sampleParseFloat sampleToString unavailableNet sampleWallet
    "https://oracle.example/api/reputation" lit_0_05 noOptions []
  = (PaymentResponse.mk false (Some (BodyText "Service Unavailable"))
       (Some (Http 503)) None 503,
     [EvFetch (initialRequest "https://oracle.example/api/reputation" noOptions);
      EvResponse 503]).
Proof.
  apply (other_status_returned_as_is sampleParseFloat sampleToString unavailableNet
           sampleWallet "https://oracle.example/api/reputation" lit_0_05 noOptions []).
  discriminate.
Defined.

Lemma signature_reported_only_if_retry_answered_witness :
  let x := mkTransfer "alice-ata" "bob-ata" "alice" 50000 in
  let run := pay sampleParseFloat sampleToString (droppingNet 1000000) sampleWallet
               "https://oracle.example/api/reputation" lit_0_05 noOptions [] in
  In (EvSendAndConfirmTransaction x) (snd run)
  /\ fst run
     = PaymentResponse.mk false None (Some (Caught (Text "fetch failed"))) None 0.
Proof.
  cbv zeta.
  assert (Hin : In (EvSendAndConfirmTransaction
                      (mkTransfer "alice-ata" "bob-ata" "alice" 50000))
                   (snd (pay sampleParseFloat sampleToString (droppingNet 1000000)
                           sampleWallet "https://oracle.example/api/reputation"
                           lit_0_05 noOptions []))).
  { vm_compute. right. right. right. right. now left. }
  split; [exact Hin |].
  destruct (signature_reported_only_if_retry_answered sampleParseFloat sampleToString
              (droppingNet 1000000) sampleWallet
              "https://oracle.example/api/reputation" lit_0_05 noOptions
              (mkTransfer "alice-ata" "bob-ata" "alice" 50000) sampleSignature
              Hin eq_refl) as [_ Hlost].
  apply (Hlost (ThrownError (Text "fetch failed"))). reflexivity.
Defined.

Lemma nested_descriptor_parsed_as_flat_witness :
  parsePaymentRequirements sampleParseFloat sampleToString sampleWallet
    paymentRequiredBody []
  = parsePaymentRequirements sampleParseFloat sampleToString sampleWallet
      (get paymentRequiredBody "payment") [].
Proof.
  apply (nested_descriptor_parsed_as_flat sampleParseFloat sampleToString sampleWallet
           paymentRequiredBody (get paymentRequiredBody "payment") []);
    reflexivity.
Defined.

(* ================================================================== *)
(** ** Further properties of src/app/api/reputation/route.ts *)
(* ================================================================== *)

Lemma GET_after_shape (cfg : Config) (env : Env) (h : string)
  (walletParam : option string) (w : World) :
  h <> "" ->
  80 <= Z.of_nat (String.length (signatureOf h)) ->
  GET cfg env (Some h) walletParam w
  = let '(verification, w') :=
      verifyPayment env (signatureOf h) PRICE_USDC
        (RECEIVER_WALLET cfg) (NETWORK cfg) w in
    if negb (PaymentVerification.valid verification)
    then (VerificationFailed402 (PaymentVerification.error verification), w')
    else
      match (if truthyString walletParam then walletParam
             else PaymentVerification.sender verification) with
      | Some q =>
          if String.eqb q "" then (NoWallet400, w')
          else (Reputation200 q verification (signatureOf h), w')
      | None => (NoWallet400, w')
      end.
Proof.
  intros Hne Hlen. unfold GET. fold (signatureOf h).
  apply String.eqb_neq in Hne. rewrite Hne.
  assert (E1 : String.eqb (signatureOf h) "" = false).
  { apply String.eqb_neq. intros E. rewrite E in Hlen. simpl in Hlen. lia. }
  assert (E2 : (Z.of_nat (String.length (signatureOf h)) <? 80) = false)
    by (apply Z.ltb_ge; exact Hlen).
  rewrite E1, E2. reflexivity.
Qed.

Lemma GET_verified_inv (cfg : Config) (env : Env) (authHeader walletParam : option string)
  (w : World) :
  status (fst (GET cfg env authHeader walletParam w)) = 200
  \/ fst (GET cfg env authHeader walletParam w) = NoWallet400 ->
  exists h,
    authHeader = Some h /\ h <> ""
    /\ 80 <= Z.of_nat (String.length (signatureOf h))
    /\ PaymentVerification.valid
         (fst (verifyPayment env (signatureOf h) PRICE_USDC
                 (RECEIVER_WALLET cfg) (NETWORK cfg) w)) = true
    /\ snd (GET cfg env authHeader walletParam w)
       = snd (verifyPayment env (signatureOf h) PRICE_USDC
                (RECEIVER_WALLET cfg) (NETWORK cfg) w).
Proof.
  intros H. destruct authHeader as [h |];
    [| simpl in H; destruct H; discriminate].
  destruct (String.eqb h "") eqn:Eh.
  { unfold GET in H. rewrite Eh in H. simpl in H. destruct H; discriminate. }
  apply String.eqb_neq in Eh.
  destruct (Z.of_nat (String.length (signatureOf h)) <? 80) eqn:El.
  { unfold GET in H. fold (signatureOf h) in H.
    apply String.eqb_neq in Eh. rewrite Eh, El, orb_true_r in H.
    simpl in H. destruct H; discriminate. }
  apply Z.ltb_ge in El.
  exists h. split; [reflexivity |]. split; [exact Eh |]. split; [exact El |].
  rewrite (GET_after_shape cfg env h walletParam w Eh El) in *.
  destruct (verifyPayment env (signatureOf h) PRICE_USDC
              (RECEIVER_WALLET cfg) (NETWORK cfg) w) as [v w'].
  cbn [fst snd] in *.
  destruct (PaymentVerification.valid v) eqn:Ev; cbn [negb fst snd] in *.
  - split; [reflexivity |].
    destruct (if truthyString walletParam then walletParam
              else PaymentVerification.sender v) as [q |]; [| reflexivity].
    destruct (String.eqb q ""); reflexivity.
  - simpl in H. destruct H; discriminate.
Qed.

(** *** X15 *)

(** X15.  [GET] answers 200 only for a payment that [verifyPayment]
    accepted in this very call: the header is present, its signature has
    at least 80 characters, was not in the used set before the call and is
    in it afterwards, and the ledger holds for it a transaction that
    credits [RECEIVER_WALLET].  The wallet reported on is not empty; it is
    the [wallet] parameter when that is given and not empty, the payer
    found by the verification otherwise. *)
Theorem reputation_only_for_accepted_payment
  (cfg : Config) (env : Env) (authHeader walletParam : option string) (w : World)
  (q : string) (v : PaymentVerification.t) (sg : string) (w' : World) :
  GET cfg env authHeader walletParam w = (Reputation200 q v sg, w') ->
  exists h,
    authHeader = Some h
    /\ sg = signatureOf h
    /\ 80 <= Z.of_nat (String.length sg)
    /\ verifyPayment env sg PRICE_USDC (RECEIVER_WALLET cfg) (NETWORK cfg) w = (v, w')
    /\ PaymentVerification.valid v = true
    /\ has (usedSignatures w) sg = false
    /\ In sg (usedSignatures w')
    /\ (exists tx m,
          reachesTransferCheck env sg (NETWORK cfg) w tx m
          /\ TransferSearchResult.found
               (findUSDCTransfer tx m (RECEIVER_WALLET cfg)) = true)
    /\ q <> ""
    /\ (if truthyString walletParam then walletParam = Some q
        else PaymentVerification.sender v = Some q).
Proof.
  intros HG.
  destruct (GET_verified_inv cfg env authHeader walletParam w) as [h Hh].
  { left. now rewrite HG. }
  destruct Hh as [Ha [Hne [Hlen [Hvalid _]]]]. subst authHeader.
  exists h.
  rewrite (GET_after_shape cfg env h walletParam w Hne Hlen) in HG.
  pose proof (verifyPayment_set env (signatureOf h) PRICE_USDC
                (RECEIVER_WALLET cfg) (NETWORK cfg) w) as Hset.
  pose proof (verifyPayment_valid_inv env (signatureOf h) PRICE_USDC
                (RECEIVER_WALLET cfg) (NETWORK cfg) w Hvalid) as Hinv.
  destruct (verifyPayment env (signatureOf h) PRICE_USDC
              (RECEIVER_WALLET cfg) (NETWORK cfg) w) as [v0 w0] eqn:EV.
  cbn [fst] in Hvalid. rewrite Hvalid in HG. cbn [negb] in HG.
  destruct Hset as [[Hv _] | [_ [Hfresh Hused]]]; [congruence |].
  assert (Hq : exists q0,
             (if truthyString walletParam then walletParam
              else PaymentVerification.sender v0) = Some q0
             /\ String.eqb q0 "" = false
             /\ (Reputation200 q0 v0 (signatureOf h), w0)
                = (Reputation200 q v sg, w')).
  { destruct (if truthyString walletParam then walletParam
              else PaymentVerification.sender v0) as [q0 |]; [| discriminate].
    exists q0. destruct (String.eqb q0 ""); [discriminate |]. auto. }
  destruct Hq as [q0 [Eq [Hq0 E]]]. inversion E; subst q0 v0 sg w0.
  split; [reflexivity |]. split; [reflexivity |]. split; [exact Hlen |].
  split; [exact EV |]. split; [exact Hvalid |]. split; [exact Hfresh |].
  split; [rewrite Hused; now apply commitSignature_In |].
  split; [exact Hinv |].
  split; [now apply String.eqb_neq |].
  destruct (truthyString walletParam); exact Eq.
Qed.

Lemma reputation_only_for_accepted_payment_witness :
  let run := GET sampleConfig (ledgerOf (transferTx 50000 (Some 1700000000)))
               (Some sampleSignature) None freshWorld in
  status (fst run) = 200
  /\ In sampleSignature (usedSignatures (snd run)).
Proof.
  cbv zeta.
  destruct (GET sampleConfig (ledgerOf (transferTx 50000 (Some 1700000000)))
              (Some sampleSignature) None freshWorld) as [r w'] eqn:E.
  assert (Hr : exists q v sg, r = Reputation200 q v sg).
  { vm_compute in E. inversion E. eauto. }
  destruct Hr as [q [v [sg Hr]]]. subst r.
  destruct (reputation_only_for_accepted_payment _ _ _ _ _ _ _ _ _ E)
    as [h [Hh [Hsg [_ [_ [_ [_ [Hin _]]]]]]]].
  inversion Hh; subst h. subst sg.
  split; [reflexivity |]. exact Hin.
Defined.

(** *** X16 *)

(** X16.  A payment that [GET] has verified is consumed whether or not
    data was returned for it.  When the answer is 200, and also when it is
    the 400 for a wallet that could not be determined (no [wallet]
    parameter and no payer found by the verification), the signature is in
    the used set after the call, and the same header presented again is
    answered 402 with the replay error, whatever the [wallet] parameter,
    the ledger and the clock are then. *)
Theorem verified_payment_is_consumed
  (cfg : Config) (env : Env) (authHeader walletParam : option string) (w : World) :
  status (fst (GET cfg env authHeader walletParam w)) = 200
  \/ fst (GET cfg env authHeader walletParam w) = NoWallet400 ->
  exists h,
    authHeader = Some h
    /\ has (usedSignatures w) (signatureOf h) = false
    /\ In (signatureOf h)
          (usedSignatures (snd (GET cfg env authHeader walletParam w)))
    /\ forall env2 walletParam2,
         GET cfg env2 authHeader walletParam2
           (snd (GET cfg env authHeader walletParam w))
         = (VerificationFailed402 (Some ReplayDetected),
            snd (GET cfg env authHeader walletParam w)).
Proof.
  intros H.
  destruct (GET_verified_inv cfg env authHeader walletParam w H)
    as [h [Ha [Hne [Hlen [Hvalid Hsnd]]]]].
  exists h. split; [exact Ha |].
  pose proof (verifyPayment_set env (signatureOf h) PRICE_USDC
                (RECEIVER_WALLET cfg) (NETWORK cfg) w) as Hset.
  destruct (verifyPayment env (signatureOf h) PRICE_USDC
              (RECEIVER_WALLET cfg) (NETWORK cfg) w) as [v0 w0].
  cbn [fst snd] in *.
  destruct Hset as [[Hv _] | [_ [Hfresh Hused]]]; [congruence |].
  assert (Hin : In (signatureOf h) (usedSignatures w0))
    by (rewrite Hused; now apply commitSignature_In).
  split; [exact Hfresh |]. rewrite Hsnd. split; [exact Hin |].
  intros env2 walletParam2. subst authHeader.
  rewrite (GET_after_shape cfg env2 h walletParam2 w0 Hne Hlen).
  unfold verifyPayment. apply has_In in Hin. rewrite Hin. reflexivity.
Qed.

Lemma verified_payment_is_consumed_witness :
  let run := GET sampleConfig (ledgerOf splitTx) (Some sampleSignature) None
               freshWorld in
  fst run = NoWallet400
  /\ In sampleSignature (usedSignatures (snd run))
  /\ GET sampleConfig (ledgerOf splitTx) (Some sampleSignature) (Some "alice")
       (snd run)
     = (VerificationFailed402 (Some ReplayDetected), snd run).
Proof.
  cbv zeta.
  assert (E : fst (GET sampleConfig (ledgerOf splitTx) (Some sampleSignature) None
                     freshWorld) = NoWallet400) by (vm_compute; reflexivity).
  split; [exact E |].
  destruct (verified_payment_is_consumed sampleConfig (ledgerOf splitTx)
              (Some sampleSignature) None freshWorld (or_intror E))
    as [h [Hh [_ [Hin Hreplay]]]].
  inversion Hh; subst h.
  split; [exact Hin |]. apply Hreplay.
Defined.

Lemma lowerPrefix_app (q p t : string) :
  lowerPrefix q p = Some "" -> lowerPrefix q (p ++ t)%string = Some t.
Proof.
  revert p. induction q as [| a q IH]; intros p H.
  - simpl in H. inversion H. reflexivity.
  - destruct p as [| b p]; [discriminate |]. simpl in *.
    destruct (Ascii.eqb a (toLower b)); [now apply IH | discriminate].
Qed.

Lemma trimStart_allSpace (sp s : string) :
  allSpace sp = true -> trimStart (sp ++ s)%string = trimStart s.
Proof.
  induction sp as [| c sp IH]; intros H; [reflexivity |].
  simpl in H. apply andb_prop in H. destruct H as [Hc Hsp].
  simpl. rewrite Hc. now apply IH.
Qed.

Lemma trimStart_idem (s : string) : trimStart (trimStart s) = trimStart s.
Proof.
  induction s as [| c s IH]; [reflexivity |].
  simpl. destruct (isSpace c) eqn:Hc; [exact IH |]. simpl. now rewrite Hc.
Qed.

Lemma stripBearer_prefixed (p sp s : string) :
  lowerPrefix "bearer" p = Some "" -> sp <> "" -> allSpace sp = true ->
  stripBearer (p ++ sp ++ s)%string = trimStart s.
Proof.
  intros Hp Hne Hsp. unfold stripBearer.
  rewrite (lowerPrefix_app "bearer" p (sp ++ s)%string Hp).
  destruct sp as [| c sp]; [congruence |].
  simpl in Hsp. apply andb_prop in Hsp. destruct Hsp as [Hc Hsp].
  simpl. rewrite Hc. now apply trimStart_allSpace.
Qed.

(** *** X17 *)

(** X17.  The word [bearer] in front of the signature is optional and
    read in any letter case: a header made of [bearer] in some letter
    case, at least one white-space character and a text [s] is answered
    like the header [s] alone, as long as [s] is not empty and does not
    itself start with that word. *)
Theorem bearer_prefix_is_optional
  (cfg : Config) (env : Env) (p sp s : string) (walletParam : option string)
  (w : World) :
  lowerPrefix "bearer" p = Some "" ->
  sp <> "" -> allSpace sp = true ->
  s <> "" -> lowerPrefix "bearer" s = None ->
  signatureOf (p ++ sp ++ s)%string = signatureOf s
  /\ GET cfg env (Some (p ++ sp ++ s)%string) walletParam w
     = GET cfg env (Some s) walletParam w.
Proof.
  intros Hp Hne Hsp Hs Hnb.
  assert (Esig : signatureOf (p ++ sp ++ s)%string = signatureOf s).
  { unfold signatureOf. rewrite (stripBearer_prefixed p sp s Hp Hne Hsp).
    unfold stripBearer. rewrite Hnb. unfold trim. now rewrite trimStart_idem. }
  split; [exact Esig |].
  assert (Hh : String.eqb (p ++ sp ++ s)%string "" = false).
  { apply String.eqb_neq. destruct p as [| b p]; [| discriminate].
    destruct sp as [| c sp]; [congruence | discriminate]. }
  apply String.eqb_neq in Hs.
  unfold GET. fold (signatureOf (p ++ sp ++ s)%string). fold (signatureOf s).
  rewrite Hh, Hs, Esig. reflexivity.
Qed.

Lemma bearer_prefix_is_optional_witness :
  GET sampleConfig (ledgerOf (transferTx 50000 (Some 1700000000)))
    (Some ("BeArEr" ++ "  " ++ sampleSignature)%string) None freshWorld
  = GET sampleConfig (ledgerOf (transferTx 50000 (Some 1700000000)))
      (Some sampleSignature) None freshWorld.
Proof.
  apply (bearer_prefix_is_optional sampleConfig
           (ledgerOf (transferTx 50000 (Some 1700000000)))
           "BeArEr" "  " sampleSignature None freshWorld);
    first [reflexivity | discriminate].
Defined.

Lemma GET_unknown_network (cfg : Config) (env : Env)
  (authHeader walletParam : option string) (w : World) :
  USDC_MINTS_at (NETWORK cfg) = None ->
  snd (GET cfg env authHeader walletParam w) = w
  /\ forall h, authHeader = Some h -> h <> "" ->
       80 <= Z.of_nat (String.length (signatureOf h)) ->
       has (usedSignatures w) (signatureOf h) = false ->
       fst (GET cfg env authHeader walletParam w)
       = VerificationFailed402 (Some (UnknownNetwork (NETWORK cfg))).
Proof.
  intros Hnet.
  assert (Hv : forall sg,
             verifyPayment env sg PRICE_USDC (RECEIVER_WALLET cfg) (NETWORK cfg) w
             = (failure (if has (usedSignatures w) sg then ReplayDetected
                         else UnknownNetwork (NETWORK cfg)), w)).
  { intros sg. unfold verifyPayment. rewrite Hnet.
    destruct (has (usedSignatures w) sg); reflexivity. }
  destruct authHeader as [h |].
  - destruct (String.eqb h "") eqn:Eh.
    + unfold GET. rewrite Eh. simpl.
      split; [reflexivity |].
      intros h' Hh Hne. inversion Hh; subst h'.
      apply String.eqb_neq in Hne. congruence.
    + destruct (Z.of_nat (String.length (signatureOf h)) <? 80) eqn:El.
      * unfold GET. fold (signatureOf h). rewrite Eh, El, orb_true_r. simpl.
        split; [reflexivity |].
        intros h' Hh _ Hlen. inversion Hh; subst h'.
        apply Z.ltb_lt in El. lia.
      * apply String.eqb_neq in Eh. apply Z.ltb_ge in El.
        rewrite (GET_after_shape cfg env h walletParam w Eh El), Hv.
        cbn [failure PaymentVerification.valid PaymentVerification.error
             negb fst snd status].
        split; [reflexivity |].
        intros h' Hh _ _ Hfresh. inversion Hh; subst h'.
        now rewrite Hfresh.
  - simpl. split; [reflexivity |]. discriminate.
Qed.

(** Without a key of the literal for its network, [GET] accepts no
    payment. *)
Lemma GET_no_mint (cfg : Config) (env : Env)
  (authHeader walletParam : option string) (w : World) :
  USDC_MINTS (NETWORK cfg) = None ->
  status (fst (GET cfg env authHeader walletParam w)) <> 200
  /\ usedSignatures (snd (GET cfg env authHeader walletParam w)) = usedSignatures w.
Proof.
  intros Hnet.
  destruct authHeader as [h |]; [| simpl; split; [discriminate | reflexivity]].
  destruct (String.eqb h "") eqn:Eh.
  { unfold GET. rewrite Eh. simpl. split; [discriminate | reflexivity]. }
  destruct (Z.of_nat (String.length (signatureOf h)) <? 80) eqn:El.
  { unfold GET. fold (signatureOf h). rewrite Eh, El, orb_true_r. simpl.
    split; [discriminate | reflexivity]. }
  apply String.eqb_neq in Eh. apply Z.ltb_ge in El.
  rewrite (GET_after_shape cfg env h walletParam w Eh El).
  pose proof (verifyPayment_set env (signatureOf h) PRICE_USDC
                (RECEIVER_WALLET cfg) (NETWORK cfg) w) as Hset.
  pose proof (verifyPayment_valid_inv env (signatureOf h) PRICE_USDC
                (RECEIVER_WALLET cfg) (NETWORK cfg) w) as Hinv.
  destruct (verifyPayment env (signatureOf h) PRICE_USDC
              (RECEIVER_WALLET cfg) (NETWORK cfg) w) as [v w'].
  cbn [fst] in Hinv.
  destruct (PaymentVerification.valid v) eqn:Hv.
  - destruct (Hinv eq_refl) as [tx [m [[_ [Hm _]] _]]]. congruence.
  - cbn [negb fst snd status]. split; [discriminate |].
    destruct Hset as [[_ Hu] | [Hv' _]]; [exact Hu | congruence].
Qed.

(** *** X18 *)

(** X18.  The route takes its network from [X402_NETWORK] with the first
    [solana-] removed and checks the result against nothing.  When what is
    left is neither empty nor one of the two keys of [USDC_MINTS], [GET]
    never answers 200 and never adds to the used set, whatever header,
    ledger and clock it is given.  Unless what is left names a member
    inherited from [Object.prototype], the whole state stays as it was and
    a header with a well-shaped signature that was not used is answered
    402 with the unknown-network error; the value [solana-mainnet] is one
    such setting.  For the name of an inherited member ([constructor],
    ...) the ledger is queried for such a signature and the answer is 402
    with another error. *)
Theorem unknown_network_setting_denies_all (e : ProcessEnv) (n : string) :
  X402_NETWORK e = Some n ->
  removeFirst "solana-" n <> "" ->
  removeFirst "solana-" n <> "devnet" ->
  removeFirst "solana-" n <> "mainnet-beta" ->
  forall env authHeader walletParam w,
    NETWORK (configOf e) = removeFirst "solana-" n
    /\ status (fst (GET (configOf e) env authHeader walletParam w)) <> 200
    /\ usedSignatures (snd (GET (configOf e) env authHeader walletParam w))
       = usedSignatures w
    /\ (~ In (removeFirst "solana-" n) Object_prototype ->
        snd (GET (configOf e) env authHeader walletParam w) = w
        /\ forall h, authHeader = Some h -> h <> "" ->
             80 <= Z.of_nat (String.length (signatureOf h)) ->
             has (usedSignatures w) (signatureOf h) = false ->
             fst (GET (configOf e) env authHeader walletParam w)
             = VerificationFailed402
                 (Some (UnknownNetwork (removeFirst "solana-" n))))
    /\ (In (removeFirst "solana-" n) Object_prototype ->
        forall h, authHeader = Some h -> h <> "" ->
          80 <= Z.of_nat (String.length (signatureOf h)) ->
          has (usedSignatures w) (signatureOf h) = false ->
          rpcCalls (snd (GET (configOf e) env authHeader walletParam w))
          = rpcCalls w ++ [signatureOf h]
          /\ exists d,
               fst (GET (configOf e) env authHeader walletParam w)
               = VerificationFailed402 (Some d)
               /\ d <> UnknownNetwork (removeFirst "solana-" n)).
Proof.
  intros Hn H0 H1 H2 env authHeader walletParam w.
  assert (EN : NETWORK (configOf e) = removeFirst "solana-" n).
  { unfold configOf. simpl. rewrite Hn.
    apply String.eqb_neq in H0. now rewrite H0. }
  assert (Hnet : USDC_MINTS (NETWORK (configOf e)) = None).
  { rewrite EN. unfold USDC_MINTS.
    apply String.eqb_neq in H1. apply String.eqb_neq in H2.
    now rewrite H1, H2. }
  split; [exact EN |].
  destruct (GET_no_mint (configOf e) env authHeader walletParam w Hnet) as [Hs Hu].
  split; [exact Hs |]. split; [exact Hu |]. split.
  - intros Hno.
    assert (Hat : USDC_MINTS_at (NETWORK (configOf e)) = None).
    { apply USDC_MINTS_at_None. split; [exact Hnet |]. now rewrite EN. }
    destruct (GET_unknown_network (configOf e) env authHeader walletParam w Hat)
      as [Hw Herr].
    split; [exact Hw |].
    intros h Ha Hne Hlen Hfresh. rewrite <- EN. now apply (Herr h).
  - intros Hin h Ha Hne Hlen Hfresh. subst authHeader.
    rewrite (GET_after_shape (configOf e) env h walletParam w Hne Hlen).
    rewrite <- EN in Hin.
    rewrite (verifyPayment_inherited env (signatureOf h) PRICE_USDC
               (RECEIVER_WALLET (configOf e)) (NETWORK (configOf e)) w
               Hfresh Hnet Hin).
    destruct (getParsedTransaction env (signatureOf h)) as [t | | tx].
    + cbn. split; [reflexivity |]. eexists. split; [reflexivity | discriminate].
    + cbn. split; [reflexivity |]. eexists. split; [reflexivity | discriminate].
    + destruct (metaErr tx) as [err |].
      * cbn. split; [reflexivity |]. eexists. split; [reflexivity | discriminate].
      * destruct (checkAge env (blockTime tx)) as [r |] eqn:Hage.
        -- destruct (checkAge_result env _ r Hage) as [Hv [[age He] | He]];
             rewrite Hv; cbn [negb snd fst rpcCalls];
             (split; [reflexivity |]); rewrite He;
             eexists; (split; [reflexivity | discriminate]).
        -- cbn. split; [reflexivity |].
           eexists. split; [reflexivity | discriminate].
Qed.

Lemma unknown_network_setting_denies_all_witness :
  GET (configOf productionEnv) (ledgerOf (transferTx 50000 (Some 1700000000)))
    (Some sampleSignature) None freshWorld
  = (VerificationFailed402 (Some (UnknownNetwork "mainnet")), freshWorld)
  /\ rpcCalls
       (snd (GET (configOf constructorEnv)
               (ledgerOf (transferTx 50000 (Some 1700000000)))
               (Some sampleSignature) None freshWorld))
     = [sampleSignature].
Proof.
  split.
  - destruct (unknown_network_setting_denies_all productionEnv "solana-mainnet"
                eq_refl ltac:(discriminate) ltac:(discriminate) ltac:(discriminate)
                (ledgerOf (transferTx 50000 (Some 1700000000)))
                (Some sampleSignature) None freshWorld)
      as [_ [_ [_ [Hplain _]]]].
    destruct Hplain as [Hw Hu]; [vm_compute; intuition discriminate |].
    rewrite (surjective_pairing (GET _ _ _ _ _)), Hw.
    rewrite (Hu sampleSignature eq_refl ltac:(discriminate)
                ltac:(vm_compute; discriminate) eq_refl).
    reflexivity.
  - destruct (unknown_network_setting_denies_all constructorEnv "constructor"
                eq_refl ltac:(discriminate) ltac:(discriminate) ltac:(discriminate)
                (ledgerOf (transferTx 50000 (Some 1700000000)))
                (Some sampleSignature) None freshWorld)
      as [_ [_ [_ [_ Hinh]]]].
    destruct (Hinh ltac:(now left) sampleSignature eq_refl ltac:(discriminate)
                ltac:(vm_compute; discriminate) eq_refl) as [Hrpc _].
    exact Hrpc.
Defined.

Lemma configOf_receiver_nonempty (e : ProcessEnv) :
  RECEIVER_WALLET (configOf e) <> "".
Proof.
  unfold configOf. simpl.
  destruct (REPUTATION_RECEIVER_WALLET e) as [a |];
    [destruct (String.eqb a "") eqn:Ea |];
    try (destruct (SOLANA_WALLET_ADDRESS e) as [b |];
         [destruct (String.eqb b "") eqn:Eb |]);
    simpl; try discriminate;
    first [now apply String.eqb_neq in Ea | now apply String.eqb_neq in Eb].
Qed.

(** *** X19 *)

(** X19.  The client reads back what the route advertises.  For every
    setting of the environment, [parsePaymentRequirements] applied to the
    body of [createPaymentRequiredResponse] gives the route's
    [RECEIVER_WALLET], which is never empty, its [PRICE_USDC], the token
    USDC, and as network a display name that is no key of [USDC_MINTS].
    It is assumed of the host that [(0.05).toString()] is ["0.05"] and
    that [parseFloat("0.05")] is 0.05. *)
Theorem advertised_descriptor_read_back
  (parseFloat : string -> number) (toString : jsval -> Thrown + string)
  (this : Wallet) (e : ProcessEnv) (tr : list Event) :
  toString (JNum PRICE_USDC) = inr PRICE_USDC_toString ->
  parseFloat PRICE_USDC_toString = PRICE_USDC ->
  exists display,
    parsePaymentRequirements parseFloat toString this
      (jr_body (createPaymentRequiredResponse (configOf e))) tr
    = (inl (mkRequirements (JStr (RECEIVER_WALLET (configOf e))) PRICE_USDC
              (JStr "USDC") (JStr display)), tr)
    /\ RECEIVER_WALLET (configOf e) <> ""
    /\ USDC_MINTS display = None.
Proof.
  intros HtoS HpF.
  exists (if String.eqb (NETWORK (configOf e)) "devnet"
          then "Solana Devnet" else "Solana Mainnet").
  pose proof (configOf_receiver_nonempty e) as Hr.
  split; [| split; [exact Hr |]].
  - apply String.eqb_neq in Hr.
    unfold createPaymentRequiredResponse, parsePaymentRequirements. cbv zeta.
    cbn [jr_body get lookup String.eqb Ascii.eqb Bool.eqb orElse truthy negb].
    unfold orElse. cbn [truthy]. rewrite Hr. cbn [negb].
    unfold amountText, bind, lift. rewrite HtoS. unfold ret.
    cbn [removeDollar PRICE_USDC_toString Ascii.eqb Bool.eqb truthyString
         String.eqb negb].
    change "0.05" with PRICE_USDC_toString. rewrite HpF.
    destruct (String.eqb (NETWORK (configOf e)) "devnet"); reflexivity.
  - destruct (String.eqb (NETWORK (configOf e)) "devnet"); reflexivity.
Qed.

Lemma advertised_descriptor_read_back_witness :
  fst (parsePaymentRequirements sampleParseFloat sampleToString sampleWallet
         (jr_body (createPaymentRequiredResponse (configOf devnetEnv))) [])
  = inl (mkRequirements (JStr "bob") PRICE_USDC (JStr "USDC")
           (JStr "Solana Devnet")).
Proof.
  destruct (advertised_descriptor_read_back sampleParseFloat sampleToString
              sampleWallet devnetEnv [] eq_refl eq_refl)
    as [display [E _]].
  rewrite E. vm_compute in E. inversion E. reflexivity.
Defined.

(** *** X20 *)

(** X20.  Client and route agree on the amount.  The number of smallest
    units that [sendUSDCPayment] computes for the advertised price,
    [Math.round(PRICE_USDC * 1_000_000)], is 50000, and a transaction that
    credits the receiver with that many units passes the amount check of
    [verifyPayment]: presented to [GET] with a [wallet] parameter, it is
    answered 200 whenever the call gets as far as the transfer
    extraction. *)
Theorem advertised_price_paid_is_accepted
  (cfg : Config) (env : Env) (h : string) (walletParam : option string)
  (w : World) (tx : ParsedTransactionWithMeta) (m : string) (raw : Z) :
  h <> "" ->
  80 <= Z.of_nat (String.length (signatureOf h)) ->
  reachesTransferCheck env (signatureOf h) (NETWORK cfg) w tx m ->
  Math_round (mul PRICE_USDC (Number 1000000)) = Some raw ->
  TransferSearchResult.amount (findUSDCTransfer tx m (RECEIVER_WALLET cfg))
  = Some (Number raw) ->
  raw = 50000
  /\ PaymentVerification.valid
       (fst (verifyPayment env (signatureOf h) PRICE_USDC
               (RECEIVER_WALLET cfg) (NETWORK cfg) w)) = true
  /\ (truthyString walletParam = true ->
      status (fst (GET cfg env (Some h) walletParam w)) = 200).
Proof.
  intros Hne Hlen Hreach Hround Hamt.
  assert (Hraw : raw = 50000) by (vm_compute in Hround; congruence).
  subst raw. split; [reflexivity |].
  assert (Hfound : TransferSearchResult.found
                     (findUSDCTransfer tx m (RECEIVER_WALLET cfg)) = true).
  { destruct (TransferSearchResult.found
                (findUSDCTransfer tx m (RECEIVER_WALLET cfg))) eqn:Hf;
      [reflexivity |].
    rewrite (findUSDCTransfer_not_found _ _ _ Hf) in Hamt. discriminate. }
  assert (Hvalid : PaymentVerification.valid
                     (fst (verifyPayment env (signatureOf h) PRICE_USDC
                             (RECEIVER_WALLET cfg) (NETWORK cfg) w)) = true).
  { rewrite (verifyPayment_reaches _ _ PRICE_USDC (RECEIVER_WALLET cfg) _ _ _ _ Hreach).
    unfold checkTransfer. cbv zeta. rewrite Hfound. unfold amountOf.
    rewrite Hamt. cbn [negb].
    replace (gt (Math_abs (sub (Number 50000) (mul PRICE_USDC (Number 1000000))))
                (Number 1000)) with false by (vm_compute; reflexivity).
    reflexivity. }
  split; [exact Hvalid |].
  intros Hwp. rewrite (GET_after_shape cfg env h walletParam w Hne Hlen).
  destruct (verifyPayment env (signatureOf h) PRICE_USDC
              (RECEIVER_WALLET cfg) (NETWORK cfg) w) as [v w'].
  cbn [fst] in Hvalid. rewrite Hvalid, Hwp. cbn [negb].
  destruct walletParam as [q |]; [| discriminate].
  simpl in Hwp. destruct (String.eqb q ""); [discriminate | reflexivity].
Qed.

Lemma advertised_price_paid_is_accepted_witness :
  status (fst (GET sampleConfig (ledgerOf (transferTx 50000 (Some 1700000000)))
                 (Some sampleSignature) (Some "carol") freshWorld)) = 200.
Proof.
  destruct (advertised_price_paid_is_accepted sampleConfig
              (ledgerOf (transferTx 50000 (Some 1700000000)))
              sampleSignature (Some "carol") freshWorld
              (transferTx 50000 (Some 1700000000)) devnetMint 50000)
    as [_ [_ H]].
  - discriminate.
  - vm_compute. discriminate.
  - repeat split; vm_compute; reflexivity.
  - vm_compute. reflexivity.
  - vm_compute. reflexivity.
  - apply H. reflexivity.
Defined.

Lemma POST_after_shape (cfg : Config) (env : Env) (h : string)
  (body : Thrown + jsval) (w : World) :
  h <> "" ->
  80 <= Z.of_nat (String.length (signatureOf h)) ->
  POST cfg env (Some h) body w
  = let '(verification, w') :=
      verifyPayment env (signatureOf h) PRICE_USDC
        (RECEIVER_WALLET cfg) (NETWORK cfg) w in
    if negb (PaymentVerification.valid verification)
    then (inr (VerificationFailed402 (PaymentVerification.error verification)), w')
    else
      let queryWallet :=
        match body with
        | inr b =>
            match b with
            | JUndefined | JNull => senderValue verification
            | _ => orElse (get b "wallet") (senderValue verification)
            end
        | inl _ => senderValue verification
        end in
      if negb (truthy queryWallet) then (inr NoWalletProvided400, w')
      else
        match queryWallet with
        | JStr q => (inr (Reputation200 q verification (signatureOf h)), w')
        | _ => (inl (ThrownError (Text "walletAddress.split is not a function")), w')
        end.
Proof.
  intros Hne Hlen. unfold POST. fold (signatureOf h).
  apply String.eqb_neq in Hne. rewrite Hne.
  assert (E1 : String.eqb (signatureOf h) "" = false).
  { apply String.eqb_neq. intros E. rewrite E in Hlen. simpl in Hlen. lia. }
  assert (E2 : (Z.of_nat (String.length (signatureOf h)) <? 80) = false)
    by (apply Z.ltb_ge; exact Hlen).
  rewrite E1, E2. reflexivity.
Qed.

(** What [GET] makes of the wallet it is given and [POST] of a string
    wallet or of none. *)
Lemma wallet_choice (walletParam : option string) (v : PaymentVerification.t)
  (sg : string) (w' : World) :
  let queryWallet :=
    match walletParam with
    | Some q => orElse (JStr q) (senderValue v)
    | None => senderValue v
    end in
  (if negb (truthy queryWallet) then (inr NoWalletProvided400, w')
   else
     match queryWallet with
     | JStr q => (inr (Reputation200 q v sg), w')
     | _ => (inl (ThrownError (Text "walletAddress.split is not a function")), w')
     end)
  = (inr (asPOST (fst match (if truthyString walletParam then walletParam
                             else PaymentVerification.sender v) with
                      | Some q =>
                          if String.eqb q "" then (NoWallet400, w')
                          else (Reputation200 q v sg, w')
                      | None => (NoWallet400, w')
                      end)) : Thrown + Response,
     w').
Proof.
  cbv zeta. unfold orElse, senderValue.
  destruct walletParam as [q |]; cbn [truthyString truthy].
  - destruct (String.eqb q "") eqn:Eq; cbn [negb].
    + destruct (PaymentVerification.sender v) as [s |]; cbn [truthy negb];
        [destruct (String.eqb s "") |]; reflexivity.
    + cbn [truthy]. rewrite Eq. reflexivity.
  - destruct (PaymentVerification.sender v) as [s |]; cbn [truthy negb];
      [destruct (String.eqb s "") |]; reflexivity.
Qed.

(** *** X21 *)

(** X21.  [POST] answers like [GET], with the wallet read from the
    request body in place of the [wallet] parameter: a body that cannot be
    read, is [null] or names no wallet is treated like a missing
    parameter, and a body whose [wallet] is a string like that string as
    parameter.  The status and the state after the call are the same, and
    so is the body of the answer, with one exception: the 400 for a wallet
    that could not be determined carries the message of [POST], not that
    of [GET]. *)
Theorem POST_reads_wallet_from_body
  (cfg : Config) (env : Env) (authHeader : option string)
  (body : Thrown + jsval) (walletParam : option string) (w : World) :
  bodyWallet body = Some walletParam ->
  POST cfg env authHeader body w
  = (inr (asPOST (fst (GET cfg env authHeader walletParam w))),
     snd (GET cfg env authHeader walletParam w))
  /\ status (asPOST (fst (GET cfg env authHeader walletParam w)))
     = status (fst (GET cfg env authHeader walletParam w))
  /\ fst (GET cfg env authHeader walletParam w) <> NoWalletProvided400.
Proof.
  intros Hb.
  assert (Hs : status (asPOST (fst (GET cfg env authHeader walletParam w)))
               = status (fst (GET cfg env authHeader walletParam w)))
    by (destruct (fst (GET cfg env authHeader walletParam w)); reflexivity).
  assert (Hn : fst (GET cfg env authHeader walletParam w) <> NoWalletProvided400).
  { unfold GET. destruct authHeader as [h |]; [| discriminate].
    destruct (String.eqb h ""); [discriminate |].
    destruct (_ || _); [discriminate |].
    destruct (verifyPayment _ _ _ _ _ _) as [v w'].
    destruct (negb _); [discriminate |].
    destruct (if truthyString walletParam then walletParam
              else PaymentVerification.sender v) as [q |]; [| discriminate].
    destruct (String.eqb q ""); discriminate. }
  split; [| split; [exact Hs | exact Hn]].
  clear Hs Hn. destruct authHeader as [h |]; [| reflexivity].
  destruct (String.eqb h "") eqn:Eh.
  { unfold POST, GET. rewrite Eh. reflexivity. }
  destruct (Z.of_nat (String.length (signatureOf h)) <? 80) eqn:El.
  { unfold POST, GET. fold (signatureOf h). rewrite Eh, El, orb_true_r.
    reflexivity. }
  apply String.eqb_neq in Eh. apply Z.ltb_ge in El.
  rewrite (POST_after_shape cfg env h body w Eh El),
          (GET_after_shape cfg env h walletParam w Eh El).
  destruct (verifyPayment env (signatureOf h) PRICE_USDC
              (RECEIVER_WALLET cfg) (NETWORK cfg) w) as [v w'].
  destruct (PaymentVerification.valid v); cbn [negb]; [| reflexivity].
  assert (Hq : match body with
               | inr b =>
                   match b with
                   | JUndefined | JNull => senderValue v
                   | _ => orElse (get b "wallet") (senderValue v)
                   end
               | inl _ => senderValue v
               end
               = match walletParam with
                 | Some q => orElse (JStr q) (senderValue v)
                 | None => senderValue v
                 end).
  { unfold bodyWallet in Hb.
    destruct body as [t | b]; [now inversion Hb |].
    destruct b; try (now inversion Hb);
      (destruct (get _ "wallet") as [| | c | x | s | l | f] eqn:Eg;
       [ inversion Hb; reflexivity
       | inversion Hb; reflexivity
       | cbn [truthy] in Hb; destruct c; inversion Hb; reflexivity
       | cbn [truthy] in Hb; destruct x; inversion Hb; reflexivity
       | inversion Hb; reflexivity
       | cbn [truthy] in Hb; inversion Hb
       | cbn [truthy] in Hb; inversion Hb ]). }
  cbv zeta. rewrite Hq.
  rewrite (wallet_choice walletParam v (signatureOf h) w').
  destruct (if truthyString walletParam then walletParam
            else PaymentVerification.sender v) as [q |]; [| reflexivity].
  destruct (String.eqb q ""); reflexivity.
Qed.

Lemma POST_reads_wallet_from_body_witness :
  POST sampleConfig (ledgerOf (transferTx 50000 (Some 1700000000)))
    (Some sampleSignature) (inr (JObj [("wallet", JStr "carol")])) freshWorld
  = (inr (asPOST
            (fst (GET sampleConfig (ledgerOf (transferTx 50000 (Some 1700000000)))
                    (Some sampleSignature) (Some "carol") freshWorld))),
     snd (GET sampleConfig (ledgerOf (transferTx 50000 (Some 1700000000)))
            (Some sampleSignature) (Some "carol") freshWorld))
  /\ fst (POST sampleConfig (ledgerOf splitTx) (Some sampleSignature)
            (inr (JObj [])) freshWorld)
     = inr NoWalletProvided400
  /\ fst (GET sampleConfig (ledgerOf splitTx) (Some sampleSignature) None
            freshWorld)
     = NoWallet400.
Proof.
  destruct (POST_reads_wallet_from_body sampleConfig
              (ledgerOf (transferTx 50000 (Some 1700000000)))
              (Some sampleSignature) (inr (JObj [("wallet", JStr "carol")]))
              (Some "carol") freshWorld eq_refl) as [Hcarol _].
  destruct (POST_reads_wallet_from_body sampleConfig (ledgerOf splitTx)
              (Some sampleSignature) (inr (JObj [])) None freshWorld eq_refl)
    as [Hnone _].
  assert (Hget : fst (GET sampleConfig (ledgerOf splitTx) (Some sampleSignature)
                        None freshWorld) = NoWallet400)
    by (vm_compute; reflexivity).
  split; [exact Hcarol |]. split; [| exact Hget].
  rewrite Hnone, Hget. reflexivity.
Defined.

(** *** X22 *)

(** X22.  A request body whose [wallet] is truthy and not a string (a
    number, [true], an array, an object) makes [POST] throw after the
    payment has been verified: [generateReputationData] calls [split] on
    it and nothing catches the error.  The signature is in the used set
    when the error leaves the handler, so the payment cannot be presented
    again. *)
Theorem non_string_wallet_throws_after_payment
  (cfg : Config) (env : Env) (h : string) (body : Thrown + jsval) (w : World) :
  h <> "" ->
  80 <= Z.of_nat (String.length (signatureOf h)) ->
  PaymentVerification.valid
    (fst (verifyPayment env (signatureOf h) PRICE_USDC
            (RECEIVER_WALLET cfg) (NETWORK cfg) w)) = true ->
  bodyWallet body = None ->
  (exists t, fst (POST cfg env (Some h) body w) = inl t)
  /\ In (signatureOf h) (usedSignatures (snd (POST cfg env (Some h) body w)))
  /\ forall env2 body2,
       fst (POST cfg env2 (Some h) body2 (snd (POST cfg env (Some h) body w)))
       = inr (VerificationFailed402 (Some ReplayDetected)).
Proof.
  intros Hne Hlen Hvalid Hb.
  pose proof (verifyPayment_set env (signatureOf h) PRICE_USDC
                (RECEIVER_WALLET cfg) (NETWORK cfg) w) as Hset.
  rewrite (POST_after_shape cfg env h body w Hne Hlen).
  destruct (verifyPayment env (signatureOf h) PRICE_USDC
              (RECEIVER_WALLET cfg) (NETWORK cfg) w) as [v w'].
  cbn [fst] in Hvalid. rewrite Hvalid. cbn [negb]. cbv zeta.
  destruct Hset as [[Hv _] | [_ [Hfresh Hused]]]; [congruence |].
  assert (Hin : In (signatureOf h) (usedSignatures w'))
    by (rewrite Hused; now apply commitSignature_In).
  assert (Hthrow :
    (if negb (truthy match body with
                     | inr b =>
                         match b with
                         | JUndefined | JNull => senderValue v
                         | _ => orElse (get b "wallet") (senderValue v)
                         end
                     | inl _ => senderValue v
                     end)
     then (inr NoWalletProvided400, w')
     else
       match (match body with
              | inr b =>
                  match b with
                  | JUndefined | JNull => senderValue v
                  | _ => orElse (get b "wallet") (senderValue v)
                  end
              | inl _ => senderValue v
              end) with
       | JStr q => (inr (Reputation200 q v (signatureOf h)), w')
       | _ => (inl (ThrownError (Text "walletAddress.split is not a function")), w')
       end)
    = (inl (ThrownError (Text "walletAddress.split is not a function"))
         : Thrown + Response, w')).
  { unfold bodyWallet in Hb.
    destruct body as [t | b]; [discriminate |].
    destruct b; try discriminate;
      (unfold orElse;
       destruct (get _ "wallet") as [| | c | x | s | l | f] eqn:Eg;
       cbn [truthy] in Hb |- *; try discriminate;
       [ destruct c; [reflexivity | discriminate]
       | destruct x; first [discriminate | reflexivity]
       | reflexivity
       | reflexivity ]). }
  rewrite Hthrow. cbn [fst snd].
  split; [eexists; reflexivity |]. split; [exact Hin |].
  intros env2 body2. rewrite (POST_after_shape cfg env2 h body2 w' Hne Hlen).
  unfold verifyPayment. apply has_In in Hin. rewrite Hin. reflexivity.
Qed.

Lemma non_string_wallet_throws_after_payment_witness :
  let run := POST sampleConfig (ledgerOf (transferTx 50000 (Some 1700000000)))
               (Some sampleSignature) (inr (JObj [("wallet", JNum (Number 7))]))
               freshWorld in
  (exists t, fst run = inl t)
  /\ In sampleSignature (usedSignatures (snd run)).
Proof.
  cbv zeta.
  destruct (non_string_wallet_throws_after_payment sampleConfig
              (ledgerOf (transferTx 50000 (Some 1700000000)))
              sampleSignature (inr (JObj [("wallet", JNum (Number 7))]))
              freshWorld)
    as [Ht [Hin _]].
  - discriminate.
  - vm_compute. discriminate.
  - vm_compute. reflexivity.
  - vm_compute. reflexivity.
  - split; [exact Ht | exact Hin].
Defined.

Lemma fold_codes_shift (l : list ascii) (a : Z) :
  fold_left (fun a c => a + Z.of_nat (nat_of_ascii c)) l a
  = a + fold_left (fun a c => a + Z.of_nat (nat_of_ascii c)) l 0.
Proof.
  revert a. induction l as [| c l IH]; intros a; simpl; [lia |].
  rewrite (IH (a + _)), (IH (Z.of_nat _)). lia.
Qed.

Lemma addressHash_nonneg (s : string) : 0 <= addressHash s.
Proof.
  unfold addressHash.
  induction (list_ascii_of_string s) as [| c l IH]; simpl; [lia |].
  rewrite fold_codes_shift. lia.
Qed.

Lemma addressHash_Permutation (s1 s2 : string) :
  Permutation (list_ascii_of_string s1) (list_ascii_of_string s2) ->
  addressHash s1 = addressHash s2.
Proof.
  unfold addressHash. intros H.
  induction H as [| c l1 l2 _ IH | c d l | l1 l2 l3 _ IH1 _ IH2]; simpl.
  - reflexivity.
  - rewrite (fold_codes_shift l1 _), (fold_codes_shift l2 _), IH. reflexivity.
  - f_equal. lia.
  - congruence.
Qed.

Lemma filterByIndex_mod (h i : Z) (l : list string) :
  filterByIndex h i l = filterByIndex (h mod 3) i l.
Proof.
  revert i. induction l as [| b l IH]; intros i; simpl; [reflexivity |].
  rewrite Z.add_mod_idemp_l by lia. now rewrite !IH.
Qed.

Section ReputationProperties.

Variable parseFloat : string -> number.
Variable toFixed2 : number -> string.

(** *** X23 *)

(** X23.  Whatever the wallet address, the data of
    [generateReputationData] has a score between 50 and 99, two or three
    badges of which the first is the main badge and is one of Diamond
    Hands, Early Adopter and DeFi Degen (the fall-back Newcomer is never
    used), a defined age, between 100 and 5099 transactions and between
    10 and 209 interactions; the tier is Bronze exactly for the scores
    below 60 and Platinum exactly for those from 90. *)
Theorem reputation_data_ranges (walletAddress : string)
  (paymentVerification : PaymentVerification.t) (isoNow1 isoNow2 : string) :
  let d := generateReputationData parseFloat toFixed2 walletAddress
             paymentVerification isoNow1 isoNow2 in
  50 <= ReputationData.score d <= 99
  /\ (2 <= List.length (ReputationData.badges d) <= 3)%nat
  /\ (exists rest, ReputationData.badges d = ReputationData.badge d :: rest)
  /\ In (ReputationData.badge d) ["Diamond Hands"; "Early Adopter"; "DeFi Degen"]
  /\ ReputationData.badge d <> "Newcomer"
  /\ (exists a, ReputationData.age d = Some a /\ In a ageOptions)
  /\ 100 <= ReputationData.totalTransactions (ReputationData.metrics d) <= 5099
  /\ 10 <= ReputationData.uniqueInteractions (ReputationData.metrics d) <= 209
  /\ (ReputationData.tier d = "Bronze" <-> ReputationData.score d < 60)
  /\ (ReputationData.tier d = "Platinum" <-> 90 <= ReputationData.score d).
Proof.
  cbv zeta. unfold generateReputationData. cbv zeta.
  cbn [ReputationData.score ReputationData.badges ReputationData.badge
       ReputationData.age ReputationData.metrics ReputationData.tier
       ReputationData.totalTransactions ReputationData.uniqueInteractions].
  pose proof (addressHash_nonneg walletAddress) as H0.
  set (h := addressHash walletAddress) in *.
  pose proof (Z.mod_pos_bound h 50 ltac:(lia)) as H50.
  pose proof (Z.mod_pos_bound h 5000 ltac:(lia)) as H5000.
  pose proof (Z.mod_pos_bound h 200 ltac:(lia)) as H200.
  pose proof (Z.mod_pos_bound h 6 ltac:(lia)) as H6.
  pose proof (Z.mod_pos_bound h 3 ltac:(lia)) as H3.
  split; [lia |].
  assert (Hb : (2 <= List.length (filterByIndex h 0 badgeNames) <= 3)%nat
               /\ (exists rest,
                      filterByIndex h 0 badgeNames
                      = match filterByIndex h 0 badgeNames with
                        | b :: _ => if negb (String.eqb b "") then b else "Newcomer"
                        | [] => "Newcomer"
                        end :: rest)
               /\ In match filterByIndex h 0 badgeNames with
                     | b :: _ => if negb (String.eqb b "") then b else "Newcomer"
                     | [] => "Newcomer"
                     end ["Diamond Hands"; "Early Adopter"; "DeFi Degen"]
               /\ match filterByIndex h 0 badgeNames with
                  | b :: _ => if negb (String.eqb b "") then b else "Newcomer"
                  | [] => "Newcomer"
                  end <> "Newcomer").
  { rewrite filterByIndex_mod.
    assert (Hc : h mod 3 = 0 \/ h mod 3 = 1 \/ h mod 3 = 2) by lia.
    destruct Hc as [E | [E | E]]; rewrite E; vm_compute;
      (split; [lia |]);
      (split; [eexists; reflexivity |]);
      (split; [tauto | discriminate]). }
  destruct Hb as [Hlen [Hhead [Hin Hnew]]].
  split; [exact Hlen |]. split; [exact Hhead |]. split; [exact Hin |].
  split; [exact Hnew |].
  split.
  { assert (Hc : h mod 6 = 0 \/ h mod 6 = 1 \/ h mod 6 = 2 \/ h mod 6 = 3
                 \/ h mod 6 = 4 \/ h mod 6 = 5) by lia.
    destruct Hc as [E | [E | [E | [E | [E | E]]]]]; rewrite E;
      eexists; (split; [reflexivity |]); simpl; tauto. }
  split; [lia |]. split; [lia |].
  unfold tierOf.
  destruct (90 <=? 50 + h mod 50) eqn:E90;
    [apply Z.leb_le in E90 | apply Z.leb_gt in E90];
    (destruct (75 <=? 50 + h mod 50) eqn:E75;
     [apply Z.leb_le in E75 | apply Z.leb_gt in E75]);
    (destruct (60 <=? 50 + h mod 50) eqn:E60;
     [apply Z.leb_le in E60 | apply Z.leb_gt in E60]);
    split; split; intros H; first [discriminate | lia | reflexivity].
Qed.

(** *** X24 *)

(** X24.  The reputation data depend on the wallet address through the
    sum of its characters only: two addresses made of the same characters
    in a different order get the same score, tier, main badge, badges,
    age and metrics. *)
Theorem reputation_same_for_reordered_address (wallet1 wallet2 : string)
  (paymentVerification : PaymentVerification.t) (isoNow1 isoNow2 : string) :
  Permutation (list_ascii_of_string wallet1) (list_ascii_of_string wallet2) ->
  generateReputationData parseFloat toFixed2 wallet2 paymentVerification
    isoNow1 isoNow2
  = let d := generateReputationData parseFloat toFixed2 wallet1
               paymentVerification isoNow1 isoNow2 in
    ReputationData.mk wallet2
      (ReputationData.score d) (ReputationData.badge d) (ReputationData.tier d)
      (ReputationData.age d) (ReputationData.metrics d) (ReputationData.badges d)
      (ReputationData.lastUpdated d) (ReputationData.paymentVerification d).
Proof.
  intros H. cbv zeta. unfold generateReputationData. cbv zeta.
  rewrite (addressHash_Permutation wallet1 wallet2 H). reflexivity.
Qed.

(** *** X25 *)

(** X25.  The demo of the landing page and the API.  For every wallet on
    which [handleCheck] shows a result, the score, the tier and the number
    of transactions shown are those the API computes for that wallet, and
    the API's trust score is [parseFloat] of the text the demo shows.  The
    badge shown is the API's main badge exactly when the sum of the
    characters is 0, 5 or 10 modulo 12. *)
Theorem demo_agrees_with_api_on_score (wallet : string) (r : DemoResult.t)
  (paymentVerification : PaymentVerification.t) (isoNow1 isoNow2 : string) :
  handleCheck toFixed2 wallet = Some r ->
  let d := generateReputationData parseFloat toFixed2 wallet
             paymentVerification isoNow1 isoNow2 in
  DemoResult.walletAddress r = ReputationData.walletAddress d
  /\ DemoResult.score r = ReputationData.score d
  /\ DemoResult.tier r = ReputationData.tier d
  /\ DemoResult.totalTransactions r
     = ReputationData.totalTransactions (ReputationData.metrics d)
  /\ ReputationData.trustScore (ReputationData.metrics d)
     = parseFloat (DemoResult.trustScore r)
  /\ (DemoResult.badge r = Some (ReputationData.badge d)
      <-> In (addressHash wallet mod 12) [0; 5; 10]).
Proof.
  unfold handleCheck. destruct (String.eqb wallet ""); [discriminate |].
  cbv zeta. intros Hr. inversion Hr; subst r; clear Hr.
  unfold generateReputationData. cbv zeta.
  cbn [DemoResult.walletAddress DemoResult.score DemoResult.tier
       DemoResult.totalTransactions DemoResult.trustScore DemoResult.badge
       ReputationData.walletAddress ReputationData.score ReputationData.tier
       ReputationData.metrics ReputationData.totalTransactions
       ReputationData.trustScore ReputationData.badge].
  do 5 (split; [reflexivity |]).
  set (h := addressHash wallet).
  rewrite filterByIndex_mod.
  change (Z.of_nat (List.length
            ["Diamond Hands"; "Early Adopter"; "DeFi Degen"; "NFT Collector"]))
    with 4.
  rewrite <- (Z.mod_mod_divide h 12 4) by (exists 3; reflexivity).
  rewrite <- (Z.mod_mod_divide h 12 3) by (exists 4; reflexivity).
  pose proof (Z.mod_pos_bound h 12 ltac:(lia)) as H12.
  assert (Hc : h mod 12 = 0 \/ h mod 12 = 1 \/ h mod 12 = 2 \/ h mod 12 = 3
               \/ h mod 12 = 4 \/ h mod 12 = 5 \/ h mod 12 = 6 \/ h mod 12 = 7
               \/ h mod 12 = 8 \/ h mod 12 = 9 \/ h mod 12 = 10
               \/ h mod 12 = 11) by lia.
  destruct Hc as [E | [E | [E | [E | [E | [E | [E | [E | [E | [E | [E | E]]]]]]]]]]];
    rewrite E; vm_compute; split; intros H;
    first [reflexivity | discriminate | tauto | exfalso; lia].
Qed.

End ReputationProperties.

Lemma reputation_same_for_reordered_address_witness :
  ReputationData.score
    (generateReputationData sampleParseFloat (fun _ => "0.05") "ab1"
       (failure ReplayDetected) "t1" "t2")
  = ReputationData.score
      (generateReputationData sampleParseFloat (fun _ => "0.05") "1ba"
         (failure ReplayDetected) "t1" "t2").
Proof.
  assert (P : Permutation (list_ascii_of_string "ab1") (list_ascii_of_string "1ba")).
  { simpl. apply Permutation_sym.
    apply (perm_trans (l' := ["b"%char; "1"%char; "a"%char]));
      [apply perm_swap |].
    apply (perm_trans (l' := ["b"%char; "a"%char; "1"%char]));
      [apply perm_skip, perm_swap | apply perm_swap]. }
  rewrite (reputation_same_for_reordered_address sampleParseFloat (fun _ => "0.05")
             "ab1" "1ba" (failure ReplayDetected) "t1" "t2" P).
  reflexivity.
Defined.

Lemma demo_agrees_with_api_on_score_witness :
  exists r,
    handleCheck (fun _ => "0.05") "alice" = Some r
    /\ DemoResult.score r
       = ReputationData.score
           (generateReputationData sampleParseFloat (fun _ => "0.05") "alice"
              (failure ReplayDetected) "t1" "t2").
Proof.
  eexists. split; [reflexivity |].
  apply (demo_agrees_with_api_on_score sampleParseFloat (fun _ => "0.05") "alice" _
           (failure ReplayDetected) "t1" "t2" eq_refl).
Defined.

(* ================================================================== *)
(** ** Properties of src/scripts/test-job.ts *)
(* ================================================================== *)

Lemma splitOn_cons (sep : ascii) (s : string) :
  exists p ps, splitOn sep s = p :: ps.
Proof.
  induction s as [| c r [p [ps IH]]]; simpl; [eauto |].
  destruct (Ascii.eqb c sep); [eauto |]. rewrite IH. eauto.
Qed.

Lemma join_splitOn (s : string) : join "=" (splitOn "="%char s) = s.
Proof.
  induction s as [| c r IH]; [reflexivity |].
  simpl splitOn. destruct (Ascii.eqb c "=") eqn:Ec.
  - apply Ascii.eqb_eq in Ec. subst c.
    destruct (splitOn_cons "="%char r) as [p [ps E]].
    rewrite E in *. rewrite <- IH. reflexivity.
  - destruct (splitOn_cons "="%char r) as [p [ps E]].
    rewrite E in *. rewrite <- IH. destruct ps; reflexivity.
Qed.

Lemma splitOn_cut (s : string) :
  splitOn "="%char s
  = match cutAtEquals s with
    | Some (k, v) => k :: splitOn "="%char v
    | None => [s]
    end.
Proof.
  induction s as [| c r IH]; [reflexivity |].
  simpl. destruct (Ascii.eqb c "="); [reflexivity |].
  rewrite IH. destruct (cutAtEquals r) as [[k v] |]; reflexivity.
Qed.

Lemma cutAtEquals_key (s k v : string) :
  cutAtEquals s = Some (k, v) ->
  ~ In "="%char (list_ascii_of_string k)
  /\ s = (k ++ String "=" v)%string.
Proof.
  revert k v. induction s as [| c r IH]; intros k v H; [discriminate |].
  simpl in H. destruct (Ascii.eqb c "=") eqn:Ec.
  - apply Ascii.eqb_eq in Ec. inversion H; subst. split; [intros [] | reflexivity].
  - destruct (cutAtEquals r) as [[k0 v0] |]; [| discriminate].
    inversion H; subst. destruct (IH k0 v eq_refl) as [Hk Hs].
    split.
    + simpl. intros [E | E]; [| now apply Hk].
      subst c. discriminate.
    + simpl. now rewrite <- Hs.
Qed.

Lemma trimStart_head (s : string) (c : ascii) (r : string) :
  trimStart s = String c r -> isSpace c = false.
Proof.
  induction s as [| a s IH]; simpl; [discriminate |].
  destruct (isSpace a) eqn:Ea; [exact IH |].
  intros H. inversion H; subst. exact Ea.
Qed.

Lemma trimEnd_head (s : string) (c : ascii) (r : string) :
  trimEnd s = String c r -> exists r0, s = String c r0 /\ r = trimEnd r0.
Proof.
  destruct s as [| a s]; simpl; [discriminate |].
  destruct (isSpace a && String.eqb (trimEnd s) ""); [discriminate |].
  intros H. inversion H; subst. eauto.
Qed.

Lemma trim_head (s : string) (c : ascii) (r : string) :
  trim s = String c r -> isSpace c = false.
Proof.
  unfold trim. intros H.
  destruct (trimEnd_head _ _ _ H) as [r0 [E _]].
  now apply trimStart_head in E.
Qed.

Lemma trim_keeps_head (c : ascii) (r : string) :
  isSpace c = false -> trim (String c r) = String c (trimEnd r).
Proof.
  intros H. unfold trim. cbn [trimStart]. rewrite H.
  cbn [trimEnd]. rewrite H. reflexivity.
Qed.

Lemma trimEnd_chars (x : ascii) (s : string) :
  In x (list_ascii_of_string (trimEnd s)) -> In x (list_ascii_of_string s).
Proof.
  induction s as [| c s IH]; simpl; [tauto |].
  destruct (isSpace c && String.eqb (trimEnd s) ""); simpl; [tauto |].
  intros [E | E]; [now left | right; now apply IH].
Qed.

Lemma setKey_In (k v : string) (env : Headers) (p : string * string) :
  In p (setKey k v env) -> p = (k, v) \/ In p env.
Proof.
  induction env as [| [k' v'] env IH]; simpl.
  - intros [E | []]. now left.
  - destruct (String.eqb k k'); simpl.
    + intros [E | E]; [now left | right; now right].
    + intros [E | E]; [right; now left |].
      destruct (IH E) as [H | H]; [now left | right; now right].
Qed.

Lemma headerValue_setKey (k v : string) (env : Headers) :
  headerValue k (setKey k v env) = Some v.
Proof.
  induction env as [| [k' v'] env IH]; simpl.
  - now rewrite String.eqb_refl.
  - destruct (String.eqb k k') eqn:E; simpl.
    + now rewrite String.eqb_refl.
    + now rewrite E.
Qed.

(** What a line does, read with [cutAtEquals]. *)
Lemma loadEnvLine_cut (env : Headers) (line : string) :
  loadEnvLine env line
  = match cutAtEquals (trim line) with
    | Some (k, v) =>
        if negb (String.eqb k "") && negb (isPrefix "#" k)
        then assign (trim k) (trim v) env
        else env
    | None => env
    end.
Proof.
  unfold loadEnvLine. cbv zeta. rewrite splitOn_cut.
  destruct (cutAtEquals (trim line)) as [[k v] |] eqn:Ec.
  - destruct (cutAtEquals_key _ _ _ Ec) as [_ Es].
    rewrite join_splitOn.
    destruct (splitOn_cons "="%char v) as [p [ps Ep]]. rewrite Ep.
    replace (0 <? Z.of_nat (List.length (p :: ps))) with true
      by (symmetry; apply Z.ltb_lt; simpl; lia).
    rewrite andb_true_r. rewrite Es.
    destruct k as [| a k].
    + cbn [append String.eqb negb andb isPrefix].
      destruct (negb (Ascii.eqb "#" "=" && true)); reflexivity.
    + cbn [append String.eqb negb andb isPrefix].
      destruct (Ascii.eqb "#" a); reflexivity.
  - cbn [List.length Z.of_nat Z.ltb Z.compare]. rewrite andb_false_r.
    destruct (negb (String.eqb (trim line) "") && negb (isPrefix "#" (trim line)));
      reflexivity.
Qed.

(** *** X26 *)

(** X26.  A line of [.env.local] assigns exactly when, once trimmed, it
    has a non-empty text in front of its first [=] and does not start with
    [#].  The key is then that text, trimmed, and the value is everything
    after the first [=], trimmed: further [=] signs belong to the value.
    After the line the key holds that value, whatever it held before
    (only the key [__proto__] is never stored).  Every other line leaves
    the record as it was. *)
Theorem env_line_splits_at_first_equals (env : Headers) (line : string) :
  match cutAtEquals (trim line) with
  | Some (k, v) =>
      if negb (String.eqb k "") && negb (isPrefix "#" k)
      then
        loadEnvLine env line = assign (trim k) (trim v) env
        /\ (trim k <> "__proto__" ->
            headerValue (trim k) (loadEnvLine env line) = Some (trim v))
        /\ (trim k = "__proto__" -> loadEnvLine env line = env)
      else loadEnvLine env line = env
  | None => loadEnvLine env line = env
  end.
Proof.
  rewrite loadEnvLine_cut.
  destruct (cutAtEquals (trim line)) as [[k v] |]; [| reflexivity].
  destruct (negb (String.eqb k "") && negb (isPrefix "#" k)); [| reflexivity].
  split; [reflexivity |]. unfold assign. split.
  - intros Hne. apply String.eqb_neq in Hne. rewrite Hne.
    apply headerValue_setKey.
  - intros He. rewrite He. reflexivity.
Qed.

Lemma env_line_splits_at_first_equals_witness :
  loadEnvLine [("SOLANA_PRIVATE_KEY", "old")] "  SOLANA_PRIVATE_KEY = abc=def  "
  = [("SOLANA_PRIVATE_KEY", "abc=def")].
Proof.
  pose proof (env_line_splits_at_first_equals [("SOLANA_PRIVATE_KEY", "old")]
                "  SOLANA_PRIVATE_KEY = abc=def  ") as H.
  vm_compute cutAtEquals in H. 
  cbn [String.eqb Ascii.eqb Bool.eqb negb andb isPrefix] in H.
  destruct H as [H _]. rewrite H. vm_compute. reflexivity.
Defined.

Lemma loadEnvLine_keys (env : Headers) (line : string) (p : string * string) :
  In p (loadEnvLine env line) ->
  In p env
  \/ (fst p <> ""
      /\ ~ In "="%char (list_ascii_of_string (fst p))
      /\ isPrefix "#" (fst p) = false
      /\ fst p <> "__proto__"
      /\ (forall c r, fst p = String c r -> isSpace c = false)).
Proof.
  rewrite loadEnvLine_cut.
  destruct (cutAtEquals (trim line)) as [[k v] |] eqn:Ec; [| now left].
  destruct (negb (String.eqb k "") && negb (isPrefix "#" k)) eqn:Ek; [| now left].
  apply andb_prop in Ek. destruct Ek as [Ek Eh].
  apply negb_true_iff in Ek. apply negb_true_iff in Eh.
  destruct (cutAtEquals_key _ _ _ Ec) as [Hno Es].
  destruct k as [| a k]; [discriminate |].
  assert (Ha : isSpace a = false) by (apply (trim_head line a (k ++ String "=" v)%string); exact Es).
  rewrite (trim_keeps_head a k Ha). unfold assign.
  destruct (String.eqb (String a (trimEnd k)) "__proto__") eqn:Ep; [now left |].
  intros Hin. apply setKey_In in Hin. destruct Hin as [E | Hin]; [| now left].
  right. subst p. cbn [fst].
  split; [discriminate |].
  split.
  { intros Hin. apply Hno. simpl in Hin |- *.
    destruct Hin as [E | E]; [now left | right; now apply trimEnd_chars]. }
  split.
  { cbn [isPrefix] in Eh |- *.
    destruct (Ascii.eqb "#" a); [discriminate | reflexivity]. }
  split; [now apply String.eqb_neq |].
  intros c r E. inversion E; subst. exact Ha.
Qed.

(** *** X27 *)

(** X27.  Every key of the record that [loadEnv] returns is well
    formed: it is not empty, holds no [=], does not start with [#] or
    with white space, and is not [__proto__].  [loadEnv] returns a record
    whenever the file exists. *)
Theorem loadEnv_keys_well_formed (file : option string) :
  (forall envContent, file = Some envContent -> exists env, loadEnv file = Some env)
  /\ forall env k v,
       loadEnv file = Some env -> In (k, v) env ->
       k <> ""
       /\ ~ In "="%char (list_ascii_of_string k)
       /\ isPrefix "#" k = false
       /\ k <> "__proto__"
       /\ (forall c r, k = String c r -> isSpace c = false).
Proof.
  split.
  { intros envContent E. subst file. simpl. eauto. }
  intros env k v Hl Hin. destruct file as [envContent |]; [| discriminate].
  simpl in Hl. inversion Hl; subst env; clear Hl.
  assert (Hgen : forall lines env0,
             (forall p, In p env0 ->
                fst p <> ""
                /\ ~ In "="%char (list_ascii_of_string (fst p))
                /\ isPrefix "#" (fst p) = false
                /\ fst p <> "__proto__"
                /\ (forall c r, fst p = String c r -> isSpace c = false)) ->
             forall p, In p (fold_left loadEnvLine lines env0) ->
                fst p <> ""
                /\ ~ In "="%char (list_ascii_of_string (fst p))
                /\ isPrefix "#" (fst p) = false
                /\ fst p <> "__proto__"
                /\ (forall c r, fst p = String c r -> isSpace c = false)).
  { induction lines as [| line lines IH]; intros env0 H0 p Hp; [now apply H0 |].
    simpl in Hp. apply (IH (loadEnvLine env0 line)); [| exact Hp].
    intros q Hq. destruct (loadEnvLine_keys env0 line q Hq) as [H | H];
      [now apply H0 | exact H]. }
  apply (Hgen (splitOn "010"%char envContent) [] ltac:(intros p []) (k, v) Hin).
Qed.

Lemma loadEnv_keys_well_formed_witness :
  loadEnv (Some sampleEnvFile)
  = Some [("SOLANA_PRIVATE_KEY", "abc=def");
          ("API_URL", "http://localhost:3000/api/reputation")]
  /\ "API_URL" <> "".
Proof.
  split; [vm_compute; reflexivity |].
  destruct (loadEnv_keys_well_formed (Some sampleEnvFile)) as [_ H].
  apply (H [("SOLANA_PRIVATE_KEY", "abc=def");
            ("API_URL", "http://localhost:3000/api/reputation")]
           "API_URL" "http://localhost:3000/api/reputation").
  - vm_compute. reflexivity.
  - right. now left.
Defined.

(* ================================================================== *)
(** ** Properties of [getBalance] *)
(* ================================================================== *)

(** *** X28 *)

(** X28.  [getBalance] reads the token account that [pay] debits.  When
    a [pay] call has submitted a transfer, [getBalance] on the same chain
    reads the source account of that transfer and returns its balance
    divided by 1000000, a balance that covers the transfer.  When the
    token account cannot be read, [getBalance] returns 0 where [pay]
    fails; it throws only if the mint or the account address cannot be
    derived. *)
Theorem getBalance_reads_paying_account
  (parseFloat : string -> number) (toString : jsval -> Thrown + string)
  (net : Net) (this : Wallet) (tr : list Event) :
  (forall url maxAmount options x,
     In (EvSendAndConfirmTransaction x)
        (snd (pay parseFloat toString net this url maxAmount options [])) ->
     exists bal,
       getAccount net (source x) = inr bal
       /\ amountRaw x <= bal
       /\ getBalance net this tr
          = (inl (div (Number bal) (Number 1000000)),
             tr ++ [EvGetAccount (source x)]))
  /\ (forall usdcMint tokenAccount t,
        PublicKey_new net
          (match USDC_MINTS (network this) with
           | Some m => JStr m
           | None => JUndefined
           end) = inr usdcMint ->
        getAssociatedTokenAddress net usdcMint (publicKey this) = inr tokenAccount ->
        getAccount net tokenAccount = inl t ->
        getBalance net this tr = (inl (Number 0), tr ++ [EvGetAccount tokenAccount])
        /\ forall receiver amount,
             fst (sendUSDCPayment net this receiver amount tr) = inr t
             \/ exists t', PublicKey_new net receiver = inl t'
                           \/ (exists r, PublicKey_new net receiver = inr r
                                /\ getAssociatedTokenAddress net usdcMint r = inl t')).
Proof.
  split.
  - intros url maxAmount options x Hin.
    destruct (pay_cases parseFloat toString net this url maxAmount options)
      as [E | [[s E] | [[a E] | [[a [x0 E]]
        | [response [paymentInfo [requirements [x' [bal H]]]]]]]]].
    + rewrite E in Hin. simpl in Hin. destruct Hin as [H | []]. discriminate.
    + rewrite E in Hin. simpl in Hin. destruct Hin as [H | [H | []]]; discriminate.
    + rewrite E in Hin. simpl in Hin.
      destruct Hin as [H | [H | [H | []]]]; discriminate.
    + rewrite E in Hin. simpl in Hin.
      destruct Hin as [H | [H | [H | [H | []]]]]; discriminate.
    + destruct H as [_ [_ [_ [_ [_ [_ [Hacc [Hle [_ [Hwire Hrun]]]]]]]]]].
      cbv zeta in Hrun.
      assert (Hx : x = x').
      { destruct (sendAndConfirmTransaction net x') as [t | sig];
          rewrite Hrun in Hin; simpl in Hin.
        - destruct Hin as [H | [H | [H | [H | [H | []]]]]]; try discriminate.
          now inversion H.
        - destruct (fetch net (retryRequest url options sig)); simpl in Hin.
          + destruct Hin as [H | [H | [H | [H | [H | [H | []]]]]]]; try discriminate.
            now inversion H.
          + destruct Hin as [H | [H | [H | [H | [H | [H | [H | []]]]]]]];
              try discriminate.
            now inversion H. }
      subst x'. exists bal. split; [exact Hacc |]. split; [exact Hle |].
      destruct Hwire as [usdcMint [receiverPubkey [Hm [_ [Hs _]]]]].
      unfold getBalance, bind, lift, emit, ret. rewrite Hm, Hs, Hacc. reflexivity.
  - intros usdcMint tokenAccount t Hm Hs Hacc. split.
    + unfold getBalance, bind, lift, emit, ret. rewrite Hm, Hs, Hacc. reflexivity.
    + intros receiver amount.
      unfold sendUSDCPayment, bind, lift, emit. rewrite Hm.
      destruct (PublicKey_new net receiver) as [t' | r] eqn:Hr;
        [right; exists t'; now left |].
      rewrite Hs.
      destruct (getAssociatedTokenAddress net usdcMint r) as [t' | ra] eqn:Hra;
        [right; exists t'; right; exists r; now split |].
      rewrite Hacc. left. reflexivity.
Qed.

Lemma getBalance_reads_paying_account_witness :
  getBalance (gatedNet 1000000) sampleWallet []
  = (inl (div (Number 1000000) (Number 1000000)), [EvGetAccount "alice-ata"])
  /\ getBalance accountlessNet sampleWallet []
     = (inl (Number 0), [EvGetAccount "alice-ata"]).
Proof.
  destruct (getBalance_reads_paying_account sampleParseFloat sampleToString
              (gatedNet 1000000) sampleWallet []) as [Hpaid _].
  destruct (getBalance_reads_paying_account sampleParseFloat sampleToString
              accountlessNet sampleWallet []) as [_ Hmissing].
  split.
  - destruct (Hpaid "https://oracle.example/api/reputation" lit_0_05 noOptions
                (mkTransfer "alice-ata" "bob-ata" "alice" 50000))
      as [bal [Hacc [_ Hb]]].
    + vm_compute. right. right. right. right. now left.
    + simpl in Hacc. inversion Hacc; subst bal. exact Hb.
  - destruct (Hmissing devnetMint "alice-ata"
                (ThrownError (Text "TokenAccountNotFoundError"))
                eq_refl eq_refl eq_refl) as [Hb _].
    exact Hb.
Defined.
